(** * TOU Writer: a shallow embedding of [custom_components/tou_writer/__init__.py]

    The development follows the source file top to bottom:

    - the Python primitives the component relies on ([str.strip],
      [str.split], [int], the [02d] format, float arithmetic);
    - [_parse_time_to_minutes] and [_build_tariff] (the rate expansion);
    - [_send_to_teslemetry], [_send_with_retry], [_verify_tariff] and the
      service handler [async_handle_push_tou], written in a small
      state-and-exception monad over an explicit [World].

    Floats are Rocq's primitive binary64 floats, which are the floats of
    CPython; Python's [round(x, 6)] is computed from the exact value of the
    float.  Strings are byte strings; the models of [strip], [split],
    slicing and [int] are those of Python on ASCII text. *)

From Stdlib Require Import ZArith Ascii String List Lia.
From Stdlib Require Import Floats.PrimFloat Floats.SpecFloat Floats.FloatOps.
From Stdlib Require Floats.FloatAxioms.
From stdpp Require Import base option list gmap strings pretty.

Set Warnings "-register-all,-inexact-float".

Local Open Scope Z_scope.

(* ===================================================================== *)
(** * Python values, exceptions *)
(* ===================================================================== *)

Module Py.

(** The exception classes that occur in the component.  [ClientError] is
    [aiohttp.ClientError] (with its subclasses); [OtherException] stands
    for any further subclass of [Exception], named by [detail]. *)
Inductive exn_class :=
| ValueError | AttributeError | TypeError | IndexError | OverflowError
| ClientError | OtherException.

Record exn := Exn { cls : exn_class; detail : string }.

#[global] Instance exn_class_eq_dec : EqDecision exn_class.
Proof. solve_decision. Defined.
#[global] Instance exn_eq_dec : EqDecision exn.
Proof. solve_decision. Defined.

(** What a call does: it returns a value or raises. *)
Inductive outcome (A : Type) :=
| Returned (a : A)
| Raised (e : exn).
Arguments Returned {A} a.
Arguments Raised {A} e.

Definition obind {A B} (o : outcome A) (k : A -> outcome B) : outcome B :=
  match o with
  | Returned a => k a
  | Raised e => Raised e
  end.

#[global] Instance outcome_ret : MRet outcome := fun A a => Returned a.
#[global] Instance outcome_bind : MBind outcome := fun A B k o => obind o k.

Definition returns {A} (o : outcome A) : bool :=
  match o with Returned _ => true | Raised _ => false end.

(** ** [str.isspace] on ASCII, [str.strip], [str.split] *)

Definition isspace (c : ascii) : bool :=
  let n := nat_of_ascii c in
  (((9 <=? n) && (n <=? 13)) || ((28 <=? n) && (n <=? 32)))%nat.

Fixpoint lstrip (s : string) : string :=
  match s with
  | EmptyString => EmptyString
  | String c s' => if isspace c then lstrip s' else s
  end.

Fixpoint rstrip (s : string) : string :=
  match s with
  | EmptyString => EmptyString
  | String c s' =>
      match rstrip s' with
      | EmptyString => if isspace c then EmptyString else String c EmptyString
      | r => String c r
      end
  end.

Definition strip (s : string) : string := rstrip (lstrip s).

(** [s.split(sep)] for a one-character separator: never the empty list. *)
Fixpoint split (sep : ascii) (s : string) : list string :=
  match s with
  | EmptyString => [EmptyString]
  | String c s' =>
      if Ascii.eqb c sep then EmptyString :: split sep s'
      else match split sep s' with
           | p :: ps => String c p :: ps
           | [] => [String c EmptyString]
           end
  end.

(** ** [int(s)] for a [str], base 10

    White space around the literal is skipped; for [int] on ASCII text that
    is the white space of C: tab, line feed, vertical tab, form feed,
    carriage return and space.  The separators 28 to 31, which [str.strip]
    removes, are not skipped and make the literal invalid.  One sign is
    allowed, and the rest is a non-empty run of decimal digits in which
    single underscores may separate digits.

    CPython (3.11 and later) also refuses a literal of more than
    [int_max_str_digits] digits with a [ValueError]; 4300 is the default of
    [sys.set_int_max_str_digits], which the component does not change.
    Signs, underscores and white space do not count as digits.  The [detail]
    of the two errors differs; which of them an invalid literal with too many
    digits gets depends on the interpreter's version, and is the first
    here. *)

Definition c_isspace (c : ascii) : bool :=
  let n := nat_of_ascii c in
  (((9 <=? n) && (n <=? 13)) || (n =? 32))%nat.

Fixpoint int_lstrip (s : string) : string :=
  match s with
  | EmptyString => EmptyString
  | String c s' => if c_isspace c then int_lstrip s' else s
  end.

Fixpoint int_rstrip (s : string) : string :=
  match s with
  | EmptyString => EmptyString
  | String c s' =>
      match int_rstrip s' with
      | EmptyString => if c_isspace c then EmptyString else String c EmptyString
      | r => String c r
      end
  end.

Definition digit_value (c : ascii) : option Z :=
  let n := nat_of_ascii c in
  if ((48 <=? n) && (n <=? 57))%nat then Some (Z.of_nat (n - 48)) else None.

(** [after_digit] tells whether the previous character was a digit: an
    underscore is accepted only then, and the literal must end on a digit. *)
Fixpoint int_digits (acc : Z) (after_digit : bool) (s : string) : option Z :=
  match s with
  | EmptyString => if after_digit then Some acc else None
  | String c s' =>
      match digit_value c with
      | Some d => int_digits (10 * acc + d) true s'
      | None =>
          if Ascii.eqb c "_" && after_digit then int_digits acc false s'
          else None
      end
  end.

Definition int_max_str_digits : nat := 4300.

Fixpoint count_digits (s : string) : nat :=
  match s with
  | EmptyString => 0
  | String c s' =>
      match digit_value c with
      | Some _ => S (count_digits s')
      | None => count_digits s'
      end
  end.

Definition int (s : string) : outcome Z :=
  let body := int_rstrip (int_lstrip s) in
  let parsed :=
    match body with
    | String "+" r => int_digits 0 false r
    | String "-" r => Z.opp <$> int_digits 0 false r
    | _ => int_digits 0 false body
    end in
  match parsed with
  | Some z =>
      if (int_max_str_digits <? count_digits body)%nat
      then Raised (Exn ValueError "Exceeds the limit (4300 digits) for integer string conversion")
      else Returned z
  | None => Raised (Exn ValueError s)
  end.

(** ** The format specification [02d] on an [int]: sign-aware zero padding
    to width 2 *)

Definition format_02d (n : Z) : string :=
  match n with
  | Zneg p => "-" +:+ pretty (Npos p)
  | _ =>
      let d := pretty (Z.to_N n) in
      if (String.length d <? 2)%nat then "0" +:+ d else d
  end.

(** ** [float(n)] for an [int] [n]: the nearest binary64 float, ties to
    even; [OverflowError] when that is out of range *)

Definition float_of_int (z : Z) : outcome float :=
  match binary_normalize prec emax z 0 false with
  | S754_infinity _ => Raised (Exn OverflowError "int too large to convert to float")
  | sf => Returned (SF2Prim sf)
  end.

(** ** [round(x, 6)] on a float

    The exact value of [x] is rounded to a multiple of 10^-6, ties to even,
    and the nearest float to that decimal is returned (ties to even again);
    zeros, infinities and NaN are returned as they are, and a result that
    rounds to zero keeps the sign of [x]. *)

Definition half_even_div (a b : Z) : Z :=
  let q := a / b in
  let r := a mod b in
  match 2 * r ?= b with
  | Lt => q
  | Gt => q + 1
  | Eq => if Z.even q then q else q + 1
  end.

(** The float nearest to [n / d] for positive [n] and [d]: a quotient of at
    least 64 bits, with one more bit that records an inexact division. *)
Definition nearest_float (negative : bool) (n d : Z) : float :=
  let k := Z.max 0 (64 + Z.log2 d - Z.log2 n) in
  let q := (n * 2 ^ k) / d in
  let sticky := if (n * 2 ^ k) mod d =? 0 then 0 else 1 in
  let m := 2 * q + sticky in
  SF2Prim (binary_normalize prec emax (if negative then - m else m) (- k - 1) negative).

Definition round6 (x : float) : float :=
  match Prim2SF x with
  | S754_finite negative m e =>
      let n := if 0 <=? e then Zpos m * 2 ^ e * 10 ^ 6
               else half_even_div (Zpos m * 10 ^ 6) (2 ^ (- e)) in
      if n =? 0 then (if negative then neg_zero else zero)
      else nearest_float negative n (10 ^ 6)
  | _ => x
  end.

End Py.

Import Py.

(* ===================================================================== *)
(** * Helpers: [_parse_time_to_minutes] *)
(* ===================================================================== *)

Definition MAX_RETRIES : nat := 3.
Definition RETRY_DELAYS : list Z := [2; 4; 8].
Definition RETRIABLE_STATUS_CODES : list Z := [429; 500; 502; 503; 504].
Definition PERMANENT_FAILURE_CODES : list Z := [400; 401; 403].

Definition member (x : Z) (l : list Z) : bool := existsb (Z.eqb x) l.

(** [time_str.strip().split(":")], two [int] conversions, and a range test
    whose body is [pass]: both of its branches continue to the same
    [return]. *)
Definition _parse_time_to_minutes (time_str : string) : outcome Z :=
  let parts := split ":" (strip time_str) in
  match parts with
  | [p0; p1] =>
      hours ← int p0;
      mins ← int p1;
      if negb ((0 <=? hours) && (hours <=? 23) && member mins [0; 30])
      then mret (hours * 60 + mins)
      else mret (hours * 60 + mins)
  | _ => Raised (Exn ValueError time_str)
  end.

(* ===================================================================== *)
(** * JSON-shaped Python values *)
(* ===================================================================== *)

(** The values that [json.loads] produces and that the tariff document is
    made of.  A [dict] keeps its insertion order: it is a list of pairs with
    distinct keys. *)
Inductive pyval :=
| PNone
| PBool (b : bool)
| PInt (z : Z)
| PFloat (f : float)
| PStr (s : string)
| PList (l : list pyval)
| PDict (d : list (string * pyval)).

(** [d[k] = v]: an existing key keeps its position, a new key goes last. *)
Fixpoint dict_set {V} (k : string) (v : V) (d : list (string * V)) : list (string * V) :=
  match d with
  | [] => [(k, v)]
  | (k', v') :: d' => if String.eqb k' k then (k, v) :: d' else (k', v') :: dict_set k v d'
  end.

Fixpoint dict_lookup {V} (k : string) (d : list (string * V)) : option V :=
  match d with
  | [] => None
  | (k', v) :: d' => if String.eqb k' k then Some v else dict_lookup k d'
  end.

Definition no_attribute (attr : string) : exn := Exn AttributeError attr.

(** [x.get(k, default)]: only a [dict] has the method. *)
Definition py_get (x : pyval) (k : string) (default : pyval) : outcome pyval :=
  match x with
  | PDict d => Returned (match dict_lookup k d with Some v => v | None => default end)
  | _ => Raised (no_attribute "get")
  end.

(** [bool(x)], as [if not x] uses it. *)
Definition truthy (x : pyval) : bool :=
  match x with
  | PNone => false
  | PBool b => b
  | PInt z => negb (z =? 0)
  | PFloat f => negb (PrimFloat.eqb f 0)
  | PStr s => negb (String.eqb s "")
  | PList l => negb (Nat.eqb (List.length l) 0)
  | PDict d => negb (Nat.eqb (List.length d) 0)
  end.

(** [min(values)] and [max(values)] on a non-empty list of floats: the
    first element is kept until a strictly smaller (larger) one is met. *)
Definition float_min (x : float) (xs : list float) : float :=
  fold_left (fun m v => if PrimFloat.ltb v m then v else m) xs x.
Definition float_max (x : float) (xs : list float) : float :=
  fold_left (fun m v => if PrimFloat.ltb m v then v else m) xs x.

(* ===================================================================== *)
(** * The world: network, clock, log, event bus, notifications *)
(* ===================================================================== *)

Inductive http_method := GET | POST.

Record http_request := Request {
  method : http_method;
  url : string;
  authorization : string;
  json_payload : option pyval;
  timeout_total : Z
}.

(** What the remote side does with one request.  Either the call itself
    raises (no response: connection failure, timeout, protocol error), or a
    response with a status arrives, whose body is then read by
    [response.json()] or [response.text()]; reading can raise as well. *)
Inductive net_event :=
| NetFault (e : exn)
| NetResponse (status : Z) (json_body : outcome pyval) (text_body : outcome string).

Inductive level := DEBUG | INFO | WARNING | ERROR.

Inductive mismatch :=
| Missing (period_key : string)
| Differs (period_key : string) (sent_value : pyval) (stored_value : pyval).

(** One constructor per logging call of the source, with its arguments. *)
Inductive log_message :=
| NoRateCovers (key : string)
| PayloadSummary (periods : nat) (lo hi : float)
| PushedSuccessfully (periods : nat)
| TeslemetryResponse (result : pyval)
| PushFailedHTTP (status : Z) (error_text : string)
| NetworkError (err : exn)
| UnexpectedError (err : exn)
| PermanentFailure (status : Z)
| RateLimited (delay : Z) (attempt : nat)
| Retrying (last_error : string) (delay : Z) (attempt : nat)
| RetriesExhausted (last_error : string)
| ReadbackHTTP (status : Z)
| ReadbackError (err : exn)
| ReadbackNoRates
| ReadbackMismatches (count : nat) (first_five : list mismatch)
| ReadbackPassed (rates : nat)
| BuildingSchedule (periods : nat) (masked_site : string)
| BuildFailed (err : exn)
| VerificationFailedAfterPush
| PushComplete (attempts : nat)
| PushFailed (attempts : nat).

Record log_record := Log { lvl : level; message : log_message }.

(** The error text carried by a [tou_writer_push_result] event. *)
Inductive error_text :=
| ErrorOf (err : exn)
| FailedAfterAttempts (attempts : nat).

Record event_data := Event {
  success : bool;
  site_id_masked : string;
  plan_name_shown : string;
  attempt_count : nat;
  error : option error_text
}.

Record World := mkWorld {
  network : nat -> net_event;      (* the reply to the n-th request *)
  requests : list http_request;    (* requests issued so far, oldest first *)
  slept : list Z;                  (* [asyncio.sleep] calls, oldest first *)
  log : list log_record;
  bus : list event_data;           (* fired events, oldest first *)
  notifications : gmap string nat  (* notification id -> attempts reported *)
}.

(** ** The monad of the component: state and exceptions *)

Definition M (A : Type) : Type := World -> outcome A * World.

#[global] Instance M_ret : MRet M := fun A a w => (Returned a, w).
#[global] Instance M_bind : MBind M := fun A B k m w =>
  match m w with
  | (Returned a, w') => k a w'
  | (Raised e, w') => (Raised e, w')
  end.

Definition raise {A} (e : exn) : M A := fun w => (Raised e, w).

Definition lift {A} (o : outcome A) : M A := fun w => (o, w).

(** [try: body except Exception as err: handler(err)] *)
Definition try_except {A} (body : M A) (handler : exn -> M A) : M A := fun w =>
  match body w with
  | (Returned a, w') => (Returned a, w')
  | (Raised e, w') => handler e w'
  end.

Definition emit (l : level) (m : log_message) : M unit := fun w =>
  (Returned tt, mkWorld (network w) (requests w) (slept w) (log w ++ [Log l m])
                        (bus w) (notifications w)).

Definition sleep (seconds : Z) : M unit := fun w =>
  (Returned tt, mkWorld (network w) (requests w) (slept w ++ [seconds]) (log w)
                        (bus w) (notifications w)).

(** Issue one request; the reply is the one the network holds for it. *)
Definition http (r : http_request) : M net_event := fun w =>
  (Returned (network w (List.length (requests w))),
   mkWorld (network w) (requests w ++ [r]) (slept w) (log w) (bus w) (notifications w)).

Definition async_fire (e : event_data) : M unit := fun w =>
  (Returned tt, mkWorld (network w) (requests w) (slept w) (log w)
                        (bus w ++ [e]) (notifications w)).

Definition notification_create (id : string) (attempts : nat) : M unit := fun w =>
  (Returned tt, mkWorld (network w) (requests w) (slept w) (log w)
                        (bus w) (<[id := attempts]> (notifications w))).

Definition notification_dismiss (id : string) : M unit := fun w =>
  (Returned tt, mkWorld (network w) (requests w) (slept w) (log w)
                        (bus w) (delete id (notifications w))).

(* ===================================================================== *)
(** * [_build_tariff] *)
(* ===================================================================== *)

Local Open Scope string_scope.
Local Open Scope Z_scope.

(** One entry of the service call's [rates] list, as [RATE_SCHEMA] delivers
    it: two strings and two floats (cents per kWh). *)
Record RatePeriod := Rate {
  start : string;
  end_ : string;
  buy : float;
  sell : float
}.

Definition DEFAULT_PLAN_NAME : string := "Custom TOU (TOU Writer)".
Definition NOTIFICATION_ID : string := "tou_writer_push_failure".
Definition TESLEMETRY_API_BASE_URL : string := "https://api.teslemetry.com".

(** [plan_name or DEFAULT_PLAN_NAME] *)
Definition name_or_default (plan_name : option string) : string :=
  match plan_name with
  | Some s => if String.eqb s "" then DEFAULT_PLAN_NAME else s
  | None => DEFAULT_PLAN_NAME
  end.

(** The inner loop
    [m = start_min; while m < end_min: minute_prices[m] = price; m += 30].
    [fuel] bounds the number of iterations; [stamp_fuel] below shows that
    the bound used by [stamp_rate] is never the reason the loop stops. *)
Fixpoint stamp (fuel : nat) (m end_min : Z) (price : float * float)
    (minute_prices : gmap Z (float * float)) : gmap Z (float * float) :=
  match fuel with
  | O => minute_prices
  | S fuel' =>
      if m <? end_min
      then stamp fuel' (m + 30) end_min price (<[m := price]> minute_prices)
      else minute_prices
  end.

(** [for key in ...: acc = body(acc, key)] in the monad. *)
Fixpoint for_each {A S : Type} (body : S -> A -> M S) (xs : list A) (s : S) : M S :=
  match xs with
  | [] => mret s
  | x :: xs' => s' ← body s x; for_each body xs' s'
  end.

Record slot_tables := Tables {
  buy_prices : list (string * float);
  sell_prices : list (string * float);
  period_keys : list string
}.

Definition period_key (minutes : Z) : string :=
  let h := minutes / 60 in
  let m := minutes mod 60 in
  "PERIOD_" +:+ format_02d h +:+ "_" +:+ format_02d m.

(** Body of [for slot in range(48)]. *)
Definition price_slot (minute_prices : gmap Z (float * float))
    (acc : slot_tables) (slot : Z) : M slot_tables :=
  let minutes := slot * 30 in
  let key := period_key minutes in
  price ← match minute_prices !! minutes with
           | Some p => mret p
           | None => emit WARNING (NoRateCovers key);; mret (0%float, 0%float)
           end;
  mret (Tables (dict_set key (fst price) (buy_prices acc))
               (dict_set key (snd price) (sell_prices acc))
               (period_keys acc ++ [key])).

(** Body of [for i, key in enumerate(period_keys)]. *)
Definition tou_period (i : Z) (key : string) : pyval :=
  let slot_min := i * 30 in
  let h := slot_min / 60 in
  let m := slot_min mod 60 in
  let end_slot := slot_min + 30 in
  let end_h := end_slot / 60 in
  let end_m := end_slot mod 60 in
  PDict [("name", PStr key);
         ("fromDayOfWeek", PInt 0);
         ("toDayOfWeek", PInt 6);
         ("fromHour", PInt h);
         ("fromMinute", PInt m);
         ("toHour", PInt (if end_h <? 24 then end_h else 0));
         ("toMinute", PInt end_m)].

Fixpoint enumerate_tou_periods (i : Z) (keys : list string)
    (tou_periods : list (string * pyval)) : list (string * pyval) :=
  match keys with
  | [] => tou_periods
  | key :: keys' =>
      enumerate_tou_periods (i + 1) keys' (dict_set key (tou_period i key) tou_periods)
  end.

Definition price_table (prices : list (string * float)) : pyval :=
  PDict (map (fun kv => (fst kv, PFloat (snd kv))) prices).

Definition demand_charges : pyval :=
  PDict [("ALL", PDict [("rates", PDict [("ALL", PInt 0)])]);
         ("Summer", PDict []);
         ("Winter", PDict [])].

Definition energy_charges (prices : list (string * float)) : pyval :=
  PDict [("ALL", PDict [("rates", PDict [("ALL", PInt 0)])]);
         ("Summer", PDict [("rates", price_table prices)]);
         ("Winter", PDict [])].

Definition seasons (tou_periods : list (string * pyval)) : pyval :=
  PDict [("Summer", PDict [("fromMonth", PInt 1); ("toMonth", PInt 12);
                           ("fromDay", PInt 1); ("toDay", PInt 31);
                           ("tou_periods", PDict tou_periods)]);
         ("Winter", PDict [("fromDay", PInt 0); ("toDay", PInt 0);
                           ("fromMonth", PInt 0); ("toMonth", PInt 0);
                           ("tou_periods", PDict [])])].

Definition assemble (name : string) (t : slot_tables)
    (tou_periods : list (string * pyval)) : pyval :=
  PDict [("version", PInt 1);
         ("code", PStr "TOU_WRITER:CUSTOM");
         ("name", PStr name);
         ("utility", PStr "Custom");
         ("currency", PStr "AUD");
         ("daily_charges", PList [PDict [("name", PStr "Charge")]]);
         ("demand_charges", demand_charges);
         ("energy_charges", energy_charges (buy_prices t));
         ("seasons", seasons tou_periods);
         ("sell_tariff",
           PDict [("name", PStr (name +:+ " (Sell)"));
                  ("utility", PStr "Custom");
                  ("daily_charges", PList [PDict [("name", PStr "Charge")]]);
                  ("demand_charges", demand_charges);
                  ("energy_charges", energy_charges (sell_prices t));
                  ("seasons", seasons tou_periods)])].

(** Body of [for rate in rates]. *)
Definition stamp_rate (minute_prices : gmap Z (float * float)) (rate : RatePeriod)
    : outcome (gmap Z (float * float)) :=
  start_min ← _parse_time_to_minutes (start rate);
  end_min ← _parse_time_to_minutes (end_ rate);
  let end_min := if end_min =? 0 then 1440 else end_min in
  let buy_dollars := round6 (buy rate / 100)%float in
  let sell_dollars := round6 (sell rate / 100)%float in
  mret (stamp (Z.to_nat (end_min - start_min)) start_min end_min
              (buy_dollars, sell_dollars) minute_prices).

Fixpoint stamp_rates (rates : list RatePeriod) (minute_prices : gmap Z (float * float))
    : outcome (gmap Z (float * float)) :=
  match rates with
  | [] => mret minute_prices
  | rate :: rates' => mp ← stamp_rate minute_prices rate; stamp_rates rates' mp
  end.

Definition _build_tariff (rates : list RatePeriod) (plan_name : option string) : M pyval :=
  minute_prices ← lift (stamp_rates rates ∅);
  t ← for_each (price_slot minute_prices) (seqZ 0 48) (Tables [] [] []);
  let tou_periods := enumerate_tou_periods 0 (period_keys t) [] in
  let name := name_or_default plan_name in
  mret (assemble name t tou_periods).

(* ===================================================================== *)
(** * [_fire_event], [_send_to_teslemetry], [_send_with_retry] *)
(* ===================================================================== *)

Definition mask_site (site_id : string) : string :=
  String.substring 0 4 site_id +:+ "***".

Definition _fire_event (site_id : string) (plan_name : option string)
    (success : bool) (attempt_count : nat) (error : option error_text) : M unit :=
  async_fire (Event success (mask_site site_id) (name_or_default plan_name)
                    attempt_count error).

(** [tariff.get("energy_charges", {}).get("Summer", {}).get("rates", {})] *)
Definition summer_rates (tariff : pyval) : outcome pyval :=
  energy ← py_get tariff "energy_charges" (PDict []);
  summer ← py_get energy "Summer" (PDict []);
  py_get summer "rates" (PDict []).

(** [len(x)] *)
Definition py_len (x : pyval) : outcome nat :=
  match x with
  | PStr s => Returned (String.length s)
  | PList l => Returned (List.length l)
  | PDict d => Returned (List.length d)
  | _ => Raised (Exn TypeError "object has no len()")
  end.

(** [list(x.values())] *)
Definition py_values (x : pyval) : outcome (list pyval) :=
  match x with
  | PDict d => Returned (map snd d)
  | _ => Raised (no_attribute "values")
  end.

(** [min(values)], [max(values)] for the payload summary.  The rates of a
    document are the floats [_build_tariff] stored; the ordering of other
    kinds of values is not modelled and is reported as a [TypeError]. *)
Fixpoint all_floats (values : list pyval) : outcome (list float) :=
  match values with
  | [] => mret []
  | PFloat f :: values' => fs ← all_floats values'; mret (f :: fs)
  | _ :: _ => Raised (Exn TypeError "payload summary of non-float rates")
  end.

Definition min_max (values : list pyval) : outcome (float * float) :=
  fs ← all_floats values;
  match fs with
  | [] => Raised (Exn ValueError "min() arg is an empty sequence")
  | f :: fs' => mret (float_min f fs', float_max f fs')
  end.

Definition is_client_error (e : exn) : bool :=
  match cls e with ClientError => true | _ => false end.

Definition _send_to_teslemetry (site_id token : string) (tariff : pyval) : M (bool * Z) :=
  let url := TESLEMETRY_API_BASE_URL +:+ "/api/1/energy_sites/" +:+ site_id
             +:+ "/time_of_use_settings" in
  let authorization := "Bearer " +:+ token in
  let payload := PDict [("tou_settings", PDict [("tariff_content_v2", tariff)])] in
  buy_rates ← lift (summer_rates tariff);
  (if truthy buy_rates then
     values ← lift (py_values buy_rates);
     range ← lift (min_max values);
     emit DEBUG (PayloadSummary (List.length values) (fst range) (snd range))
   else mret tt);;
  try_except
    (response ← http (Request POST url authorization (Some payload) 30);
     match response with
     | NetFault err => raise err
     | NetResponse status json_body text_body =>
         if status =? 200 then
           result ← lift json_body;
           periods ← lift (py_len buy_rates);
           emit INFO (PushedSuccessfully periods);;
           emit DEBUG (TeslemetryResponse result);;
           mret (true, 200)
         else
           error_text ← lift text_body;
           emit ERROR (PushFailedHTTP status (String.substring 0 500 error_text));;
           mret (false, status)
     end)
    (fun err =>
       if is_client_error err
       then emit ERROR (NetworkError err);; mret (false, 0)
       else emit ERROR (UnexpectedError err);; mret (false, 0)).

(** [RETRY_DELAYS[attempt - 1]] for [attempt >= 1]. *)
Definition retry_delay (attempt : nat) : outcome Z :=
  match RETRY_DELAYS !! (attempt - 1)%nat with
  | Some d => Returned d
  | None => Raised (Exn IndexError "list index out of range")
  end.

(** The code after the loop: reached by [break] and by running out of
    attempts. *)
Definition retries_exhausted (last_error : string) : M (bool * nat) :=
  emit ERROR (RetriesExhausted last_error);;
  mret (false, MAX_RETRIES).

(** [for attempt in range(1, MAX_RETRIES + 1)], over the attempts that are
    left. *)
Fixpoint retry_loop (site_id token : string) (tariff : pyval)
    (attempts : list nat) (last_error : string) : M (bool * nat) :=
  match attempts with
  | [] => retries_exhausted last_error
  | attempt :: attempts' =>
      r ← _send_to_teslemetry site_id token tariff;
      let success : bool := fst r in
      let status : Z := snd r in
      if success then mret (true, attempt)
      else if member status PERMANENT_FAILURE_CODES then
        emit ERROR (PermanentFailure status);;
        mret (false, attempt)
      else
        let last_error :=
          if negb (status =? 0) then "HTTP " +:+ pretty status else "Network error" in
        if Nat.eqb attempt MAX_RETRIES then retries_exhausted last_error
        else
          delay ← (if status =? 429 then
                     delay ← lift (retry_delay attempt);
                     emit WARNING (RateLimited delay attempt);;
                     mret (Some delay)
                   else if member status RETRIABLE_STATUS_CODES || (status =? 0) then
                     delay ← lift (retry_delay attempt);
                     emit WARNING (Retrying last_error delay attempt);;
                     mret (Some delay)
                   else mret None);
          match delay with
          | None => mret (false, attempt)
          | Some delay =>
              sleep delay;;
              retry_loop site_id token tariff attempts' last_error
          end
  end.

Definition _send_with_retry (site_id token : string) (tariff : pyval) : M (bool * nat) :=
  retry_loop site_id token tariff (seq 1 MAX_RETRIES) "".

(* ===================================================================== *)
(** * [_verify_tariff] *)
(* ===================================================================== *)

(** [x - y] on numbers: [bool] counts as [int], two ints give an int, and
    an int meeting a float is converted to a float first. *)
Definition py_sub (x y : pyval) : outcome pyval :=
  let number v :=
    match v with
    | PBool b => Some (inl (if b then 1 else 0))
    | PInt z => Some (inl z)
    | PFloat f => Some (inr f)
    | _ => None
    end in
  match number x, number y with
  | Some (inl a), Some (inl b) => Returned (PInt (a - b))
  | Some (inl a), Some (inr g) => f ← float_of_int a; mret (PFloat (f - g)%float)
  | Some (inr f), Some (inl b) => g ← float_of_int b; mret (PFloat (f - g)%float)
  | Some (inr f), Some (inr g) => Returned (PFloat (f - g)%float)
  | _, _ => Raised (Exn TypeError "unsupported operand type(s) for -")
  end.

(** [abs(d) > 0.001] for the difference [d] computed by [py_sub]; an int is
    compared with the float exactly. *)
Definition abs_exceeds_tolerance (d : pyval) : bool :=
  match d with
  | PInt z => 0 <? Z.abs z
  | PFloat f => (0.001 <? PrimFloat.abs f)%float
  | _ => false
  end.

(** [x.items()] *)
Definition py_items (x : pyval) : outcome (list (string * pyval)) :=
  match x with
  | PDict d => Returned d
  | _ => Raised (no_attribute "items")
  end.

(** [for period_key, sent_value in sent.items()] *)
Fixpoint compare_periods (sent : list (string * pyval)) (stored : pyval)
    (mismatches : list mismatch) : outcome (list mismatch) :=
  match sent with
  | [] => mret mismatches
  | (period_key, sent_value) :: sent' =>
      stored_value ← py_get stored period_key PNone;
      match stored_value with
      | PNone => compare_periods sent' stored (mismatches ++ [Missing period_key])
      | _ =>
          d ← py_sub stored_value sent_value;
          if abs_exceeds_tolerance d
          then compare_periods sent' stored
                 (mismatches ++ [Differs period_key sent_value stored_value])
          else compare_periods sent' stored mismatches
      end
  end.

(** [data.get("response", {}).get("tariff_content_v2", {}) ...] *)
Definition stored_rates (data : pyval) : outcome pyval :=
  response ← py_get data "response" (PDict []);
  content ← py_get response "tariff_content_v2" (PDict []);
  summer_rates content.

Definition _verify_tariff (site_id token : string) (sent_tariff : pyval) : M bool :=
  let url := TESLEMETRY_API_BASE_URL +:+ "/api/1/energy_sites/" +:+ site_id
             +:+ "/site_info" in
  let authorization := "Bearer " +:+ token in
  (* [None] stands for the [return False] statements inside the [try]. *)
  readback ← try_except
    (response ← http (Request GET url authorization None 30);
     match response with
     | NetFault err => raise err
     | NetResponse status json_body _ =>
         if negb (status =? 200) then
           emit WARNING (ReadbackHTTP status);;
           mret None
         else
           data ← lift json_body;
           mret (Some data)
     end)
    (fun err => emit WARNING (ReadbackError err);; mret None);
  match readback with
  | None => mret false
  | Some data =>
      stored ← lift (stored_rates data);
      sent ← lift (summer_rates sent_tariff);
      if negb (truthy stored) then
        emit WARNING ReadbackNoRates;;
        mret false
      else
        items ← lift (py_items sent);
        mismatches ← lift (compare_periods items stored []);
        if negb (Nat.eqb (List.length mismatches) 0) then
          emit WARNING (ReadbackMismatches (List.length mismatches) (take 5 mismatches));;
          mret false
        else
          rates ← lift (py_len sent);
          emit INFO (ReadbackPassed rates);;
          mret true
  end.

(* ===================================================================== *)
(** * The service handler [async_handle_push_tou] *)
(* ===================================================================== *)

Definition async_handle_push_tou (site_id token : string)
    (rates : list RatePeriod) (plan_name : option string) : M unit :=
  emit INFO (BuildingSchedule (List.length rates) (mask_site site_id));;
  (* [None] stands for the [return] of the [except] branch. *)
  built ← try_except
    (tariff ← _build_tariff rates plan_name; mret (Some tariff))
    (fun err =>
       emit ERROR (BuildFailed err);;
       _fire_event site_id plan_name false 0 (Some (ErrorOf err));;
       mret None);
  match built with
  | None => mret tt
  | Some tariff =>
      r ← _send_with_retry site_id token tariff;
      let success : bool := fst r in
      let attempts : nat := snd r in
      if success then
        sleep 2;;
        verified ← _verify_tariff site_id token tariff;
        (if negb verified then emit WARNING VerificationFailedAfterPush else mret tt);;
        notification_dismiss NOTIFICATION_ID;;
        _fire_event site_id plan_name true attempts None;;
        emit INFO (PushComplete attempts)
      else
        notification_create NOTIFICATION_ID attempts;;
        _fire_event site_id plan_name false attempts
                    (Some (FailedAfterAttempts attempts));;
        emit ERROR (PushFailed attempts)
  end.

(* ===================================================================== *)
(** * Vocabulary of the properties *)
(* ===================================================================== *)

(** The 48 slots and their start minutes. *)
Definition slots : list Z := seqZ 0 48.
Definition canonical_keys : list string := map (fun slot => period_key (slot * 30)) slots.

(** The minute marks the loop of [stamp_rate] writes: [start_min],
    [start_min + 30], ... below the end, where an end of 0 counts as 1440. *)
Definition on_grid (start_min end_min minute : Z) : bool :=
  (start_min <=? minute) && (minute <? end_min) && ((minute - start_min) mod 30 =? 0).

Definition covers (rate : RatePeriod) (minute : Z) : bool :=
  match _parse_time_to_minutes (start rate), _parse_time_to_minutes (end_ rate) with
  | Returned start_min, Returned end_min =>
      on_grid start_min (if end_min =? 0 then 1440 else end_min) minute
  | _, _ => false
  end.

Definition parseable (rate : RatePeriod) : bool :=
  returns (_parse_time_to_minutes (start rate))
  && returns (_parse_time_to_minutes (end_ rate)).

(** The price read for a slot: the stamped one, or 0.0 both ways. *)
Definition slot_price (minute_prices : gmap Z (float * float)) (minutes : Z)
    : float * float :=
  match minute_prices !! minutes with
  | Some p => p
  | None => (0%float, 0%float)
  end.

(** What one round of the slot loop does to the three tables, given the
    price read for each minute. *)
Definition slot_step (price : Z -> float * float) (acc : slot_tables) (slot : Z)
    : slot_tables :=
  let key := period_key (slot * 30) in
  Tables (dict_set key (fst (price (slot * 30))) (buy_prices acc))
         (dict_set key (snd (price (slot * 30))) (sell_prices acc))
         (period_keys acc ++ [key]).

(** The warnings of the slot loop, in order. *)
Definition slot_warnings (minute_prices : gmap Z (float * float)) (slots : list Z)
    : list log_record :=
  flat_map (fun slot =>
              match minute_prices !! (slot * 30) with
              | Some _ => []
              | None => [Log WARNING (NoRateCovers (period_key (slot * 30)))]
              end) slots.

(** A world that differs by further log records only. *)
Definition add_log (w : World) (records : list log_record) : World :=
  mkWorld (network w) (requests w) (slept w) (log w ++ records) (bus w)
          (notifications w).

(** The tables and the document that [_build_tariff] returns for a given
    [minute_prices]. *)
Definition built_tables (mp : gmap Z (float * float)) : slot_tables :=
  Tables (map (fun slot => (period_key (slot * 30), fst (slot_price mp (slot * 30)))) slots)
         (map (fun slot => (period_key (slot * 30), snd (slot_price mp (slot * 30)))) slots)
         canonical_keys.

Definition built_document (mp : gmap Z (float * float)) (plan_name : option string) : pyval :=
  assemble (name_or_default plan_name) (built_tables mp)
           (enumerate_tou_periods 0 canonical_keys []).

(** The prices a rate stamps, in dollars. *)
Definition dollars (rate : RatePeriod) : float * float :=
  (round6 (buy rate / 100)%float, round6 (sell rate / 100)%float).

(** The entry of [minute_prices] at [minute] after the rates were stamped in
    order over an entry [init]: each rate that covers the minute overwrites. *)
Definition stamped_price (rates : list RatePeriod) (minute : Z)
    (init : option (float * float)) : option (float * float) :=
  fold_left (fun acc rate => if covers rate minute then Some (dollars rate) else acc)
            rates init.

(** The sell-side rate table of a document. *)
Definition sell_rates (tariff : pyval) : outcome pyval :=
  sell_tariff ← py_get tariff "sell_tariff" (PDict []);
  summer_rates sell_tariff.

(** Integer literals: an optional sign and decimal digits. *)
Inductive sign := NoSign | Plus | Minus.

Definition digit_char (d : nat) : ascii := ascii_of_nat (48 + d).
Arguments digit_char : simpl never.

Fixpoint digits (ds : list nat) : string :=
  match ds with
  | [] => EmptyString
  | d :: ds' => String (digit_char d) (digits ds')
  end.

Definition literal (sg : sign) (ds : list nat) : string :=
  match sg with
  | NoSign => digits ds
  | Plus => String "+" (digits ds)
  | Minus => String "-" (digits ds)
  end.

Definition digits_value (ds : list nat) : Z :=
  fold_left (fun acc d => 10 * acc + Z.of_nat d) ds 0.

Definition literal_value (sg : sign) (ds : list nat) : Z :=
  match sg with
  | Minus => - digits_value ds
  | _ => digits_value ds
  end.

Definition is_digits (ds : list nat) : bool :=
  negb (Nat.eqb (List.length ds) 0) && forallb (fun d => d <? 10)%nat ds.

Fixpoint all_chars (p : ascii -> bool) (s : string) : bool :=
  match s with
  | EmptyString => true
  | String c s' => p c && all_chars p s'
  end.

(** ** Delivery *)

(** The request [_send_to_teslemetry] issues. *)
Definition post_request (site_id token : string) (tariff : pyval) : http_request :=
  Request POST
    (TESLEMETRY_API_BASE_URL +:+ "/api/1/energy_sites/" +:+ site_id +:+ "/time_of_use_settings")
    ("Bearer " +:+ token)
    (Some (PDict [("tou_settings", PDict [("tariff_content_v2", tariff)])]))
    30.

(** The request [_verify_tariff] issues. *)
Definition get_request (site_id token : string) : http_request :=
  Request GET
    (TESLEMETRY_API_BASE_URL +:+ "/api/1/energy_sites/" +:+ site_id +:+ "/site_info")
    ("Bearer " +:+ token) None 30.

(** An exception was raised during the exchange: by the call itself, or
    while the body of the response was read ([json()] for a 200, [text()]
    otherwise). *)
Definition exchange_raised (reply : net_event) : bool :=
  match reply with
  | NetFault _ => true
  | NetResponse status json_body text_body =>
      if status =? 200 then negb (returns json_body) else negb (returns text_body)
  end.

Definition response_received (reply : net_event) : bool :=
  match reply with
  | NetFault _ => false
  | NetResponse _ _ _ => true
  end.

(** What [_send_to_teslemetry] returns for a reply. *)
Definition exchange_result (reply : net_event) : bool * Z :=
  match reply with
  | NetFault _ => (false, 0)
  | NetResponse status _ _ =>
      if exchange_raised reply then (false, 0)
      else if status =? 200 then (true, 200) else (false, status)
  end.

(** [w'] is [w] after the given requests and sleeps, and any logging; the
    network, the event bus and the notifications are those of [w]. *)
Definition extends (w w' : World) (reqs : list http_request) (sleeps : list Z) : Prop :=
  network w' = network w
  /\ requests w' = (requests w ++ reqs)%list
  /\ slept w' = (slept w ++ sleeps)%list
  /\ bus w' = bus w
  /\ notifications w' = notifications w
  /\ exists records, log w' = (log w ++ records)%list.

(** The reply to the [i]-th request from now, and the result of the attempt
    that receives it. *)
Definition reply_at (w : World) (i : nat) : net_event :=
  network w (List.length (requests w) + i)%nat.

Definition attempt_result (w : World) (i : nat) : bool * Z :=
  exchange_result (reply_at w i).

(** The classes of the retry policy, tested in the order of the source. *)
Inductive verdict := Success | Permanent | Transient | Unexpected.

Definition classify (r : bool * Z) : verdict :=
  if fst r then Success
  else if member (snd r) PERMANENT_FAILURE_CODES then Permanent
  else if (snd r =? 429) || member (snd r) RETRIABLE_STATUS_CODES || (snd r =? 0)
       then Transient
  else Unexpected.

(** [last_error] after a failed attempt. *)
Definition last_error_of (status : Z) : string :=
  if negb (status =? 0) then "HTTP " +:+ pretty status else "Network error".

(** The course of [_send_with_retry], read off the results of the (at most
    three) attempts: what is returned, how many requests are made, and the
    sleeps in between. *)
Definition retry_trace (result : nat -> bool * Z) : (bool * nat) * nat * list Z :=
  match classify (result 0%nat) with
  | Success => ((true, 1%nat), 1%nat, [])
  | Permanent | Unexpected => ((false, 1%nat), 1%nat, [])
  | Transient =>
      match classify (result 1%nat) with
      | Success => ((true, 2%nat), 2%nat, [2])
      | Permanent | Unexpected => ((false, 2%nat), 2%nat, [2])
      | Transient =>
          match classify (result 2%nat) with
          | Success => ((true, 3%nat), 3%nat, [2; 4])
          | _ => ((false, 3%nat), 3%nat, [2; 4])
          end
      end
  end.

(** A time string of the form [<integer>:<integer>], each integer a sign
    and at most [int_max_str_digits] digits. *)
Definition integer_time (s : string) : Prop :=
  exists sh dh sm dm,
    is_digits dh = true /\ is_digits dm = true
    /\ (List.length dh <= int_max_str_digits)%nat
    /\ (List.length dm <= int_max_str_digits)%nat
    /\ s = literal sh dh +:+ ":" +:+ literal sm dm.

(** ** Worlds and inputs used in examples *)

(** A world in which nothing has happened yet, with the given network. *)
Definition fresh_world (net : nat -> net_event) : World := mkWorld net [] [] [] [] ∅.

Definition unreachable : net_event := NetFault (Exn ClientError "cannot connect").

Definition quiet_world : World := fresh_world (fun _ => unreachable).

(** Some replies. *)
Definition http_ok : net_event := NetResponse 200 (Returned (PDict [])) (Returned "{}").
Definition http_error (status : Z) : net_event :=
  NetResponse status (Raised (Exn ClientError "unexpected mimetype")) (Returned "error").
Definition http_ok_not_json : net_event :=
  NetResponse 200 (Raised (Exn OtherException "JSONDecodeError")) (Returned "<html>").

(** A network that answers with the given replies, then is unreachable. *)
Definition scripted (replies : list net_event) (n : nat) : net_event :=
  nth n replies unreachable.

(** A readback whose body is JSON of another shape than expected. *)
Definition readback_null_response : net_event :=
  NetResponse 200 (Returned (PDict [("response", PNone)])) (Returned "{}").

(** A readback that stores exactly the given rates. *)
Definition readback_of (rates : pyval) : net_event :=
  NetResponse 200
    (Returned (PDict [("response",
       PDict [("tariff_content_v2",
         PDict [("energy_charges", PDict [("Summer", PDict [("rates", rates)])])])])]))
    (Returned "{}").

(** A sent slot is matched by the stored table: the key is there, with a
    float whose distance to the sent price is not above 0.001. *)
Definition matched (stored : list (string * pyval)) (sent : string * float) : Prop :=
  exists f, dict_lookup (fst sent) stored = Some (PFloat f)
            /\ (0.001 <? PrimFloat.abs (f - snd sent))%float = false.

Definition float_valued (stored : list (string * pyval)) : Prop :=
  Forall (fun kv => exists f, snd kv = PFloat f) stored.

(** The two rates of the specification's end-to-end example. *)
Definition example_rates : list RatePeriod :=
  [Rate "07:00" "09:00" 30 5; Rate "09:00" "17:00" 20 5].

(** A character of a literal is a digit or a sign: neither white space, nor
    a colon. *)
Definition literal_char (c : ascii) : bool :=
  match digit_value c with
  | Some _ => true
  | None => Ascii.eqb c "+" || Ascii.eqb c "-"
  end.

Arguments digit_value : simpl never.
Arguments isspace : simpl never.
Arguments literal_char : simpl never.
Arguments round6 : simpl never.

(* ===================================================================== *)
(** * HA setup: [async_setup], [async_setup_entry], [async_unload_entry] *)
(* ===================================================================== *)

Definition DOMAIN : string := "tou_writer".

(** The handler that [async_setup_entry] registers is the closure
    [async_handle_push_tou] over the [site_id] and [token] of the entry
    being set up: it is represented by these two captured values. *)
Record handler := Handler { captured_site_id : string; captured_token : string }.

Inductive setup_message := ServiceLoaded | ServiceUnloaded.

(** The part of [hass] the setup functions use: the service registry,
    keyed by domain and service name, and the component's log. *)
Record Hass := mkHass {
  services : gmap (string * string) handler;
  setup_log : list setup_message
}.

(** [d[k]] on a dict of strings: a missing key is a [KeyError]. *)
Definition subscript (d : list (string * string)) (k : string) : outcome string :=
  match dict_lookup k d with
  | Some v => Returned v
  | None => Raised (Exn OtherException "KeyError")
  end.

Definition has_service (hass : Hass) (domain service : string) : bool :=
  bool_decide (is_Some (services hass !! (domain, service))).

Definition async_setup (hass : Hass) : outcome bool * Hass := (Returned true, hass).

Definition async_setup_entry (entry_data : list (string * string)) (hass : Hass)
    : outcome bool * Hass :=
  match subscript entry_data "teslemetry_token" with
  | Raised e => (Raised e, hass)
  | Returned token =>
      match subscript entry_data "site_id" with
      | Raised e => (Raised e, hass)
      | Returned site_id =>
          let registry :=
            if negb (has_service hass DOMAIN "push_tou")
            then <[(DOMAIN, "push_tou") := Handler site_id token]> (services hass)
            else services hass in
          (Returned true, mkHass registry (setup_log hass ++ [ServiceLoaded]))
      end
  end.

Definition async_unload_entry (entry_data : list (string * string)) (hass : Hass)
    : outcome bool * Hass :=
  (Returned true,
   mkHass (delete (DOMAIN, "push_tou") (services hass)) (setup_log hass ++ [ServiceUnloaded])).

(** Calling the registered service runs the handler with the values it
    captured. *)
Definition run_handler (h : handler) (rates : list RatePeriod) (plan_name : option string)
    : M unit :=
  async_handle_push_tou (captured_site_id h) (captured_token h) rates plan_name.

(* ===================================================================== *)
(** * [config_flow.py]: [TouWriterConfigFlow.async_step_user] *)
(* ===================================================================== *)

Module ConfigFlow.

Inductive flow_result :=
| ShowForm (step_id : string) (errors : list (string * string))
| CreateEntry (title : string) (data : list (string * string))
| AbortFlow (reason : string).

(** [user_input.get(k, "")] *)
Definition get_or_empty (user_input : list (string * string)) (k : string) : string :=
  match dict_lookup k user_input with
  | Some v => v
  | None => ""
  end.

Definition unique_id_of (site_id : string) : string := "tou_writer_" +:+ site_id.

(** [configured] holds the unique ids of the entries that exist: with one of
    them [_abort_if_unique_id_configured] aborts the flow. *)
Definition async_step_user (configured : gset string)
    (user_input : option (list (string * string))) : flow_result :=
  let errors : list (string * string) := [] in
  match user_input with
  | Some user_input =>
      let token := strip (get_or_empty user_input "teslemetry_token") in
      let site_id := strip (get_or_empty user_input "site_id") in
      let errors :=
        if String.eqb token "" then dict_set "teslemetry_token" "token_required" errors
        else errors in
      let errors :=
        if String.eqb site_id "" then dict_set "site_id" "site_id_required" errors
        else errors in
      match errors with
      | [] =>
          if bool_decide (unique_id_of site_id ∈ configured)
          then AbortFlow "already_configured"
          else CreateEntry ("TOU Writer (site " +:+ String.substring 0 4 site_id +:+ "…)")
                           [("teslemetry_token", token); ("site_id", site_id)]
      | _ => ShowForm "user" errors
      end
  | None => ShowForm "user" errors
  end.

End ConfigFlow.

Import ConfigFlow.

(* ===================================================================== *)
(** * Vocabulary of the further properties *)
(* ===================================================================== *)

(** The number of occurrences of a character. *)
Fixpoint count_char (c : ascii) (s : string) : nat :=
  match s with
  | EmptyString => 0
  | String c' s' => (if Ascii.eqb c' c then 1 else 0) + count_char c s'
  end.

(** A string that neither starts nor ends with white space. *)
Definition starts_clean (s : string) : Prop :=
  match s with
  | EmptyString => True
  | String c _ => isspace c = false
  end.

Fixpoint ends_clean (s : string) : Prop :=
  match s with
  | EmptyString => True
  | String c EmptyString => isspace c = false
  | String _ s' => ends_clean s'
  end.

(** The slots no rate of the list covers. *)
Definition uncovered (rates : list RatePeriod) (slot : Z) : bool :=
  forallb (fun rate => negb (covers rate (slot * 30))) rates.

Definition uncovered_warnings (rates : list RatePeriod) : list log_record :=
  map (fun slot => Log WARNING (NoRateCovers (period_key (slot * 30))))
      (filter (fun slot => uncovered rates slot = true) slots).

(** The start and the end of the window a period definition describes, in
    minutes of the day. *)
Definition int_field (period : pyval) (k : string) : option Z :=
  match period with
  | PDict d => match dict_lookup k d with Some (PInt z) => Some z | _ => None end
  | _ => None
  end.

Definition window_start (period : pyval) : option Z :=
  h ← int_field period "fromHour"; m ← int_field period "fromMinute"; Some (h * 60 + m).

Definition window_end (period : pyval) : option Z :=
  h ← int_field period "toHour"; m ← int_field period "toMinute"; Some (h * 60 + m).

(** [doc["seasons"]["Summer"]["tou_periods"]] of a document and of its
    sell tariff. *)
Definition summer_periods (tariff : pyval) : outcome pyval :=
  seasons ← py_get tariff "seasons" PNone;
  summer ← py_get seasons "Summer" PNone;
  py_get summer "tou_periods" PNone.

Definition sell_summer_periods (tariff : pyval) : outcome pyval :=
  sell_tariff ← py_get tariff "sell_tariff" PNone;
  summer_periods sell_tariff.

(** The classes of the exceptions that the extraction and the comparison of
    the stored rates can raise. *)
Definition comparison_error (c : exn_class) : Prop :=
  c = AttributeError \/ c = TypeError \/ c = OverflowError.

(** [w'] is [w] with the given events fired and the given notifications;
    requests and sleeps are those of [w], the log may have grown. *)
Definition settled (w w' : World) (events : list event_data)
    (notes : gmap string nat) : Prop :=
  network w' = network w
  /\ requests w' = requests w
  /\ slept w' = slept w
  /\ bus w' = (bus w ++ events)%list
  /\ notifications w' = notes
  /\ exists records, log w' = (log w ++ records)%list.

(* ===================================================================== *)
(** * Properties of the Python primitives *)
(* ===================================================================== *)

Lemma lstrip_id c s : isspace c = false -> lstrip (String c s) = String c s.
Proof. intros H. cbn [lstrip]. now rewrite H. Qed.

Lemma rstrip_id s : all_chars (fun c => negb (isspace c)) s = true -> rstrip s = s.
Proof.
  induction s as [|c s IH]; cbn [rstrip all_chars]; [reflexivity|].
  intros [Hc Hs]%andb_prop. rewrite (IH Hs).
  destruct s; [|reflexivity].
  apply negb_true_iff in Hc. now rewrite Hc.
Qed.

Lemma strip_id s : all_chars (fun c => negb (isspace c)) s = true -> strip s = s.
Proof.
  intros H. unfold strip. destruct s as [|c s]; [reflexivity|].
  pose proof H as H'. cbn [all_chars] in H'. apply andb_prop in H' as [Hc _].
  apply negb_true_iff in Hc. rewrite (lstrip_id _ _ Hc). now apply rstrip_id.
Qed.

Lemma all_chars_app p a b :
  all_chars p (a +:+ b) = all_chars p a && all_chars p b.
Proof.
  induction a as [|c a IH]; [reflexivity|].
  change (String c a +:+ b) with (String c (a +:+ b)).
  cbn [all_chars]. now rewrite IH, andb_assoc.
Qed.

Lemma all_chars_weaken (p q : ascii -> bool) s :
  (forall c, p c = true -> q c = true) -> all_chars p s = true -> all_chars q s = true.
Proof.
  intros Hpq. induction s as [|c s IH]; cbn [all_chars]; [reflexivity|].
  intros [Hc Hs]%andb_prop. now rewrite (Hpq _ Hc), (IH Hs).
Qed.

Lemma split_no_sep sep s :
  all_chars (fun c => negb (Ascii.eqb c sep)) s = true -> split sep s = [s].
Proof.
  induction s as [|c s IH]; cbn [split all_chars]; [reflexivity|].
  intros [Hc Hs]%andb_prop. apply negb_true_iff in Hc. now rewrite Hc, (IH Hs).
Qed.

Lemma split_at_sep sep a b :
  all_chars (fun c => negb (Ascii.eqb c sep)) a = true ->
  split sep (a +:+ String sep b) = a :: split sep b.
Proof.
  induction a as [|c a IH].
  - intros _. change ("" +:+ String sep b) with (String sep b).
    cbn [split]. now rewrite Ascii.eqb_refl.
  - change (String c a +:+ String sep b) with (String c (a +:+ String sep b)).
    cbn [split all_chars].
    intros [Hc Ha]%andb_prop. apply negb_true_iff in Hc. now rewrite Hc, (IH Ha).
Qed.

Lemma literal_char_plain c :
  literal_char c = true -> negb (isspace c) = true /\ negb (Ascii.eqb c ":") = true.
Proof.
  destruct c as [[] [] [] [] [] [] [] []]; vm_compute; intros H; try discriminate H; auto.
Qed.

Lemma digit_value_char d : (d < 10)%nat -> digit_value (digit_char d) = Some (Z.of_nat d).
Proof.
  intros H. do 10 (destruct d as [|d]; [reflexivity|]). lia.
Qed.

Lemma digit_char_not_sign d :
  (d < 10)%nat -> Ascii.eqb (digit_char d) "+" = false /\ Ascii.eqb (digit_char d) "-" = false.
Proof.
  intros H. do 10 (destruct d as [|d]; [split; reflexivity|]). lia.
Qed.

Lemma digits_literal_chars ds :
  forallb (fun d => d <? 10)%nat ds = true -> all_chars literal_char (digits ds) = true.
Proof.
  induction ds as [|d ds IH]; cbn [forallb digits all_chars]; [reflexivity|].
  intros [Hd Hds]%andb_prop. apply Nat.ltb_lt in Hd.
  unfold literal_char at 1. now rewrite (digit_value_char _ Hd), (IH Hds).
Qed.

Lemma literal_chars sg ds :
  forallb (fun d => d <? 10)%nat ds = true -> all_chars literal_char (literal sg ds) = true.
Proof.
  intros H. destruct sg; cbn [literal all_chars];
    rewrite (digits_literal_chars _ H); reflexivity.
Qed.

Lemma int_digits_digits ds acc after_digit :
  forallb (fun d => d <? 10)%nat ds = true ->
  ds <> [] \/ after_digit = true ->
  int_digits acc after_digit (digits ds)
  = Some (fold_left (fun a d => 10 * a + Z.of_nat d) ds acc).
Proof.
  revert acc after_digit.
  induction ds as [|d ds IH]; intros acc after_digit Hds Hne;
    cbn [digits int_digits fold_left].
  - destruct Hne as [Hne| ->]; [congruence | reflexivity].
  - cbn [forallb] in Hds. apply andb_prop in Hds as [Hd Hds]. apply Nat.ltb_lt in Hd.
    rewrite (digit_value_char _ Hd). apply IH; auto.
Qed.

Lemma is_digits_inv ds :
  is_digits ds = true -> ds <> [] /\ forallb (fun d => d <? 10)%nat ds = true.
Proof.
  unfold is_digits. intros [Hne Hds]%andb_prop. split; [|exact Hds].
  destruct ds; [discriminate Hne | congruence].
Qed.

Lemma literal_plain sg ds :
  forallb (fun d => d <? 10)%nat ds = true ->
  all_chars (fun c => negb (isspace c)) (literal sg ds) = true
  /\ all_chars (fun c => negb (Ascii.eqb c ":")) (literal sg ds) = true.
Proof.
  intros H. pose proof (literal_chars sg ds H) as C.
  split; (eapply all_chars_weaken; [|exact C]); intros c Hc;
    now apply literal_char_plain.
Qed.

Lemma c_isspace_isspace c : isspace c = false -> c_isspace c = false.
Proof.
  destruct c as [[] [] [] [] [] [] [] []]; vm_compute; intros H; try discriminate H; auto.
Qed.

Lemma int_rstrip_id s :
  all_chars (fun c => negb (isspace c)) s = true -> int_rstrip s = s.
Proof.
  induction s as [|c s IH]; cbn [int_rstrip all_chars]; [reflexivity|].
  intros [Hc Hs]%andb_prop. rewrite (IH Hs).
  destruct s; [|reflexivity].
  apply negb_true_iff, c_isspace_isspace in Hc. now rewrite Hc.
Qed.

(** [int] skips nothing of a string without white space. *)
Lemma int_strip_id s :
  all_chars (fun c => negb (isspace c)) s = true -> int_rstrip (int_lstrip s) = s.
Proof.
  intros H. destruct s as [|c s]; [reflexivity|].
  pose proof H as H'. cbn [all_chars] in H'. apply andb_prop in H' as [Hc _].
  apply negb_true_iff, c_isspace_isspace in Hc. cbn [int_lstrip]. rewrite Hc.
  now apply int_rstrip_id.
Qed.

Lemma count_digits_digits ds :
  forallb (fun d => d <? 10)%nat ds = true -> count_digits (digits ds) = List.length ds.
Proof.
  induction ds as [|d ds IH]; cbn [forallb digits count_digits List.length]; [reflexivity|].
  intros [Hd Hds]%andb_prop. apply Nat.ltb_lt in Hd.
  now rewrite (digit_value_char _ Hd), (IH Hds).
Qed.

Lemma count_digits_literal sg ds :
  forallb (fun d => d <? 10)%nat ds = true -> count_digits (literal sg ds) = List.length ds.
Proof.
  intros H. destruct sg; cbn [literal count_digits];
    change (digit_value "+") with (@None Z); change (digit_value "-") with (@None Z);
    now apply count_digits_digits.
Qed.

Lemma int_literal sg ds :
  is_digits ds = true ->
  (List.length ds <= int_max_str_digits)%nat ->
  int (literal sg ds) = Returned (literal_value sg ds).
Proof.
  intros [Hne Hds]%is_digits_inv Hlen.
  unfold int. rewrite int_strip_id by (now apply literal_plain).
  rewrite (count_digits_literal _ _ Hds).
  destruct (Nat.ltb_spec int_max_str_digits (List.length ds)) as [Hover|_]; [lia|].
  destruct sg; cbn [literal literal_value].
  - destruct ds as [|d ds]; [congruence|].
    pose proof Hds as Hds'. cbn [forallb] in Hds'. apply andb_prop in Hds' as [Hd _].
    apply Nat.ltb_lt in Hd.
    assert (int_digits 0 false (digits (d :: ds)) = Some (digits_value (d :: ds))) as Hint
      by (apply (int_digits_digits (d :: ds)); auto).
    cbn [digits] in *. revert Hint.
    do 10 (destruct d as [|d]; [intros Hint; cbv [digit_char ascii_of_nat ascii_of_pos Nat.add Pos.of_succ_nat Pos.succ ascii_of_N N.of_nat] in *; cbv iota; now rewrite Hint|]). lia.
  - now rewrite int_digits_digits by auto.
  - rewrite int_digits_digits by auto. reflexivity.
Qed.

Lemma parse_literals sh dh sm dm :
  is_digits dh = true -> is_digits dm = true ->
  (List.length dh <= int_max_str_digits)%nat ->
  (List.length dm <= int_max_str_digits)%nat ->
  _parse_time_to_minutes (literal sh dh +:+ ":" +:+ literal sm dm)
  = Returned (literal_value sh dh * 60 + literal_value sm dm).
Proof.
  intros Hh Hm Lh Lm.
  destruct (is_digits_inv _ Hh) as [_ Hdh]. destruct (is_digits_inv _ Hm) as [_ Hdm].
  destruct (literal_plain sh dh Hdh) as [Sh Ch]. destruct (literal_plain sm dm Hdm) as [Sm Cm].
  unfold _parse_time_to_minutes.
  change (":" +:+ literal sm dm) with (String ":" (literal sm dm)).
  rewrite strip_id.
  2:{ rewrite all_chars_app. cbn [all_chars]. rewrite Sh, Sm. reflexivity. }
  rewrite (split_at_sep _ _ _ Ch), (split_no_sep _ _ Cm).
  rewrite (int_literal sh dh Hh Lh), (int_literal sm dm Hm Lm).
  cbn [mbind outcome_bind obind]. now destruct (negb _).
Qed.

(* ===================================================================== *)
(** * The stamping loop *)
(* ===================================================================== *)

(** Two bounds that both reach the end give the same map: the loop of
    [stamp_rate] stops because its test fails, not because of the bound. *)
Lemma stamp_fuel_irrelevant fuel1 fuel2 m end_min price mp :
  (Z.to_nat (end_min - m) <= fuel1)%nat ->
  (Z.to_nat (end_min - m) <= fuel2)%nat ->
  stamp fuel1 m end_min price mp = stamp fuel2 m end_min price mp.
Proof.
  revert fuel2 m mp.
  induction fuel1 as [|fuel1 IH]; intros fuel2 m mp H1 H2; destruct fuel2 as [|fuel2];
    cbn [stamp]; try reflexivity.
  - destruct (Z.ltb_spec m end_min); [lia | reflexivity].
  - destruct (Z.ltb_spec m end_min); [lia | reflexivity].
  - destruct (Z.ltb_spec m end_min); [|reflexivity]. apply IH; lia.
Qed.

Lemma stamp_fuel fuel m end_min price mp :
  (Z.to_nat (end_min - m) <= fuel)%nat ->
  stamp fuel m end_min price mp = stamp (Z.to_nat (end_min - m)) m end_min price mp.
Proof. intros H. apply stamp_fuel_irrelevant; [exact H | lia]. Qed.

Lemma stamp_lookup fuel m end_min price mp k :
  (Z.to_nat (end_min - m) <= fuel)%nat ->
  stamp fuel m end_min price mp !! k
  = if on_grid m end_min k then Some price else mp !! k.
Proof.
  revert m mp. induction fuel as [|fuel IH]; intros m mp Hfuel; cbn [stamp].
  - unfold on_grid. destruct (Z.leb_spec m k), (Z.ltb_spec k end_min); cbn; try reflexivity. lia.
  - destruct (Z.ltb_spec m end_min) as [Hlt|Hge].
    + rewrite IH by lia. unfold on_grid.
      destruct (decide (k = m)) as [->|Hne].
      * rewrite Z.sub_diag, Zmod_0_l.
        destruct (Z.leb_spec m m); [|lia]. destruct (Z.ltb_spec m end_min); [|lia].
        cbn [andb Z.eqb].
        destruct (Z.leb_spec (m + 30) m); [lia|]. cbn [andb].
        apply lookup_insert_eq.
      * rewrite lookup_insert_ne by congruence.
        replace ((k - (m + 30)) mod 30) with ((k - m) mod 30)
          by (replace (k - (m + 30)) with (k - m + (-1) * 30) by lia;
              now rewrite Z_mod_plus_full).
        destruct (Z.eqb_spec ((k - m) mod 30) 0) as [Hmod|Hmod];
          [|now rewrite !andb_false_r].
        rewrite !andb_true_r.
        destruct (Z.leb_spec (m + 30) k), (Z.leb_spec m k); cbn [andb]; try reflexivity; try lia.
        exfalso. assert (0 <= k - m < 30) as Hr by lia.
        rewrite (Z.mod_small _ _ Hr) in Hmod. lia.
    + unfold on_grid. destruct (Z.leb_spec m k), (Z.ltb_spec k end_min); cbn; try reflexivity. lia.
Qed.

(* ===================================================================== *)
(** * Stamping the rates *)
(* ===================================================================== *)

Lemma int_raises s e : int s = Raised e -> cls e = ValueError.
Proof.
  unfold int.
  destruct (match int_rstrip (int_lstrip s) with EmptyString => _ | String _ _ => _ end);
    [destruct (_ <? _)%nat|]; intros H; inversion H; reflexivity.
Qed.

Lemma parse_raises s e : _parse_time_to_minutes s = Raised e -> cls e = ValueError.
Proof.
  unfold _parse_time_to_minutes.
  destruct (split ":" (strip s)) as [|p0 [|p1 [|p2 ps]]];
    try (intros H; inversion H; reflexivity).
  destruct (int p0) as [hours|e0] eqn:E0; cbn [mbind outcome_bind obind].
  - destruct (int p1) as [mins|e1] eqn:E1; cbn [mbind outcome_bind obind].
    + destruct (negb _); intros H; inversion H.
    + intros H; inversion H; subst. eapply int_raises, E1.
  - intros H; inversion H; subst. eapply int_raises, E0.
Qed.

Lemma stamp_rate_returns mp rate :
  parseable rate = true ->
  exists mp', stamp_rate mp rate = Returned mp'
    /\ forall k, mp' !! k = if covers rate k then Some (dollars rate) else mp !! k.
Proof.
  unfold parseable, stamp_rate, covers.
  destruct (_parse_time_to_minutes (start rate)) as [s|]; [|discriminate].
  destruct (_parse_time_to_minutes (end_ rate)) as [e|]; [|discriminate].
  intros _. cbn [mbind outcome_bind obind mret outcome_ret].
  eexists; split; [reflexivity|].
  intros k. now rewrite stamp_lookup by lia.
Qed.

Lemma stamp_rate_raises mp rate :
  parseable rate = false ->
  exists e, stamp_rate mp rate = Raised e /\ cls e = ValueError.
Proof.
  unfold parseable, stamp_rate.
  destruct (_parse_time_to_minutes (start rate)) as [s|e1] eqn:E1.
  - destruct (_parse_time_to_minutes (end_ rate)) as [e|e2] eqn:E2; [discriminate|].
    intros _. exists e2. split; [reflexivity | eapply parse_raises, E2].
  - intros _. exists e1. split; [reflexivity | eapply parse_raises, E1].
Qed.

Lemma stamp_rates_returns rates mp :
  forallb parseable rates = true ->
  exists mp', stamp_rates rates mp = Returned mp'
    /\ forall k, mp' !! k = stamped_price rates k (mp !! k).
Proof.
  revert mp. induction rates as [|rate rates IH]; intros mp; cbn [forallb stamp_rates].
  - intros _. exists mp. split; reflexivity.
  - intros [Hr Hrs]%andb_prop.
    destruct (stamp_rate_returns mp rate Hr) as (mp1 & -> & Hmp1).
    cbn [mbind outcome_bind obind].
    destruct (IH mp1 Hrs) as (mp' & -> & Hmp').
    exists mp'. split; [reflexivity|].
    intros k. rewrite Hmp', Hmp1. unfold stamped_price. cbn [fold_left].
    now destruct (covers rate k).
Qed.

Lemma stamp_rates_raises rates mp :
  forallb parseable rates = false ->
  exists e, stamp_rates rates mp = Raised e /\ cls e = ValueError.
Proof.
  revert mp. induction rates as [|rate rates IH]; intros mp; cbn [forallb stamp_rates].
  - discriminate.
  - destruct (parseable rate) eqn:Hr; cbn [andb]; intros Hrs.
    + destruct (stamp_rate_returns mp rate Hr) as (mp1 & -> & _).
      cbn [mbind outcome_bind obind]. apply IH, Hrs.
    + destruct (stamp_rate_raises mp rate Hr) as (e & -> & He).
      exists e. split; [reflexivity | exact He].
Qed.

(** Who wins: no rate covers the minute, or the last one that does. *)
Lemma stamped_price_none rates k init :
  forallb (fun rate => negb (covers rate k)) rates = true ->
  stamped_price rates k init = init.
Proof.
  revert init. unfold stamped_price.
  induction rates as [|rate rates IH]; intros init; cbn [forallb fold_left]; [reflexivity|].
  intros [Hr Hrs]%andb_prop. apply negb_true_iff in Hr. rewrite Hr. now apply IH.
Qed.

Lemma stamped_price_last pre rate post k init :
  covers rate k = true ->
  forallb (fun later => negb (covers later k)) post = true ->
  stamped_price (pre ++ rate :: post) k init = Some (dollars rate).
Proof.
  intros Hr Hpost. unfold stamped_price.
  rewrite fold_left_app. cbn [fold_left]. rewrite Hr.
  now apply stamped_price_none.
Qed.

(* ===================================================================== *)
(** * The slot loop and the assembled document *)
(* ===================================================================== *)

Lemma add_log_nil w : add_log w [] = w.
Proof. destruct w. unfold add_log. cbn. now rewrite app_nil_r. Qed.

Lemma add_log_app w a b : add_log (add_log w a) b = add_log w (a ++ b).
Proof. unfold add_log. cbn. now rewrite app_assoc. Qed.

Lemma emit_run l m w : emit l m w = (Returned tt, add_log w [Log l m]).
Proof. reflexivity. Qed.

Lemma price_slot_run mp acc slot w :
  price_slot mp acc slot w
  = (Returned (slot_step (slot_price mp) acc slot), add_log w (slot_warnings mp [slot])).
Proof.
  unfold price_slot, slot_step, slot_price, slot_warnings. cbn [flat_map].
  unfold mbind, M_bind, mret, M_ret, emit, add_log.
  destruct (mp !! (slot * 30)) as [p|]; cbn.
  - destruct w; cbn. now rewrite app_nil_r.
  - reflexivity.
Qed.

Lemma for_each_price_slot mp slots acc w :
  for_each (price_slot mp) slots acc w
  = (Returned (fold_left (slot_step (slot_price mp)) slots acc),
     add_log w (slot_warnings mp slots)).
Proof.
  revert acc w. induction slots as [|slot slots IH]; intros acc w; cbn [for_each fold_left].
  - cbn. now rewrite add_log_nil.
  - unfold mbind, M_bind at 1. rewrite price_slot_run, IH, add_log_app.
    unfold slot_warnings. cbn [flat_map]. now rewrite app_nil_r.
Qed.

(** With 48 distinct keys every [dict_set] appends: the tables list the
    slots in order. *)
Lemma tables_of_slots (price : Z -> float * float) :
  fold_left (slot_step price) slots (Tables [] [] [])
  = Tables (map (fun slot => (period_key (slot * 30), fst (price (slot * 30)))) slots)
           (map (fun slot => (period_key (slot * 30), snd (price (slot * 30)))) slots)
           canonical_keys.
Proof. vm_compute. reflexivity. Qed.

Lemma canonical_keys_NoDup : NoDup canonical_keys.
Proof. apply (bool_decide_unpack (NoDup canonical_keys)). vm_compute. reflexivity. Qed.

Lemma canonical_keys_length : List.length canonical_keys = 48%nat.
Proof. reflexivity. Qed.

Lemma build_run rates plan_name w mp :
  stamp_rates rates ∅ = Returned mp ->
  _build_tariff rates plan_name w
  = (Returned (built_document mp plan_name), add_log w (slot_warnings mp slots)).
Proof.
  intros Hmp. unfold _build_tariff, lift.
  unfold mbind at 1, M_bind at 1. rewrite Hmp.
  unfold mbind at 1, M_bind at 1. rewrite for_each_price_slot, tables_of_slots.
  reflexivity.
Qed.

Lemma build_raise rates plan_name w e :
  stamp_rates rates ∅ = Raised e ->
  _build_tariff rates plan_name w = (Raised e, w).
Proof.
  intros Hmp. unfold _build_tariff, lift.
  unfold mbind at 1, M_bind at 1. now rewrite Hmp.
Qed.

Lemma summer_rates_assemble name t tou :
  summer_rates (assemble name t tou) = Returned (price_table (buy_prices t)).
Proof. reflexivity. Qed.

Lemma sell_rates_assemble name t tou :
  sell_rates (assemble name t tou) = Returned (price_table (sell_prices t)).
Proof. reflexivity. Qed.

Lemma dict_lookup_map {A V} (key : A -> string) (f : A -> V) (l : list A) (x : A) :
  NoDup (map key l) -> x ∈ l ->
  dict_lookup (key x) (map (fun y => (key y, f y)) l) = Some (f x).
Proof.
  induction l as [|y l IH]; intros Hnd Hx.
  - now apply elem_of_nil in Hx.
  - cbn [map] in *. apply NoDup_cons in Hnd as [Hy Hnd]. cbn [dict_lookup].
    apply elem_of_cons in Hx as [->|Hx].
    + now rewrite String.eqb_refl.
    + destruct (String.eqb_spec (key y) (key x)) as [Heq|_]; [|now apply IH].
      exfalso. apply Hy. rewrite Heq. apply list_elem_of_fmap. now exists x.
Qed.

Lemma built_buy_lookup mp slot :
  slot ∈ slots ->
  dict_lookup (period_key (slot * 30))
    (map (fun kv => (fst kv, PFloat (snd kv))) (buy_prices (built_tables mp)))
  = Some (PFloat (fst (slot_price mp (slot * 30)))).
Proof.
  intros Hslot. unfold built_tables. cbn [buy_prices]. rewrite map_map. cbn [fst snd].
  apply (dict_lookup_map (fun slot => period_key (slot * 30))
           (fun slot => PFloat (fst (slot_price mp (slot * 30))))); [|exact Hslot].
  exact canonical_keys_NoDup.
Qed.

Lemma built_sell_lookup mp slot :
  slot ∈ slots ->
  dict_lookup (period_key (slot * 30))
    (map (fun kv => (fst kv, PFloat (snd kv))) (sell_prices (built_tables mp)))
  = Some (PFloat (snd (slot_price mp (slot * 30)))).
Proof.
  intros Hslot. unfold built_tables. cbn [sell_prices]. rewrite map_map. cbn [fst snd].
  apply (dict_lookup_map (fun slot => period_key (slot * 30))
           (fun slot => PFloat (snd (slot_price mp (slot * 30))))); [|exact Hslot].
  exact canonical_keys_NoDup.
Qed.

Lemma built_buy_keys mp :
  map fst (map (fun kv : string * float => (fst kv, PFloat (snd kv))) (buy_prices (built_tables mp)))
  = canonical_keys.
Proof. unfold built_tables. cbn [buy_prices]. now rewrite !map_map. Qed.

Lemma built_sell_keys mp :
  map fst (map (fun kv : string * float => (fst kv, PFloat (snd kv))) (sell_prices (built_tables mp)))
  = canonical_keys.
Proof. unfold built_tables. cbn [sell_prices]. now rewrite !map_map. Qed.

Lemma slots_range slot : slot ∈ slots <-> 0 <= slot < 48.
Proof. unfold slots. rewrite elem_of_seqZ. lia. Qed.

Lemma slot_warnings_level mp l :
  Forall (fun r => lvl r = WARNING) (slot_warnings mp l).
Proof.
  induction l as [|slot l IH]; unfold slot_warnings; cbn [flat_map]; [constructor|].
  destruct (mp !! (slot * 30)); cbn [app]; [exact IH|]. constructor; [reflexivity | exact IH].
Qed.

Lemma slot_warnings_In mp l slot :
  slot ∈ l -> mp !! (slot * 30) = None ->
  In (Log WARNING (NoRateCovers (period_key (slot * 30)))) (slot_warnings mp l).
Proof.
  intros Hslot Hnone. unfold slot_warnings. apply in_flat_map.
  exists slot. split; [now apply list_elem_of_In|]. rewrite Hnone. now left.
Qed.

Lemma slot_warnings_covered mp l :
  Forall (fun slot => is_Some (mp !! (slot * 30))) l -> slot_warnings mp l = [].
Proof.
  induction 1 as [|slot l [p Hp] _ IH]; unfold slot_warnings; cbn [flat_map]; [reflexivity|].
  rewrite Hp. exact IH.
Qed.

(* ===================================================================== *)
(** * Claims about [_build_tariff] *)
(* ===================================================================== *)

(** C1.  For a non-empty list of rates whose start and end parse,
    [_build_tariff] returns a document; its buy-side and its sell-side rate
    table each have exactly 48 entries, keyed by the 48 distinct canonical
    slot keys in order, and every minute of the day lies in one of these
    slots.  A slot whose start minute no rate stamps has price 0.0 on both
    sides, and a warning is logged for it.  Nothing else happens: the world
    changes by log records of level WARNING only. *)
Theorem build_48_slots (rates : list RatePeriod) (plan_name : option string) (w : World) :
  rates <> [] ->
  forallb parseable rates = true ->
  exists doc buy sell warnings,
    _build_tariff rates plan_name w = (Returned doc, add_log w warnings)
    /\ summer_rates doc = Returned (PDict buy)
    /\ sell_rates doc = Returned (PDict sell)
    /\ List.length buy = 48%nat /\ List.length sell = 48%nat
    /\ map fst buy = canonical_keys /\ map fst sell = canonical_keys
    /\ NoDup canonical_keys
    /\ (forall minute, 0 <= minute < 1440 ->
          exists slot, slot ∈ slots /\ slot * 30 <= minute < slot * 30 + 30
            /\ is_Some (dict_lookup (period_key (slot * 30)) buy)
            /\ is_Some (dict_lookup (period_key (slot * 30)) sell))
    /\ (forall slot, slot ∈ slots ->
          forallb (fun rate => negb (covers rate (slot * 30))) rates = true ->
          dict_lookup (period_key (slot * 30)) buy = Some (PFloat 0)
          /\ dict_lookup (period_key (slot * 30)) sell = Some (PFloat 0)
          /\ In (Log WARNING (NoRateCovers (period_key (slot * 30)))) warnings)
    /\ Forall (fun r => lvl r = WARNING) warnings.
Proof.
  intros _ Hparse.
  destruct (stamp_rates_returns rates ∅ Hparse) as (mp & Hmp & Hlookup).
  exists (built_document mp plan_name).
  eexists _, _, (slot_warnings mp slots).
  split; [exact (build_run _ _ _ _ Hmp)|].
  split; [apply summer_rates_assemble|].
  split; [apply sell_rates_assemble|].
  rewrite built_buy_keys, built_sell_keys.
  split; [now rewrite !length_map|]. split; [now rewrite !length_map|].
  split; [reflexivity|]. split; [reflexivity|].
  split; [exact canonical_keys_NoDup|].
  split; [|split].
  - intros minute Hminute. exists (minute / 30).
    assert (minute / 30 ∈ slots) as Hslot.
    { apply slots_range. split; [apply Z.div_pos; lia | apply Z.div_lt_upper_bound; lia]. }
    split; [exact Hslot|].
    split; [pose proof (Z.mod_pos_bound minute 30); pose proof (Z.div_mod minute 30); lia|].
    rewrite built_buy_lookup, built_sell_lookup by exact Hslot. split; eexists; reflexivity.
  - intros slot Hslot Hnone.
    assert (mp !! (slot * 30) = None) as Hmiss
      by (rewrite Hlookup, stamped_price_none by exact Hnone; apply lookup_empty).
    rewrite built_buy_lookup, built_sell_lookup by exact Hslot.
    unfold slot_price. rewrite Hmiss. cbn [fst snd].
    split; [reflexivity|]. split; [reflexivity|].
    now apply slot_warnings_In.
  - apply slot_warnings_level.
Qed.

Lemma build_48_slots_witness :
  example_rates <> [] /\ forallb parseable example_rates = true
  /\ exists doc buy,
       fst (_build_tariff example_rates None quiet_world) = Returned doc
       /\ summer_rates doc = Returned (PDict buy) /\ List.length buy = 48%nat.
Proof.
  split; [discriminate|]. split; [vm_compute; reflexivity|].
  destruct (build_48_slots example_rates None quiet_world)
    as (doc & buy & sell & warnings & Hrun & Hbuy & _ & Hlen & _);
    [discriminate | vm_compute; reflexivity |].
  exists doc, buy. rewrite Hrun. auto.
Defined.

Lemma parse_midnight : _parse_time_to_minutes "00:00" = Returned 0.
Proof. vm_compute. reflexivity. Qed.

Lemma on_grid_slot slot : 0 <= slot < 48 -> on_grid 0 1440 (slot * 30) = true.
Proof.
  intros H. unfold on_grid. rewrite Z.sub_0_r, Z_mod_mult.
  destruct (Z.leb_spec 0 (slot * 30)); [|lia].
  destruct (Z.ltb_spec (slot * 30) 1440); [reflexivity | lia].
Qed.

(** C3.  For the single rate from "00:00" to "00:00" the end parses to 0
    and is taken as 1440: the rate stamps every 30-minute mark of
    [0, 1440), and in the document all 48 slots carry its buy and its sell
    price (in dollars), with no warning. *)
Theorem whole_day_rate (b s : float) (plan_name : option string) (w : World) :
  let rate := Rate "00:00" "00:00" b s in
  _parse_time_to_minutes (end_ rate) = Returned 0
  /\ (forall minute, covers rate minute = on_grid 0 1440 minute)
  /\ exists doc buy sell,
       _build_tariff [rate] plan_name w = (Returned doc, w)
       /\ summer_rates doc = Returned (PDict buy)
       /\ sell_rates doc = Returned (PDict sell)
       /\ Forall (fun slot =>
                    dict_lookup (period_key (slot * 30)) buy
                    = Some (PFloat (round6 (b / 100)))
                    /\ dict_lookup (period_key (slot * 30)) sell
                       = Some (PFloat (round6 (s / 100))))
                 slots.
Proof.
  intros rate.
  assert (forall minute, covers rate minute = on_grid 0 1440 minute) as Hcov.
  { intros minute. unfold covers, rate. cbn [start end_]. now rewrite parse_midnight. }
  split; [exact parse_midnight|]. split; [exact Hcov|].
  assert (forallb parseable [rate] = true) as Hparse.
  { unfold parseable, rate. cbn [forallb start end_]. now rewrite parse_midnight. }
  destruct (stamp_rates_returns [rate] ∅ Hparse) as (mp & Hmp & Hlookup).
  assert (forall slot, slot ∈ slots -> mp !! (slot * 30) = Some (dollars rate)) as Hstamped.
  { intros slot Hslot%slots_range. rewrite Hlookup. unfold stamped_price. cbn [fold_left].
    now rewrite Hcov, on_grid_slot. }
  exists (built_document mp plan_name). eexists _, _.
  split.
  { rewrite (build_run _ _ _ _ Hmp), slot_warnings_covered, add_log_nil; [reflexivity|].
    apply Forall_forall. intros slot Hslot. rewrite Hstamped by exact Hslot. now eexists. }
  split; [apply summer_rates_assemble|]. split; [apply sell_rates_assemble|].
  apply Forall_forall. intros slot Hslot.
  rewrite built_buy_lookup, built_sell_lookup by exact Hslot.
  unfold slot_price. rewrite Hstamped by exact Hslot. split; reflexivity.
Qed.

(** C6, as the code has it.  A rate covers a minute mark when its loop
    writes it: the mark is its start plus a multiple of 30 and lies below its
    end.  When two rates of the list both cover a mark in that sense, and no
    rate after the later one covers it, the entry of [minute_prices] at the
    mark is the later rate's; for the mark of a slot, the document carries
    the later rate's buy and sell price at that slot. *)
Theorem later_rate_wins (pre : list RatePeriod) (r1 : RatePeriod) (mid : list RatePeriod)
    (r2 : RatePeriod) (post : list RatePeriod) (minute : Z)
    (plan_name : option string) (w : World) :
  forallb parseable (pre ++ r1 :: mid ++ r2 :: post) = true ->
  covers r1 minute = true ->
  covers r2 minute = true ->
  forallb (fun later => negb (covers later minute)) post = true ->
  exists mp doc buy_table sell_table warnings,
    stamp_rates (pre ++ r1 :: mid ++ r2 :: post) ∅ = Returned mp
    /\ mp !! minute = Some (dollars r2)
    /\ _build_tariff (pre ++ r1 :: mid ++ r2 :: post) plan_name w
       = (Returned doc, add_log w warnings)
    /\ summer_rates doc = Returned (PDict buy_table)
    /\ sell_rates doc = Returned (PDict sell_table)
    /\ forall slot, 0 <= slot < 48 -> minute = slot * 30 ->
         dict_lookup (period_key minute) buy_table = Some (PFloat (round6 (buy r2 / 100)))
         /\ dict_lookup (period_key minute) sell_table = Some (PFloat (round6 (sell r2 / 100))).
Proof.
  intros Hparse _ H2 Hpost.
  destruct (stamp_rates_returns _ ∅ Hparse) as (mp & Hmp & Hlookup).
  assert (mp !! minute = Some (dollars r2)) as Hwin.
  { rewrite Hlookup.
    replace (pre ++ r1 :: mid ++ r2 :: post)%list
      with ((pre ++ r1 :: mid) ++ r2 :: post)%list by (now rewrite <- app_assoc).
    now apply stamped_price_last. }
  exists mp, (built_document mp plan_name). eexists _, _, _.
  split; [exact Hmp|]. split; [exact Hwin|].
  split; [exact (build_run _ _ _ _ Hmp)|].
  split; [apply summer_rates_assemble|]. split; [apply sell_rates_assemble|].
  intros slot Hslot%slots_range ->.
  rewrite built_buy_lookup, built_sell_lookup by exact Hslot.
  unfold slot_price. rewrite Hwin. split; reflexivity.
Qed.

Lemma later_rate_wins_witness :
  let r1 := Rate "07:00" "09:00" 30 5 in
  let r2 := Rate "08:00" "10:00" 20 4 in
  forallb parseable ([] ++ r1 :: [] ++ r2 :: []) = true
  /\ covers r1 480 = true /\ covers r2 480 = true
  /\ exists mp, stamp_rates [r1; r2] ∅ = Returned mp /\ mp !! 480 = Some (dollars r2).
Proof.
  split; [vm_compute; reflexivity|]. split; [vm_compute; reflexivity|].
  split; [vm_compute; reflexivity|].
  destruct (later_rate_wins [] (Rate "07:00" "09:00" 30 5) [] (Rate "08:00" "10:00" 20 4)
              [] 480 None quiet_world) as (mp & _ & _ & _ & _ & Hmp & Hwin & _);
    try (vm_compute; reflexivity).
  exists mp. split; [exact Hmp | exact Hwin].
Defined.

(** C6, as the claim states it, fails for a later period that starts off
    the half-hour grid.  The period 07:15 to 09:00 contains the mark 07:30
    (minute 450), but its loop writes 435, 465, ... and never 450: the slot
    07:30 keeps the prices of the earlier period. *)
Lemma later_rate_off_grid_loses :
  let r1 := Rate "07:00" "09:00" 30 5 in
  let r2 := Rate "07:15" "09:00" 20 4 in
  _parse_time_to_minutes (start r2) = Returned 435
  /\ _parse_time_to_minutes (end_ r2) = Returned 540
  /\ 435 <= 450 < 540
  /\ covers r1 450 = true
  /\ covers r2 450 = false
  /\ exists doc warnings buy_table sell_table,
       _build_tariff [r1; r2] None quiet_world = (Returned doc, add_log quiet_world warnings)
       /\ summer_rates doc = Returned (PDict buy_table)
       /\ sell_rates doc = Returned (PDict sell_table)
       /\ dict_lookup (period_key 450) buy_table = Some (PFloat (round6 (buy r1 / 100)))
       /\ dict_lookup (period_key 450) sell_table = Some (PFloat (round6 (sell r1 / 100)))
       /\ (round6 (buy r1 / 100) =? round6 (buy r2 / 100))%float = false
       /\ (round6 (sell r1 / 100) =? round6 (sell r2 / 100))%float = false.
Proof.
  intros r1 r2.
  split; [vm_compute; reflexivity|]. split; [vm_compute; reflexivity|].
  split; [lia|].
  split; [vm_compute; reflexivity|]. split; [vm_compute; reflexivity|].
  assert (forallb parseable [r1; r2] = true) as Hparse by (vm_compute; reflexivity).
  destruct (stamp_rates_returns [r1; r2] ∅ Hparse) as (mp & Hmp & Hlookup).
  assert (15 ∈ slots) as Hslot by (apply slots_range; lia).
  exists (built_document mp None). eexists _, _, _.
  split; [exact (build_run _ _ _ _ Hmp)|].
  split; [apply summer_rates_assemble|]. split; [apply sell_rates_assemble|].
  pose proof (built_buy_lookup mp 15 Hslot) as Hbuy.
  pose proof (built_sell_lookup mp 15 Hslot) as Hsell.
  unfold slot_price in Hbuy, Hsell. rewrite Hlookup, lookup_empty in Hbuy, Hsell.
  assert (stamped_price [r1; r2] (15 * 30) None = Some (dollars r1)) as Hprice
    by (vm_compute; reflexivity).
  rewrite Hprice in Hbuy, Hsell. change (15 * 30) with 450 in Hbuy, Hsell.
  split; [exact Hbuy|]. split; [exact Hsell|].
  split; vm_compute; reflexivity.
Qed.

(** C8, as the code has it.  [_build_tariff] raises a [ValueError], returns
    no document and leaves the world as it was, whenever the start or the
    end of some rate is not accepted by [_parse_time_to_minutes].  An empty
    list of rates is not an error for [_build_tariff]: it returns the
    document whose 48 slots are all priced 0.0 (the list is required to be
    non-empty by the service schema, before the call). *)
Theorem build_rejects_unparseable (rates : list RatePeriod) (plan_name : option string)
    (w : World) :
  forallb parseable rates = false ->
  (exists e, _build_tariff rates plan_name w = (Raised e, w) /\ cls e = ValueError)
  /\ (exists doc buy_table sell_table warnings,
        _build_tariff [] plan_name w = (Returned doc, add_log w warnings)
        /\ summer_rates doc = Returned (PDict buy_table)
        /\ sell_rates doc = Returned (PDict sell_table)
        /\ Forall (fun slot =>
                     dict_lookup (period_key (slot * 30)) buy_table = Some (PFloat 0)
                     /\ dict_lookup (period_key (slot * 30)) sell_table = Some (PFloat 0))
                  slots).
Proof.
  intros Hbad. split.
  - destruct (stamp_rates_raises rates ∅ Hbad) as (e & He & Hcls).
    exists e. split; [exact (build_raise _ _ _ _ He) | exact Hcls].
  - exists (built_document ∅ plan_name). eexists _, _, _.
    split; [exact (build_run [] plan_name w ∅ eq_refl)|].
    split; [apply summer_rates_assemble|]. split; [apply sell_rates_assemble|].
    apply Forall_forall. intros slot Hslot.
    rewrite built_buy_lookup, built_sell_lookup by exact Hslot.
    unfold slot_price. rewrite lookup_empty. split; reflexivity.
Qed.

Lemma build_rejects_unparseable_witness :
  forallb parseable [Rate "07:00" "9am" 30 5] = false
  /\ exists e, _build_tariff [Rate "07:00" "9am" 30 5] None quiet_world = (Raised e, quiet_world)
               /\ cls e = ValueError.
Proof.
  split; [vm_compute; reflexivity|].
  destruct (build_rejects_unparseable [Rate "07:00" "9am" 30 5] None quiet_world) as [H _];
    [vm_compute; reflexivity | exact H].
Defined.

(** C8, as the claim states it, fails on the empty list: there
    [_build_tariff] returns a document. *)
Lemma build_accepts_empty_rates :
  _build_tariff [] None quiet_world
  = (Returned (built_document ∅ None), add_log quiet_world (slot_warnings ∅ slots)).
Proof. exact (build_run [] None quiet_world ∅ eq_refl). Qed.

Lemma integer_time_parseable s : integer_time s -> returns (_parse_time_to_minutes s) = true.
Proof.
  intros (sh & dh & sm & dm & Hh & Hm & Lh & Lm & ->). now rewrite parse_literals.
Qed.

Lemma for_each_price_slot_agree mp mp' l acc w :
  Forall (fun slot => mp !! (slot * 30) = mp' !! (slot * 30)) l ->
  for_each (price_slot mp) l acc w = for_each (price_slot mp') l acc w.
Proof.
  intros Hagree. revert acc w.
  induction Hagree as [|slot l Hslot _ IH]; intros acc w; cbn [for_each]; [reflexivity|].
  unfold mbind, M_bind. rewrite !price_slot_run.
  unfold slot_step, slot_price, slot_warnings. cbn [flat_map]. rewrite Hslot. apply IH.
Qed.

Lemma slot_warnings_agree mp mp' l :
  Forall (fun slot => mp !! (slot * 30) = mp' !! (slot * 30)) l ->
  slot_warnings mp l = slot_warnings mp' l.
Proof.
  intros Hagree. unfold slot_warnings.
  induction Hagree as [|slot l Hslot _ IH]; cbn [flat_map]; [reflexivity|].
  now rewrite Hslot, IH.
Qed.

Lemma built_tables_agree mp mp' :
  Forall (fun slot => mp !! (slot * 30) = mp' !! (slot * 30)) slots ->
  built_tables mp = built_tables mp'.
Proof.
  intros Hagree. unfold built_tables.
  assert (Forall (fun slot => slot_price mp (slot * 30) = slot_price mp' (slot * 30)) slots)
    as Hprice.
  { eapply Forall_impl; [exact Hagree|]. intros slot Hslot. unfold slot_price.
    now rewrite Hslot. }
  f_equal; apply map_ext_Forall; (eapply Forall_impl; [exact Hprice|]);
    intros slot Hslot; cbv beta; now rewrite Hslot.
Qed.

(** C10, as the code has it.  A time string made of two integer literals
    (a sign and at most 4300 digits each) around a colon is accepted whatever
    the two numbers are, and the result is hours * 60 + minutes: the range
    test changes nothing.  So rates with such start and end strings are
    built without error: the rates are stamped, also at marks of 1440 and
    above, and the document and the warnings are those of the stamped map.
    The slot loop reads the map below 1440 only: a map that agrees with it
    there gives the same document and the same warnings, so a mark stamped
    at 1440 or above is never read. *)
Theorem out_of_range_times_accepted (sh : sign) (dh : list nat) (sm : sign) (dm : list nat)
    (rates : list RatePeriod) (plan_name : option string) (w : World) :
  is_digits dh = true ->
  is_digits dm = true ->
  (List.length dh <= int_max_str_digits)%nat ->
  (List.length dm <= int_max_str_digits)%nat ->
  Forall (fun rate => integer_time (start rate) /\ integer_time (end_ rate)) rates ->
  _parse_time_to_minutes (literal sh dh +:+ ":" +:+ literal sm dm)
  = Returned (literal_value sh dh * 60 + literal_value sm dm)
  /\ exists mp,
       stamp_rates rates ∅ = Returned mp
       /\ (forall minute, mp !! minute = stamped_price rates minute None)
       /\ _build_tariff rates plan_name w
          = (Returned (built_document mp plan_name), add_log w (slot_warnings mp slots))
       /\ forall mp',
            (forall minute, 0 <= minute < 1440 -> mp' !! minute = mp !! minute) ->
            built_document mp' plan_name = built_document mp plan_name
            /\ slot_warnings mp' slots = slot_warnings mp slots
            /\ forall acc w',
                 for_each (price_slot mp') slots acc w' = for_each (price_slot mp) slots acc w'.
Proof.
  intros Hh Hm Lh Lm Hrates. split; [now apply parse_literals|].
  assert (forallb parseable rates = true) as Hparse.
  { apply forallb_forall. intros rate Hin.
    rewrite List.Forall_forall in Hrates. destruct (Hrates rate Hin) as [Hs He].
    unfold parseable. now rewrite (integer_time_parseable _ Hs), (integer_time_parseable _ He). }
  destruct (stamp_rates_returns rates ∅ Hparse) as (mp & Hmp & Hlookup).
  exists mp. split; [exact Hmp|]. split.
  { intros minute. now rewrite Hlookup, lookup_empty. }
  split; [exact (build_run _ _ _ _ Hmp)|].
  intros mp' Hagree.
  assert (Forall (fun slot => mp' !! (slot * 30) = mp !! (slot * 30)) slots) as Hslots.
  { apply Forall_forall. intros slot Hslot%slots_range. apply Hagree. lia. }
  split; [unfold built_document; now rewrite (built_tables_agree _ _ Hslots)|].
  split; [now apply slot_warnings_agree|].
  intros acc w'. now apply for_each_price_slot_agree.
Qed.

Lemma out_of_range_times_accepted_witness :
  let late := Rate "23:00" "25:30" 30 5 in
  is_digits [2; 5]%nat = true /\ is_digits [9; 9]%nat = true
  /\ (List.length [2; 5]%nat <= int_max_str_digits)%nat
  /\ (List.length [9; 9]%nat <= int_max_str_digits)%nat
  /\ Forall (fun rate => integer_time (start rate) /\ integer_time (end_ rate)) [late]
  /\ _parse_time_to_minutes "25:99" = Returned 1599
  /\ exists mp,
       stamp_rates [late] ∅ = Returned mp
       /\ mp !! 1410 = Some (dollars late)
       /\ mp !! 1500 = Some (dollars late)
       /\ _build_tariff [late] None quiet_world
          = (Returned (built_document mp None), add_log quiet_world (slot_warnings mp slots))
       /\ built_document (delete 1500 mp) None = built_document mp None.
Proof.
  intros late.
  assert (Forall (fun rate => integer_time (start rate) /\ integer_time (end_ rate)) [late])
    as Hrates.
  { constructor; [|constructor]. split.
    - exists NoSign, [2; 3]%nat, NoSign, [0; 0]%nat.
      split; [reflexivity|]. split; [reflexivity|].
      split; [unfold int_max_str_digits; cbn [List.length]; lia|].
      split; [unfold int_max_str_digits; cbn [List.length]; lia|reflexivity].
    - exists NoSign, [2; 5]%nat, NoSign, [3; 0]%nat.
      split; [reflexivity|]. split; [reflexivity|].
      split; [unfold int_max_str_digits; cbn [List.length]; lia|].
      split; [unfold int_max_str_digits; cbn [List.length]; lia|reflexivity]. }
  assert (List.length [2; 5]%nat <= int_max_str_digits)%nat as L1
    by (unfold int_max_str_digits; cbn [List.length]; lia).
  assert (List.length [9; 9]%nat <= int_max_str_digits)%nat as L2
    by (unfold int_max_str_digits; cbn [List.length]; lia).
  split; [reflexivity|]. split; [reflexivity|]. split; [exact L1|]. split; [exact L2|].
  split; [exact Hrates|].
  destruct (out_of_range_times_accepted NoSign [2; 5]%nat NoSign [9; 9]%nat
              [late] None quiet_world eq_refl eq_refl L1 L2 Hrates)
    as (Hparse & mp & Hmp & Hlookup & Hbuild & Hread).
  split; [exact Hparse|].
  exists mp. split; [exact Hmp|].
  split; [rewrite Hlookup; vm_compute; reflexivity|].
  split; [rewrite Hlookup; vm_compute; reflexivity|].
  split; [exact Hbuild|].
  apply Hread. intros minute Hminute. apply lookup_delete_ne. lia.
Defined.

(** C10, as the claim states it, fails on an integer of more than 4300
    digits: [int] refuses it, so the time string is not accepted. *)
Lemma long_integer_time_rejected :
  is_digits (repeat 1%nat 4301) = true
  /\ _parse_time_to_minutes (digits (repeat 1%nat 4301) +:+ ":00")
     = Raised (Exn ValueError "Exceeds the limit (4300 digits) for integer string conversion").
Proof. split; vm_compute; reflexivity. Qed.

(* ===================================================================== *)
(** * Delivery: one exchange *)
(* ===================================================================== *)

Lemma extends_refl w : extends w w [] [].
Proof.
  unfold extends. rewrite !app_nil_r. repeat split; try reflexivity.
  exists []. now rewrite app_nil_r.
Qed.

Lemma extends_trans w1 w2 w3 r1 r2 s1 s2 :
  extends w1 w2 r1 s1 -> extends w2 w3 r2 s2 -> extends w1 w3 (r1 ++ r2) (s1 ++ s2).
Proof.
  intros (Hn1 & Hr1 & Hs1 & Hb1 & Ho1 & l1 & Hl1) (Hn2 & Hr2 & Hs2 & Hb2 & Ho2 & l2 & Hl2).
  unfold extends. rewrite Hn2, Hr2, Hs2, Hb2, Ho2, Hl2, Hn1, Hr1, Hs1, Hb1, Ho1, Hl1.
  rewrite !app_assoc. repeat split; try reflexivity.
  exists (l1 ++ l2)%list. now rewrite app_assoc.
Qed.

Lemma extends_add_log w records : extends w (add_log w records) [] [].
Proof.
  unfold extends, add_log. cbn. rewrite !app_nil_r. repeat split; try reflexivity.
  now exists records.
Qed.

Lemma extends_log w w' reqs sleeps records :
  extends w w' reqs sleeps -> extends w (add_log w' records) reqs sleeps.
Proof.
  intros H. rewrite <- (app_nil_r reqs), <- (app_nil_r sleeps).
  eapply extends_trans; [exact H | apply extends_add_log].
Qed.

Lemma all_floats_prices (prices : list (string * float)) :
  all_floats (map snd (map (fun kv => (fst kv, PFloat (snd kv))) prices))
  = Returned (map snd prices).
Proof.
  induction prices as [|[k v] prices IH]; [reflexivity|].
  cbn [map fst snd all_floats]. rewrite IH. reflexivity.
Qed.

(** The payload summary of an assembled document never raises; it logs. *)
Lemma summary_run (prices : list (string * float)) (w : World) :
  exists records,
    (if truthy (price_table prices) then
       values ← lift (py_values (price_table prices));
       range ← lift (min_max values);
       emit DEBUG (PayloadSummary (List.length values) (fst range) (snd range))
     else mret tt) w = (Returned tt, add_log w records).
Proof.
  destruct prices as [|[k v] prices].
  - exists []. cbn. now rewrite add_log_nil.
  - unfold price_table, truthy. cbn [map List.length Nat.eqb negb py_values].
    unfold lift, min_max, mbind, M_bind. cbn beta iota.
    cbn [map fst snd all_floats]. rewrite all_floats_prices.
    unfold mbind, outcome_bind, obind, mret, outcome_ret. cbn beta iota.
    eexists. apply emit_run.
Qed.

Lemma http_run (r : http_request) (w : World) :
  exists w', http r w = (Returned (network w (List.length (requests w))), w')
             /\ extends w w' [r] [].
Proof.
  eexists. split; [reflexivity|]. unfold extends. cbn. rewrite !app_nil_r.
  repeat split; try reflexivity. exists []. now rewrite app_nil_r.
Qed.

(** One exchange for an assembled document: the result is read off the
    reply, one POST is issued, nothing sleeps. *)
Lemma send_run site_id token name t tou w :
  exists w',
    _send_to_teslemetry site_id token (assemble name t tou) w
    = (Returned (exchange_result (network w (List.length (requests w)))), w')
    /\ extends w w' [post_request site_id token (assemble name t tou)] [].
Proof.
  unfold _send_to_teslemetry.
  unfold mbind at 1, M_bind at 1, lift at 1. rewrite summer_rates_assemble.
  unfold mbind at 1, M_bind at 1.
  destruct (summary_run (buy_prices t) w) as (records & ->).
  fold (post_request site_id token (assemble name t tou)).
  unfold try_except, mbind, M_bind, http.
  change (network (add_log w records)) with (network w).
  change (requests (add_log w records)) with (requests w).
  set (w1 := mkWorld _ _ _ _ _ _).
  assert (extends w w1 [post_request site_id token (assemble name t tou)] []) as Hw1.
  { unfold extends, w1, add_log. cbn. rewrite !app_nil_r. repeat split; try reflexivity.
    now exists records. }
  destruct (network w (List.length (requests w))) as [err|status json_body text_body];
    cbn [exchange_result exchange_raised raise].
  - destruct (is_client_error err); eexists; (split; [reflexivity|]);
      now apply extends_log.
  - destruct (status =? 200) eqn:Hstatus.
    + destruct json_body as [result|err]; cbn [lift returns negb].
      * unfold py_len, price_table. eexists. split; [reflexivity|].
        now apply extends_log, extends_log.
      * destruct (is_client_error err); eexists; (split; [reflexivity|]);
          now apply extends_log.
    + destruct text_body as [text|err]; cbn [lift returns negb].
      * eexists. split; [reflexivity|]. now apply extends_log.
      * destruct (is_client_error err); eexists; (split; [reflexivity|]);
          now apply extends_log.
Qed.

(** C7, as the code has it.  One call issues one POST and returns the
    result read off the reply.  It returns (false, 0) for every exception
    raised by the call itself, whatever its class, and in general whenever
    an exception is raised during the exchange; for a response with a
    non-zero status, status 0 is returned exactly when reading the body of
    that response raised. *)
Theorem transport_status_zero (site_id token name : string) (t : slot_tables)
    (tou : list (string * pyval)) (w : World) :
  exists w',
    _send_to_teslemetry site_id token (assemble name t tou) w
    = (Returned (exchange_result (reply_at w 0)), w')
    /\ extends w w' [post_request site_id token (assemble name t tou)] []
    /\ (forall err, reply_at w 0 = NetFault err ->
          exchange_result (reply_at w 0) = (false, 0))
    /\ (exchange_raised (reply_at w 0) = true ->
          exchange_result (reply_at w 0) = (false, 0))
    /\ (forall status json_body text_body,
          reply_at w 0 = NetResponse status json_body text_body -> status <> 0 ->
          (snd (exchange_result (reply_at w 0)) = 0
           <-> exchange_raised (reply_at w 0) = true)).
Proof.
  unfold reply_at. rewrite Nat.add_0_r.
  destruct (send_run site_id token name t tou w) as (w' & Hrun & Hext).
  exists w'. split; [exact Hrun|]. split; [exact Hext|].
  split; [now intros err ->|]. split.
  - destruct (network w (List.length (requests w))) as [err|status json_body text_body];
      [reflexivity|]. intros Hraised. unfold exchange_result. now rewrite Hraised.
  - intros status json_body text_body -> Hstatus. unfold exchange_result.
    destruct (exchange_raised _); [now split|].
    destruct (Z.eqb_spec status 200) as [->|_]; cbn [snd]; split; intros H;
      first [discriminate H | contradiction].
Qed.

(** C7, as the claim states it, fails: a response with status 200 was
    received, its body is not JSON, and the call returns (false, 0). *)
Lemma status_zero_with_response :
  let w := fresh_world (scripted [http_ok_not_json]) in
  response_received (reply_at w 0) = true
  /\ fst (_send_to_teslemetry "1234567" "token" (built_document ∅ None) w)
     = Returned (false, 0).
Proof. split; vm_compute; reflexivity. Qed.

(* ===================================================================== *)
(** * Delivery: the retry loop *)
(* ===================================================================== *)

Lemma reply_at_extends w w' reqs sleeps i :
  extends w w' reqs sleeps -> reply_at w' i = reply_at w (List.length reqs + i).
Proof.
  intros (Hn & Hr & _). unfold reply_at. rewrite Hn, Hr, length_app. f_equal. lia.
Qed.

Lemma sleep_run d w : exists w', sleep d w = (Returned tt, w') /\ extends w w' [] [d].
Proof.
  eexists. split; [reflexivity|]. unfold extends. cbn. rewrite !app_nil_r.
  repeat split; try reflexivity. exists []. now rewrite app_nil_r.
Qed.

(** One round of the loop, by the class of the attempt's result. *)
Lemma retry_step site_id token name t tou attempt rest last_error w :
  let doc := assemble name t tou in
  let r := attempt_result w 0 in
  exists w1,
    extends w w1 [post_request site_id token doc] []
    /\ match classify r with
       | Success =>
           retry_loop site_id token doc (attempt :: rest) last_error w
           = (Returned (true, attempt), w1)
       | Permanent =>
           retry_loop site_id token doc (attempt :: rest) last_error w
           = (Returned (false, attempt), w1)
       | Transient =>
           if Nat.eqb attempt MAX_RETRIES then
             retry_loop site_id token doc (attempt :: rest) last_error w
             = (Returned (false, MAX_RETRIES), w1)
           else
             forall d, retry_delay attempt = Returned d ->
               exists w2, extends w1 w2 [] [d]
                 /\ retry_loop site_id token doc (attempt :: rest) last_error w
                    = retry_loop site_id token doc rest (last_error_of (snd r)) w2
       | Unexpected =>
           retry_loop site_id token doc (attempt :: rest) last_error w
           = (Returned (false, if Nat.eqb attempt MAX_RETRIES then MAX_RETRIES else attempt),
              w1)
       end.
Proof.
  intros doc r. subst r. unfold attempt_result, reply_at. rewrite Nat.add_0_r.
  destruct (send_run site_id token name t tou w) as (w' & Hrun & Hext).
  fold doc in Hrun, Hext.
  remember (retry_loop site_id token doc (attempt :: rest) last_error w) as run eqn:Hloop.
  cbn [retry_loop] in Hloop. unfold mbind at 1, M_bind at 1 in Hloop.
  rewrite Hrun in Hloop. cbn beta iota in Hloop. subst run.
  set (r := exchange_result (network w (List.length (requests w)))).
  unfold classify. destruct (fst r) eqn:Hsuccess.
  { exists w'. split; [exact Hext | reflexivity]. }
  destruct (member (snd r) PERMANENT_FAILURE_CODES) eqn:Hperm.
  { eexists. split; [|reflexivity]. now apply extends_log. }
  fold (last_error_of (snd r)).
  destruct (Nat.eqb attempt MAX_RETRIES) eqn:Hlast.
  { destruct ((snd r =? 429) || member (snd r) RETRIABLE_STATUS_CODES || (snd r =? 0));
      (eexists; split; [|reflexivity]; now apply extends_log). }
  destruct (snd r =? 429) eqn:H429; cbn [orb].
  { exists w'. split; [exact Hext|]. intros d Hd.
    unfold mbind, M_bind, lift. rewrite Hd. cbn [emit sleep].
    eexists. split; [|reflexivity].
    unfold extends. cbn. rewrite !app_nil_r. repeat split; try reflexivity.
    eexists. reflexivity. }
  destruct (member (snd r) RETRIABLE_STATUS_CODES || (snd r =? 0)) eqn:Hretry.
  { exists w'. split; [exact Hext|]. intros d Hd.
    unfold mbind, M_bind, lift. rewrite Hd. cbn [emit sleep].
    eexists. split; [|reflexivity].
    unfold extends. cbn. rewrite !app_nil_r. repeat split; try reflexivity.
    eexists. reflexivity. }
  exists w'. split; [exact Hext | reflexivity].
Qed.

(** [_send_with_retry] follows [retry_trace]. *)
Lemma send_with_retry_run site_id token name t tou w :
  let doc := assemble name t tou in
  let trace := retry_trace (attempt_result w) in
  exists w',
    _send_with_retry site_id token doc w = (Returned (fst (fst trace)), w')
    /\ extends w w' (repeat (post_request site_id token doc) (snd (fst trace))) (snd trace).
Proof.
  intros doc trace. subst trace. unfold _send_with_retry, retry_trace.
  change (seq 1 MAX_RETRIES) with [1; 2; 3]%nat.
  destruct (retry_step site_id token name t tou 1 [2; 3]%nat "" w) as (w1 & Hext1 & H1).
  fold doc in Hext1, H1. cbv zeta in H1.
  destruct (classify (attempt_result w 0));
    try (exists w1; split; [exact H1 | exact Hext1]).
  change (Nat.eqb 1 MAX_RETRIES) with false in H1. cbv iota in H1.
  destruct (H1 2 eq_refl) as (w2 & Hext2 & ->). clear H1.
  pose proof (extends_trans _ _ _ _ _ _ _ Hext1 Hext2) as Hw2. cbn [app] in Hw2.
  destruct (retry_step site_id token name t tou 2 [3]%nat
              (last_error_of (snd (attempt_result w 0))) w2) as (w3 & Hext3 & H3).
  fold doc in Hext3, H3. cbv zeta in H3.
  unfold attempt_result in H3 at 1. rewrite (reply_at_extends _ _ _ _ 0%nat Hw2) in H3.
  cbn [List.length Nat.add] in H3. fold (attempt_result w 1) in H3.
  pose proof (extends_trans _ _ _ _ _ _ _ Hw2 Hext3) as Hw3. cbn [app] in Hw3.
  destruct (classify (attempt_result w 1)) eqn:Hc1;
    try (exists w3; split; [exact H3 | exact Hw3]).
  change (Nat.eqb 2 MAX_RETRIES) with false in H3. cbv iota in H3.
  destruct (H3 4 eq_refl) as (w4 & Hext4 & ->). clear H3.
  pose proof (extends_trans _ _ _ _ _ _ _ Hw3 Hext4) as Hw4. cbn [app] in Hw4.
  destruct (retry_step site_id token name t tou 3 []%nat
              (last_error_of (snd (attempt_result w2 0))) w4) as (w5 & Hext5 & H5).
  fold doc in Hext5, H5. cbv zeta in H5.
  unfold attempt_result in H5 at 1. rewrite (reply_at_extends _ _ _ _ 0%nat Hw4) in H5.
  cbn [List.length Nat.add] in H5. fold (attempt_result w 2) in H5.
  pose proof (extends_trans _ _ _ _ _ _ _ Hw4 Hext5) as Hw5. cbn [app] in Hw5.
  change (Nat.eqb 3 MAX_RETRIES) with true in H5. cbv iota in H5.
  exists w5. destruct (classify (attempt_result w 2)); (split; [exact H5 | exact Hw5]).
Qed.

Lemma extends_made w w' (r : http_request) n sleeps :
  extends w w' (repeat r n) sleeps ->
  (List.length (requests w') - List.length (requests w))%nat = n.
Proof. intros (_ & -> & _). rewrite length_app, repeat_length. lia. Qed.

(** C2.  The policy of [_send_with_retry] by the result of an attempt.  An
    attempt returns (true, 200) or a failure with another status.  If the
    attempts before the [k]-th were transient failures, then: a success at
    attempt [k] ends the call with (true, k); a status 400, 401 or 403, and
    likewise any status that is neither transient nor 200, ends it with
    (false, k); in these cases exactly [k] requests were made.  A transient
    failure (429, 500, 502, 503, 504, or status 0) at attempt [k] is followed
    by a further request while [k] is below [MAX_RETRIES], and ends the call
    with (false, 3) at the third attempt. *)
Theorem retry_classification (site_id token name : string) (t : slot_tables)
    (tou : list (string * pyval)) (w : World) (k : nat) :
  (1 <= k <= MAX_RETRIES)%nat ->
  (forall i, (i < k - 1)%nat -> classify (attempt_result w i) = Transient) ->
  (classify (true, 200) = Success
   /\ Forall (fun status => classify (false, status) = Permanent) [400; 401; 403]
   /\ Forall (fun status => classify (false, status) = Transient)
             [429; 500; 502; 503; 504; 0]
   /\ (forall status, member status [400; 401; 403; 429; 500; 502; 503; 504; 0] = false ->
         classify (false, status) = Unexpected)
   /\ (forall reply, exchange_result reply = (true, 200)
                     \/ (fst (exchange_result reply) = false
                         /\ snd (exchange_result reply) <> 200)))
  /\ exists res w',
       _send_with_retry site_id token (assemble name t tou) w = (Returned res, w')
       /\ let made := (List.length (requests w') - List.length (requests w))%nat in
          match classify (attempt_result w (k - 1)) with
          | Success => res = (true, k) /\ made = k
          | Permanent => res = (false, k) /\ made = k
          | Unexpected => res = (false, k) /\ made = k
          | Transient =>
              if (k <? MAX_RETRIES)%nat then (k < made)%nat
              else res = (false, MAX_RETRIES) /\ made = k
          end.
Proof.
  intros Hk Hbefore. split.
  { split; [reflexivity|]. split; [repeat constructor|]. split; [repeat constructor|].
    split.
    - intros status Hstatus. unfold member in Hstatus. cbn [existsb] in Hstatus.
      repeat (apply orb_false_elim in Hstatus as [? Hstatus]).
      unfold classify, member. cbn [fst snd existsb PERMANENT_FAILURE_CODES
                                    RETRIABLE_STATUS_CODES].
      repeat match goal with H : (_ =? _) = false |- _ => rewrite H; clear H end.
      reflexivity.
    - intros [err|status json_body text_body]; cbn [exchange_result]; [right; split; [reflexivity | discriminate]|].
      destruct (exchange_raised _); [right; split; [reflexivity | discriminate]|].
      destruct (Z.eqb_spec status 200); [now left | right; split; [reflexivity | assumption]]. }
  destruct (send_with_retry_run site_id token name t tou w) as (w' & Hrun & Hext).
  cbv zeta in Hrun, Hext. apply extends_made in Hext.
  eexists _, w'. split; [exact Hrun|]. cbv zeta. rewrite Hext. clear Hrun Hext.
  unfold MAX_RETRIES in *. unfold retry_trace.
  assert (k = 1 \/ k = 2 \/ k = 3)%nat as [->|[->| ->]] by lia; cbn [Nat.sub Nat.ltb Nat.leb].
  - destruct (classify (attempt_result w 0)); try (split; reflexivity).
    destruct (classify (attempt_result w 1)); cbn [fst snd]; try lia.
    destruct (classify (attempt_result w 2)); cbn [fst snd]; lia.
  - rewrite (Hbefore 0%nat) by lia.
    destruct (classify (attempt_result w 1)); try (split; reflexivity).
    destruct (classify (attempt_result w 2)); cbn [fst snd]; lia.
  - rewrite (Hbefore 0%nat), (Hbefore 1%nat) by lia.
    destruct (classify (attempt_result w 2)); split; reflexivity.
Qed.

Lemma retry_classification_witness :
  let w := fresh_world (scripted [http_error 503; http_error 401; http_ok]) in
  (1 <= 2 <= MAX_RETRIES)%nat
  /\ (forall i, (i < 2 - 1)%nat -> classify (attempt_result w i) = Transient)
  /\ exists w',
       _send_with_retry "1234567" "token" (assemble "plan" (Tables [] [] []) []) w
       = (Returned (false, 2%nat), w')
       /\ (List.length (requests w') - List.length (requests w))%nat = 2%nat.
Proof.
  intros w.
  assert (forall i, (i < 2 - 1)%nat -> classify (attempt_result w i) = Transient) as Hbefore.
  { intros i Hi. destruct i as [|i]; [vm_compute; reflexivity | lia]. }
  split; [unfold MAX_RETRIES; lia|]. split; [exact Hbefore|].
  destruct (retry_classification "1234567" "token" "plan" (Tables [] [] []) [] w 2)
    as (_ & res & w' & Hrun & Hres); [unfold MAX_RETRIES; lia | exact Hbefore |].
  cbv zeta in Hres.
  change (classify (attempt_result w (2 - 1))) with Permanent in Hres.
  destruct Hres as [-> Hmade]. exists w'. split; [exact Hrun | exact Hmade].
Defined.


(** The transport returning 500, 500, 200, on a concrete world. *)
Example retry_500_500_200 :
  let w := fresh_world (scripted [http_error 500; http_error 500; http_ok]) in
  let run := _send_with_retry "1234567" "token" (built_document ∅ None) w in
  fst run = Returned (true, 3%nat)
  /\ slept (snd run) = [2; 4]
  /\ List.length (requests (snd run)) = 3%nat.
Proof. repeat split; vm_compute; reflexivity. Qed.

(** The mock transports of the specification: 401 at once, and 429 thrice. *)
Example retry_401 :
  let w := fresh_world (scripted [http_error 401; http_ok]) in
  let run := _send_with_retry "1234567" "token" (built_document ∅ None) w in
  fst run = Returned (false, 1%nat) /\ slept (snd run) = []
  /\ List.length (requests (snd run)) = 1%nat.
Proof. repeat split; vm_compute; reflexivity. Qed.

Example retry_429_429_429 :
  let w := fresh_world (scripted [http_error 429; http_error 429; http_error 429; http_ok]) in
  let run := _send_with_retry "1234567" "token" (built_document ∅ None) w in
  fst run = Returned (false, 3%nat) /\ slept (snd run) = [2; 4]
  /\ List.length (requests (snd run)) = 3%nat.
Proof. repeat split; vm_compute; reflexivity. Qed.

(* ===================================================================== *)
(** * Readback verification *)
(* ===================================================================== *)

(** Whatever [_verify_tariff] does, it issues one GET and nothing else. *)
Lemma verify_run site_id token sent_tariff w :
  exists o w',
    _verify_tariff site_id token sent_tariff w = (o, w')
    /\ extends w w' [get_request site_id token] [].
Proof.
  unfold _verify_tariff. fold (get_request site_id token).
  unfold try_except, mbind, M_bind, http, lift, raise, emit, mret, M_ret.
  set (w1 := mkWorld _ _ _ _ _ _).
  assert (extends w w1 [get_request site_id token] []) as Hw1.
  { unfold extends, w1. cbn. rewrite !app_nil_r. repeat split; try reflexivity.
    exists []. now rewrite app_nil_r. }
  assert (forall records, extends w (add_log w1 records) [get_request site_id token] [])
    as Hlog by (intros; now apply extends_log).
  destruct (network w (List.length (requests w))) as [err|status json_body text_body].
  { eexists _, _. split; [reflexivity | apply Hlog]. }
  destruct (negb (status =? 200)).
  { eexists _, _. split; [reflexivity | apply Hlog]. }
  destruct json_body as [data|err].
  2:{ eexists _, _. split; [reflexivity | apply Hlog]. }
  destruct (stored_rates data) as [stored|e1].
  2:{ eexists _, _. split; [reflexivity | exact Hw1]. }
  destruct (summer_rates sent_tariff) as [sent|e2].
  2:{ eexists _, _. split; [reflexivity | exact Hw1]. }
  destruct (negb (truthy stored)).
  { eexists _, _. split; [reflexivity | apply Hlog]. }
  destruct (py_items sent) as [items|e3].
  2:{ eexists _, _. split; [reflexivity | exact Hw1]. }
  destruct (compare_periods items stored []) as [mismatches|e4].
  2:{ eexists _, _. split; [reflexivity | exact Hw1]. }
  destruct (negb (Nat.eqb (List.length mismatches) 0)).
  { eexists _, _. split; [reflexivity | apply Hlog]. }
  destruct (py_len sent) as [n|e5].
  2:{ eexists _, _. split; [reflexivity | exact Hw1]. }
  eexists _, _. split; [reflexivity | apply Hlog].
Qed.

(** A readback that fails inside the [try] (no response, a status other
    than 200, a body that [json()] rejects) makes the verification return
    false. *)
Lemma verify_readback_failure site_id token sent_tariff w :
  match reply_at w 0 with
  | NetFault _ => True
  | NetResponse status json_body _ => status <> 200 \/ returns json_body = false
  end ->
  fst (_verify_tariff site_id token sent_tariff w) = Returned false.
Proof.
  unfold reply_at. rewrite Nat.add_0_r.
  unfold _verify_tariff, try_except, mbind, M_bind, http, lift, raise, emit, mret, M_ret.
  destruct (network w (List.length (requests w))) as [err|status json_body text_body];
    [reflexivity|].
  destruct (Z.eqb_spec status 200) as [->|Hne]; cbn [negb]; [|reflexivity].
  intros [H|H]; [contradiction|]. destruct json_body; [discriminate H | reflexivity].
Qed.

(** C4, where the code departs from the claim: the readback answers 200
    with the JSON body {"response": null}.  [data.get("response", {})] is
    [None], the next [.get] raises [AttributeError] outside the [try], and
    [_verify_tariff] raises instead of returning false. *)
Theorem verify_raises_on_null_response :
  let w := fresh_world (scripted [readback_null_response]) in
  fst (_verify_tariff "1234567" "token" (built_document ∅ None) w)
  = Raised (Exn AttributeError "get").
Proof. vm_compute. reflexivity. Qed.

(** Other bodies that raise: a JSON list, and a stored rate that is a
    string ([TypeError] in the subtraction). *)
Example verify_raises_on_list_body :
  let w := fresh_world (scripted [NetResponse 200 (Returned (PList [])) (Returned "[]")]) in
  fst (_verify_tariff "1234567" "token" (built_document ∅ None) w)
  = Raised (Exn AttributeError "get").
Proof. vm_compute. reflexivity. Qed.

Example verify_raises_on_string_rate :
  let stored := PDict [("PERIOD_00_00", PStr "0.0")] in
  let w := fresh_world (scripted [readback_of stored]) in
  cls <$> (match fst (_verify_tariff "1234567" "token" (built_document ∅ None) w) with
           | Raised e => Some e
           | Returned _ => None
           end) = Some TypeError.
Proof. vm_compute. reflexivity. Qed.

Lemma float_valued_lookup stored k v :
  float_valued stored -> dict_lookup k stored = Some v -> exists f, v = PFloat f.
Proof.
  induction 1 as [|[k' v'] stored [f Hf] _ IH]; cbn [dict_lookup]; [discriminate|].
  destruct (String.eqb k' k); [|exact IH].
  intros [= <-]. now exists f.
Qed.

(** The comparison loop on a stored table of floats: it returns, and it
    adds no mismatch exactly when every sent slot is matched. *)
Lemma compare_periods_floats (sent : list (string * float)) stored mismatches :
  float_valued stored ->
  exists extra,
    compare_periods (map (fun kv => (fst kv, PFloat (snd kv))) sent) (PDict stored) mismatches
    = Returned (mismatches ++ extra)%list
    /\ (extra = [] <-> Forall (matched stored) sent).
Proof.
  intros Hstored. revert mismatches.
  induction sent as [|[k v] sent IH]; intros mismatches; cbn [map fst snd compare_periods].
  - exists []. rewrite app_nil_r. split; [reflexivity|]. split; [constructor | reflexivity].
  - unfold py_get. cbn [mbind outcome_bind obind].
    destruct (dict_lookup k stored) as [sv|] eqn:Hk.
    + destruct (float_valued_lookup _ _ _ Hstored Hk) as [f ->].
      cbn [py_sub mbind outcome_bind obind abs_exceeds_tolerance].
      destruct (0.001 <? PrimFloat.abs (f - v))%float eqn:Hfar.
      * destruct (IH (mismatches ++ [Differs k (PFloat v) (PFloat f)])%list)
          as (extra & -> & _).
        exists (Differs k (PFloat v) (PFloat f) :: extra).
        split; [now rewrite <- app_assoc|].
        split; [discriminate|]. intros Hall. apply Forall_cons in Hall as [(g & Hg & Hnear) _].
        cbn [fst snd] in Hg, Hnear. rewrite Hk in Hg. injection Hg as <-. congruence.
      * destruct (IH mismatches) as (extra & -> & Hextra).
        exists extra. split; [reflexivity|]. rewrite Hextra. split.
        -- intros Hall. constructor; [|exact Hall]. exists f. split; assumption.
        -- intros Hall. now apply Forall_cons in Hall as [_ Hall].
    + destruct (IH (mismatches ++ [Missing k])%list) as (extra & -> & _).
      exists (Missing k :: extra). split; [now rewrite <- app_assoc|].
      split; [discriminate|]. intros Hall. apply Forall_cons in Hall as [(g & Hg & _) _].
      cbn [fst] in Hg. rewrite Hk in Hg. discriminate Hg.
Qed.

(** What holds of C4: when the readback answers 200 with a body of the
    expected shape whose stored rates are floats, [_verify_tariff] returns,
    and it returns true exactly when the stored table is not empty and
    every sent slot is matched within the tolerance. *)
Lemma verify_true_iff site_id token name t tou w stored :
  reply_at w 0 = readback_of (PDict stored) ->
  float_valued stored ->
  exists verified,
    fst (_verify_tariff site_id token (assemble name t tou) w) = Returned verified
    /\ (verified = true <-> stored <> [] /\ Forall (matched stored) (buy_prices t)).
Proof.
  unfold reply_at. rewrite Nat.add_0_r. intros Hreply Hstored.
  unfold _verify_tariff, try_except, mbind at 1, M_bind at 1.
  unfold mbind at 1, M_bind at 1, http. rewrite Hreply.
  unfold readback_of. cbn [Z.eqb Pos.eqb negb].
  unfold lift, mbind at 1, M_bind at 1, mret at 1, M_ret at 1.
  unfold mbind at 1, M_bind at 1.
  change (stored_rates _) with (Returned (PDict stored)) at 1.
  unfold mbind at 1, M_bind at 1. rewrite summer_rates_assemble.
  destruct stored as [|kv stored'] eqn:Estored.
  { exists false. split; [reflexivity|]. split; [discriminate | now intros [H _]]. }
  rewrite <- Estored in *. replace (truthy (PDict stored)) with true by (now subst stored).
  cbn [negb]. unfold price_table, py_items, mbind at 1, M_bind at 1.
  unfold mbind at 1, M_bind at 1.
  destruct (compare_periods_floats (buy_prices t) stored [] Hstored) as (extra & -> & Hextra).
  cbn [app]. destruct extra as [|m extra].
  - exists true. split; [reflexivity|]. split; [|reflexivity].
    intros _. split; [subst stored; discriminate | now apply Hextra].
  - exists false. split; [reflexivity|]. split; [discriminate|].
    intros [_ Hall]. apply Hextra in Hall. discriminate Hall.
Qed.

(** The course of [_verify_tariff] once the readback answered 200 with a
    body [json()] decoded and the extraction gave a [dict]: an empty table
    gives false, otherwise the comparison loop decides. *)
Lemma verify_after_readback site_id token name t tou w data text stored :
  reply_at w 0 = NetResponse 200 (Returned data) text ->
  stored_rates data = Returned (PDict stored) ->
  (stored = [] ->
   exists w', _verify_tariff site_id token (assemble name t tou) w = (Returned false, w'))
  /\ (forall mismatches,
        stored <> [] ->
        compare_periods (map (fun kv => (fst kv, PFloat (snd kv))) (buy_prices t))
                        (PDict stored) []
        = Returned mismatches ->
        exists w', _verify_tariff site_id token (assemble name t tou) w
                   = (Returned (Nat.eqb (List.length mismatches) 0), w')).
Proof.
  unfold reply_at. rewrite Nat.add_0_r. intros Hreply Hstored.
  assert (forall k : option pyval -> M bool,
            (readback ← try_except
               (response ← http (Request GET
                                   (TESLEMETRY_API_BASE_URL +:+ "/api/1/energy_sites/"
                                    +:+ site_id +:+ "/site_info")
                                   ("Bearer " +:+ token) None 30);
                match response with
                | NetFault err => raise err
                | NetResponse status json_body _ =>
                    if negb (status =? 200) then
                      emit WARNING (ReadbackHTTP status);;
                      mret None
                    else
                      data ← lift json_body;
                      mret (Some data)
                end)
               (fun err => emit WARNING (ReadbackError err);; mret None);
             k readback) w
            = k (Some data)
                (mkWorld (network w)
                         (requests w ++ [get_request site_id token])
                         (slept w) (log w) (bus w) (notifications w))) as Hread.
  { intros k. unfold try_except, mbind at 1, M_bind at 1.
    unfold mbind at 1, M_bind at 1, http. rewrite Hreply.
    cbn [Z.eqb Pos.eqb negb].
    unfold lift, mbind at 1, M_bind at 1, mret at 1, M_ret at 1. reflexivity. }
  split.
  - intros ->. unfold _verify_tariff. rewrite Hread.
    unfold lift, mbind at 1, M_bind at 1. rewrite Hstored.
    unfold mbind at 1, M_bind at 1. rewrite summer_rates_assemble.
    eexists. reflexivity.
  - intros mismatches Hne Hcompare. unfold _verify_tariff. rewrite Hread.
    unfold lift, mbind at 1, M_bind at 1. rewrite Hstored.
    unfold mbind at 1, M_bind at 1. rewrite summer_rates_assemble.
    replace (truthy (PDict stored)) with true by (destruct stored; [contradiction | reflexivity]).
    cbn [negb]. unfold price_table, py_items, mbind at 1, M_bind at 1.
    unfold mbind at 1, M_bind at 1. rewrite Hcompare.
    destruct mismatches as [|m mismatches]; eexists; reflexivity.
Qed.

(* ===================================================================== *)
(** * The service handler *)
(* ===================================================================== *)

(** [_build_tariff] only logs, and what it returns is an assembled
    document. *)
Lemma build_returns rates plan_name w tariff w' :
  _build_tariff rates plan_name w = (Returned tariff, w') ->
  extends w w' [] [] /\ exists mp, tariff = built_document mp plan_name.
Proof.
  destruct (stamp_rates rates ∅) as [mp|e] eqn:Hmp.
  - rewrite (build_run _ _ _ _ Hmp). intros [= <- <-].
    split; [apply extends_add_log | now exists mp].
  - rewrite (build_raise _ _ _ _ Hmp). discriminate.
Qed.

(** X25.  The verified flag is advisory.  When the document is built,
    [_send_with_retry] reports success with some attempt count, and the
    readback verification returns, be it true or false, the handler
    completes, fires exactly one event, which says success with that attempt
    count and no error, and dismisses the failure notification; the flag
    decides only whether the warning is logged. *)
Theorem verification_is_advisory (site_id token : string) (rates : list RatePeriod)
    (plan_name : option string) (w w1 w2 : World) (tariff : pyval) (attempts : nat) :
  _build_tariff rates plan_name
    (add_log w [Log INFO (BuildingSchedule (List.length rates) (mask_site site_id))])
  = (Returned tariff, w1) ->
  _send_with_retry site_id token tariff w1 = (Returned (true, attempts), w2) ->
  returns (fst (_verify_tariff site_id token tariff (snd (sleep 2 w2)))) = true ->
  exists verified w3 w',
    _verify_tariff site_id token tariff (snd (sleep 2 w2)) = (Returned verified, w3)
    /\ async_handle_push_tou site_id token rates plan_name w = (Returned tt, w')
    /\ bus w' = (bus w ++ [Event true (mask_site site_id) (name_or_default plan_name)
                                 attempts None])%list
    /\ notifications w' = delete NOTIFICATION_ID (notifications w)
    /\ (In (Log WARNING VerificationFailedAfterPush) (log w')
        <-> In (Log WARNING VerificationFailedAfterPush) (log w3) \/ verified = false).
Proof.
  intros Hbuild Hsend Hverify.
  destruct (build_returns _ _ _ _ _ Hbuild) as [Hext1 [mp ->]].
  destruct (send_with_retry_run site_id token (name_or_default plan_name)
              (built_tables mp) (enumerate_tou_periods 0 canonical_keys []) w1)
    as (w2' & Hsend' & Hext2).
  cbv zeta in Hsend', Hext2. fold (built_document mp plan_name) in Hsend', Hext2.
  rewrite Hsend in Hsend'. injection Hsend' as _ <-.
  destruct (sleep_run 2 w2) as (ws & Hsleep & Hext3).
  destruct (verify_run site_id token (built_document mp plan_name) (snd (sleep 2 w2)))
    as (o & w3 & Hrun & Hext4).
  rewrite Hrun in Hverify. destruct o as [verified|e]; [|discriminate Hverify].
  exists verified, w3.
  assert (bus w3 = bus w /\ notifications w3 = notifications w) as [Hbus Hnote].
  { rewrite Hsleep in Hext4. cbn [snd] in Hext4.
    destruct Hext1 as (_ & _ & _ & B1 & N1 & _). destruct Hext2 as (_ & _ & _ & B2 & N2 & _).
    destruct Hext3 as (_ & _ & _ & B3 & N3 & _). destruct Hext4 as (_ & _ & _ & B4 & N4 & _).
    split; [rewrite B4, B3, B2, B1 | rewrite N4, N3, N2, N1]; reflexivity. }
  unfold async_handle_push_tou.
  unfold mbind at 1, M_bind at 1. rewrite emit_run.
  unfold mbind at 1, M_bind at 1, try_except.
  unfold mbind at 1, M_bind at 1. rewrite Hbuild.
  unfold mret at 1, M_ret at 1.
  unfold mbind at 1, M_bind at 1. rewrite Hsend. cbn [fst snd].
  unfold mbind at 1, M_bind at 1.
  destruct (sleep 2 w2) as [o5 w5] eqn:E5. injection Hsleep as -> ->.
  cbn [snd] in Hrun.
  unfold mbind at 1, M_bind at 1. rewrite Hrun.
  rewrite <- Hbus, <- Hnote.
  destruct verified; cbn; (eexists; split; [exact Hrun|]; split; [reflexivity|];
                           split; [reflexivity|]; split; [reflexivity|]).
  - cbn [log network requests slept bus notifications].
    rewrite !in_app_iff. cbn [In]. split.
    + intros [H|[H|[]]]; [now left | discriminate H].
    + intros [H|H]; [now left | discriminate H].
  - cbn [log network requests slept bus notifications].
    rewrite !in_app_iff. cbn [In]. split; [now right|]. intros _. left. right. now left.
Qed.

Lemma verification_is_advisory_witness :
  let w := fresh_world (scripted [http_ok; readback_of (PDict [])]) in
  let start_log := [Log INFO (BuildingSchedule 2 (mask_site "1234567"))] in
  let built := _build_tariff example_rates None (add_log w start_log) in
  let tariff := built_document
                  (match stamp_rates example_rates ∅ with Returned mp => mp | Raised _ => ∅ end)
                  None in
  let w2 := snd (_send_with_retry "1234567" "token" tariff (snd built)) in
  built = (Returned tariff, snd built)
  /\ _send_with_retry "1234567" "token" tariff (snd built) = (Returned (true, 1%nat), w2)
  /\ fst (_verify_tariff "1234567" "token" tariff (snd (sleep 2 w2))) = Returned false
  /\ exists w',
       async_handle_push_tou "1234567" "token" example_rates None w = (Returned tt, w')
       /\ bus w' = [Event true "1234***" DEFAULT_PLAN_NAME 1 None].
Proof.
  intros w start_log built tariff w2.
  assert (built = (Returned tariff, snd built)) as Hbuild by (vm_compute; reflexivity).
  assert (_send_with_retry "1234567" "token" tariff (snd built) = (Returned (true, 1%nat), w2))
    as Hsend by (vm_compute; reflexivity).
  assert (fst (_verify_tariff "1234567" "token" tariff (snd (sleep 2 w2))) = Returned false)
    as Hverify by (vm_compute; reflexivity).
  split; [exact Hbuild|]. split; [exact Hsend|]. split; [exact Hverify|].
  destruct (verification_is_advisory "1234567" "token" example_rates None w (snd built) w2
              tariff 1 Hbuild Hsend) as (verified & w3 & w' & _ & Hrun & Hbus & _).
  { rewrite Hverify. reflexivity. }
  exists w'. split; [exact Hrun | exact Hbus].
Defined.

(** C9, where the code departs from it.  When the document is built and
    [_send_with_retry] reports success, but the readback verification raises
    (as it does for a 200 reply whose body is JSON of another shape: the
    defect of C4), the handler raises the same exception.  It fires no
    event, so the successful push is not reported as a success, and it
    leaves the failure notification as it was. *)
Theorem successful_push_lost_when_readback_raises (site_id token : string)
    (rates : list RatePeriod) (plan_name : option string) (w w1 w2 w3 : World)
    (tariff : pyval) (attempts : nat) (e : exn) :
  _build_tariff rates plan_name
    (add_log w [Log INFO (BuildingSchedule (List.length rates) (mask_site site_id))])
  = (Returned tariff, w1) ->
  _send_with_retry site_id token tariff w1 = (Returned (true, attempts), w2) ->
  _verify_tariff site_id token tariff (snd (sleep 2 w2)) = (Raised e, w3) ->
  async_handle_push_tou site_id token rates plan_name w = (Raised e, w3)
  /\ bus w3 = bus w
  /\ notifications w3 = notifications w.
Proof.
  intros Hbuild Hsend Hverify.
  destruct (build_returns _ _ _ _ _ Hbuild) as [Hext1 [mp ->]].
  destruct (send_with_retry_run site_id token (name_or_default plan_name)
              (built_tables mp) (enumerate_tou_periods 0 canonical_keys []) w1)
    as (w2' & Hsend' & Hext2).
  cbv zeta in Hsend', Hext2. fold (built_document mp plan_name) in Hsend', Hext2.
  rewrite Hsend in Hsend'. injection Hsend' as _ <-.
  destruct (sleep_run 2 w2) as (ws & Hsleep & Hext3).
  destruct (verify_run site_id token (built_document mp plan_name) (snd (sleep 2 w2)))
    as (o & w3' & Hrun & Hext4).
  rewrite Hverify in Hrun. injection Hrun as <- <-.
  split.
  - unfold async_handle_push_tou.
    unfold mbind at 1, M_bind at 1. rewrite emit_run.
    unfold mbind at 1, M_bind at 1, try_except.
    unfold mbind at 1, M_bind at 1. rewrite Hbuild.
    unfold mret at 1, M_ret at 1.
    unfold mbind at 1, M_bind at 1. rewrite Hsend. cbn [fst snd].
    unfold mbind at 1, M_bind at 1.
    destruct (sleep 2 w2) as [o5 w5] eqn:E5. injection Hsleep as -> ->.
    cbn [snd] in Hverify.
    unfold mbind at 1, M_bind at 1. now rewrite Hverify.
  - rewrite Hsleep in Hext4. cbn [snd] in Hext4.
    destruct Hext1 as (_ & _ & _ & B1 & N1 & _). destruct Hext2 as (_ & _ & _ & B2 & N2 & _).
    destruct Hext3 as (_ & _ & _ & B3 & N3 & _). destruct Hext4 as (_ & _ & _ & B4 & N4 & _).
    split; [rewrite B4, B3, B2, B1 | rewrite N4, N3, N2, N1]; reflexivity.
Qed.

Lemma successful_push_lost_when_readback_raises_witness :
  let w := fresh_world (scripted [http_ok; readback_null_response]) in
  let start_log := [Log INFO (BuildingSchedule 2 (mask_site "1234567"))] in
  let built := _build_tariff example_rates None (add_log w start_log) in
  let tariff := built_document
                  (match stamp_rates example_rates ∅ with Returned mp => mp | Raised _ => ∅ end)
                  None in
  let w2 := snd (_send_with_retry "1234567" "token" tariff (snd built)) in
  let checked := _verify_tariff "1234567" "token" tariff (snd (sleep 2 w2)) in
  built = (Returned tariff, snd built)
  /\ _send_with_retry "1234567" "token" tariff (snd built) = (Returned (true, 1%nat), w2)
  /\ checked = (Raised (Exn AttributeError "get"), snd checked)
  /\ async_handle_push_tou "1234567" "token" example_rates None w
     = (Raised (Exn AttributeError "get"), snd checked)
  /\ bus (snd checked) = []
  /\ notifications (snd checked) = ∅.
Proof.
  intros w start_log built tariff w2 checked.
  assert (built = (Returned tariff, snd built)) as Hbuild by (vm_compute; reflexivity).
  assert (_send_with_retry "1234567" "token" tariff (snd built) = (Returned (true, 1%nat), w2))
    as Hsend by (vm_compute; reflexivity).
  assert (checked = (Raised (Exn AttributeError "get"), snd checked)) as Hverify
    by (vm_compute; reflexivity).
  split; [exact Hbuild|]. split; [exact Hsend|]. split; [exact Hverify|].
  exact (successful_push_lost_when_readback_raises "1234567" "token" example_rates None w
           (snd built) w2 (snd checked) tariff 1 (Exn AttributeError "get")
           Hbuild Hsend Hverify).
Defined.

(** The same run, evaluated as a whole. *)
Example handler_raises_with_verification :
  let w := fresh_world (scripted [http_ok; readback_null_response]) in
  let run := async_handle_push_tou "1234567" "token" example_rates None w in
  fst run = Raised (Exn AttributeError "get") /\ bus (snd run) = [].
Proof. split; vm_compute; reflexivity. Qed.

(** The end-to-end example of the specification. *)
Example end_to_end_prices :
  let price key :=
    doc ← fst (_build_tariff example_rates None quiet_world);
    rates ← summer_rates doc;
    py_get rates key PNone in
  price "PERIOD_07_00" = Returned (PFloat 0.3)
  /\ price "PERIOD_07_30" = Returned (PFloat 0.3)
  /\ price "PERIOD_09_00" = Returned (PFloat 0.2)
  /\ price "PERIOD_00_00" = Returned (PFloat 0).
Proof. repeat split; vm_compute; reflexivity. Qed.

(* ===================================================================== *)
(** * The primitives on examples *)
(* ===================================================================== *)

Example parse_0730 : _parse_time_to_minutes "07:30" = Returned 450.
Proof. reflexivity. Qed.
Example parse_spaces : _parse_time_to_minutes " 7 : 05 " = Returned 425.
Proof. reflexivity. Qed.
Example parse_out_of_range : _parse_time_to_minutes "25:99" = Returned 1599.
Proof. reflexivity. Qed.
Example parse_negative : _parse_time_to_minutes "-1:00" = Returned (-60).
Proof. reflexivity. Qed.
Example parse_no_colon : returns (_parse_time_to_minutes "0730") = false.
Proof. reflexivity. Qed.
Example parse_three_parts : returns (_parse_time_to_minutes "07:30:00") = false.
Proof. reflexivity. Qed.
Example parse_not_a_number : returns (_parse_time_to_minutes "7:3o") = false.
Proof. reflexivity. Qed.
Example parse_underscore : _parse_time_to_minutes "1_0:3_0" = Returned 630.
Proof. reflexivity. Qed.
Example format_examples :
  format_02d 0 = "00"%string /\ format_02d 7 = "07"%string /\ format_02d 23 = "23"%string.
Proof. repeat split; vm_compute; reflexivity. Qed.
Example float_of_int_examples :
  float_of_int 1 = Returned 1%float /\ float_of_int (-3) = Returned (-3)%float
  /\ float_of_int (2 ^ 53 + 1) = Returned 9007199254740992%float
  /\ returns (float_of_int (10 ^ 400)) = false.
Proof. repeat split; vm_compute; reflexivity. Qed.

(** [round(x, 6)] on floats written in hexadecimal, among them ties
    (0.1234565, 0.5e-6), negative values that round to -0.0, and large
    values. *)
Example round6_examples :
  map round6 [
    0x1.3333333333333p-2; 0x1.999999999999ap-3; 0x1.999999999999ap-5;
    0x1.f9ad85dfa871ap-4; 0x1.f9ae924f227d0p-4; (- 0x1.f9ad85dfa871ap-4);
    0x1.0c6f7a0b5ed8dp-21; (- 0x1.0c6f7a0b5ed8dp-21); 0x1.92a737110e454p-20;
    0x1.4f8b588e368f1p-19; 0x1.d6f34547e6b61p+26; 0x1.2a05f2000fcd7p+33;
    0x1.23d70a3d70a3dp-2; 0x1.5555555555555p-2; (- 0x1.5555555555555p-1);
    0x1.0f0cf064dd592p+73; (- 0x1.ad7f29abcaf48p-22)]%float
  = [
    0x1.3333333333333p-2; 0x1.999999999999ap-3; 0x1.999999999999ap-5;
    0x1.f9acffa7eb6bfp-4; 0x1.f9ae0c1765775p-4; (- 0x1.f9acffa7eb6bfp-4);
    0x0.0p+0; (- 0x0.0p+0); 0x1.0c6f7a0b5ed8dp-19; 0x1.92a737110e454p-19;
    0x1.d6f34547e6b40p+26; 0x1.2a05f2000fcd7p+33; 0x1.23d70a3d70a3dp-2;
    0x1.55553ef6b5d46p-2; (- 0x1.55556084a515dp-1); 0x1.0f0cf064dd592p+73;
    (- 0x0.0p+0)]%float.
Proof. vm_compute. reflexivity. Qed.

Example round6_special :
  round6 nan = nan /\ round6 infinity = infinity /\ round6 neg_zero = neg_zero
  /\ round6 (30 / 100) = 0.3%float /\ round6 (20 / 100) = 0.2%float.
Proof. repeat split; vm_compute; reflexivity. Qed.

(* ===================================================================== *)
(** * Further properties: white space and colons in time strings *)
(* ===================================================================== *)

Lemma lstrip_spaces a : all_chars isspace a = true -> lstrip a = EmptyString.
Proof.
  induction a as [|c a IH]; cbn [all_chars lstrip]; [reflexivity|].
  intros [Hc Ha]%andb_prop. rewrite Hc. exact (IH Ha).
Qed.

Lemma rstrip_spaces a : all_chars isspace a = true -> rstrip a = EmptyString.
Proof.
  induction a as [|c a IH]; cbn [all_chars rstrip]; [reflexivity|].
  intros [Hc Ha]%andb_prop. now rewrite (IH Ha), Hc.
Qed.

Lemma lstrip_app_spaces a s : all_chars isspace a = true -> lstrip (a +:+ s) = lstrip s.
Proof.
  induction a as [|c a IH]; [reflexivity|].
  change (String c a +:+ s) with (String c (a +:+ s)). cbn [all_chars lstrip].
  intros [Hc Ha]%andb_prop. rewrite Hc. exact (IH Ha).
Qed.

Lemma rstrip_app_spaces s b : all_chars isspace b = true -> rstrip (s +:+ b) = rstrip s.
Proof.
  intros Hb. induction s as [|c s IH].
  - change ("" +:+ b) with b. now rewrite rstrip_spaces.
  - change (String c s +:+ b) with (String c (s +:+ b)). cbn [rstrip]. now rewrite IH.
Qed.

Lemma strip_app_spaces_r s b :
  all_chars isspace b = true -> rstrip (lstrip (s +:+ b)) = rstrip (lstrip s).
Proof.
  intros Hb. induction s as [|c s IH].
  - change ("" +:+ b) with b. now rewrite lstrip_spaces.
  - change (String c s +:+ b) with (String c (s +:+ b)). cbn [lstrip].
    destruct (isspace c); [exact IH|].
    change (String c (s +:+ b)) with (String c s +:+ b). now apply rstrip_app_spaces.
Qed.

Lemma strip_padding a s b :
  all_chars isspace a = true -> all_chars isspace b = true ->
  strip (a +:+ s +:+ b) = strip s.
Proof.
  intros Ha Hb. unfold strip. rewrite lstrip_app_spaces by exact Ha.
  now apply strip_app_spaces_r.
Qed.

Lemma parse_by_strip s1 s2 z :
  strip s1 = strip s2 ->
  _parse_time_to_minutes s1 = Returned z -> _parse_time_to_minutes s2 = Returned z.
Proof.
  unfold _parse_time_to_minutes. intros <-.
  destruct (split ":" (strip s1)) as [|p0 [|p1 [|p2 ps]]]; try discriminate.
  exact (fun H => H).
Qed.

(** X1.  White space before and after a time string is ignored: the padded
    string is accepted exactly when the string is, with the same minutes. *)
Theorem parse_ignores_padding (a s b : string) (z : Z) :
  all_chars isspace a = true ->
  all_chars isspace b = true ->
  _parse_time_to_minutes (a +:+ s +:+ b) = Returned z
  <-> _parse_time_to_minutes s = Returned z.
Proof.
  intros Ha Hb. pose proof (strip_padding a s b Ha Hb) as Hstrip.
  split; apply parse_by_strip; [exact Hstrip | symmetry; exact Hstrip].
Qed.

Lemma parse_ignores_padding_witness :
  all_chars isspace "  " = true /\ all_chars isspace " " = true
  /\ _parse_time_to_minutes ("  " +:+ "07:30" +:+ " ") = Returned 450.
Proof.
  split; [reflexivity|]. split; [reflexivity|].
  apply (parse_ignores_padding "  " "07:30" " " 450); reflexivity.
Defined.

Lemma isspace_not_colon c : isspace c = true -> Ascii.eqb c ":" = false.
Proof.
  destruct c as [[] [] [] [] [] [] [] []]; vm_compute; intros H;
    first [reflexivity | discriminate H].
Qed.

Lemma count_colon_lstrip s : count_char ":" (lstrip s) = count_char ":" s.
Proof.
  induction s as [|c s IH]; cbn [lstrip count_char]; [reflexivity|].
  destruct (isspace c) eqn:Hc; [|reflexivity].
  now rewrite (isspace_not_colon _ Hc), IH.
Qed.

Lemma count_colon_rstrip s : count_char ":" (rstrip s) = count_char ":" s.
Proof.
  induction s as [|c s IH]; cbn [rstrip count_char]; [reflexivity|].
  rewrite <- IH. destruct (rstrip s) as [|c' r]; [|reflexivity].
  destruct (isspace c) eqn:Hc; [|reflexivity].
  now rewrite (isspace_not_colon _ Hc).
Qed.

Lemma split_length sep s : List.length (split sep s) = S (count_char sep s).
Proof.
  induction s as [|c s IH]; cbn [split count_char]; [reflexivity|].
  destruct (Ascii.eqb c sep); cbn [List.length Nat.add]; [now rewrite IH|].
  destruct (split sep s) as [|p ps]; [discriminate IH | exact IH].
Qed.

(** X2.  [_parse_time_to_minutes] raises nothing but [ValueError], and it
    returns only for a string with exactly one colon: without a colon, or
    with two or more, it raises. *)
Theorem parse_needs_one_colon (s : string) :
  (forall e, _parse_time_to_minutes s = Raised e -> cls e = ValueError)
  /\ (forall z, _parse_time_to_minutes s = Returned z -> count_char ":" s = 1%nat)
  /\ (count_char ":" s <> 1%nat ->
      _parse_time_to_minutes s = Raised (Exn ValueError s)).
Proof.
  split; [intros e; apply parse_raises|].
  assert (List.length (split ":" (strip s)) = S (count_char ":" s)) as Hlen.
  { rewrite split_length. unfold strip. now rewrite count_colon_rstrip, count_colon_lstrip. }
  unfold _parse_time_to_minutes.
  destruct (split ":" (strip s)) as [|p0 [|p1 [|p2 ps]]]; cbn [List.length] in Hlen.
  - discriminate Hlen.
  - split; [discriminate | reflexivity].
  - split; [intros _ _; lia | intros H; lia].
  - split; [discriminate | reflexivity].
Qed.

(* ===================================================================== *)
(** * Further properties of [_build_tariff] *)
(* ===================================================================== *)

Lemma stamp_rate_outcome mp mp' rate :
  match stamp_rate mp rate, stamp_rate mp' rate with
  | Returned _, Returned _ => parseable rate = true
  | Raised e, Raised e' => e = e'
  | _, _ => False
  end.
Proof.
  unfold stamp_rate, parseable.
  destruct (_parse_time_to_minutes (start rate)) as [s|e1]; [|reflexivity].
  destruct (_parse_time_to_minutes (end_ rate)) as [e|e2]; reflexivity.
Qed.

(** Whether and how the loop over the rates raises does not depend on the
    map it starts from. *)
Lemma stamp_rates_outcome rates mp mp' :
  match stamp_rates rates mp, stamp_rates rates mp' with
  | Returned _, Returned _ => forallb parseable rates = true
  | Raised e, Raised e' => e = e'
  | _, _ => False
  end.
Proof.
  revert mp mp'. induction rates as [|rate rates IH]; intros mp mp'; cbn [stamp_rates forallb].
  - reflexivity.
  - pose proof (stamp_rate_outcome mp mp' rate) as H.
    destruct (stamp_rate mp rate) as [m1|e1], (stamp_rate mp' rate) as [m2|e2];
      try contradiction; cbn [mbind outcome_bind obind]; [|exact H].
    rewrite H. cbn [andb]. apply IH.
Qed.

Lemma stamp_rates_lookup rates mp mp' :
  stamp_rates rates mp = Returned mp' ->
  forall k, mp' !! k = stamped_price rates k (mp !! k).
Proof.
  intros Hrun. pose proof (stamp_rates_outcome rates mp mp) as H. rewrite Hrun in H.
  destruct (stamp_rates_returns rates mp H) as (mp'' & Hrun' & Hlookup).
  rewrite Hrun in Hrun'. injection Hrun' as <-. exact Hlookup.
Qed.

Lemma stamp_rates_app pre post mp :
  stamp_rates (pre ++ post) mp = (mp1 ← stamp_rates pre mp; stamp_rates post mp1).
Proof.
  revert mp. induction pre as [|rate pre IH]; intros mp; cbn [app stamp_rates]; [reflexivity|].
  destruct (stamp_rate mp rate) as [m|e]; cbn [mbind outcome_bind obind]; [apply IH | reflexivity].
Qed.

Lemma stamped_price_app pre post k init :
  stamped_price (pre ++ post) k init = stamped_price post k (stamped_price pre k init).
Proof. unfold stamped_price. apply fold_left_app. Qed.

Lemma per_slot_agree mp mp' (l : list Z) :
  (forall slot, slot ∈ l -> mp !! (slot * 30) = mp' !! (slot * 30)) ->
  map (fun slot => (period_key (slot * 30), fst (slot_price mp (slot * 30)))) l
  = map (fun slot => (period_key (slot * 30), fst (slot_price mp' (slot * 30)))) l
  /\ map (fun slot => (period_key (slot * 30), snd (slot_price mp (slot * 30)))) l
     = map (fun slot => (period_key (slot * 30), snd (slot_price mp' (slot * 30)))) l
  /\ slot_warnings mp l = slot_warnings mp' l.
Proof.
  unfold slot_warnings. induction l as [|slot l IH]; intros Hagree; [repeat split|].
  destruct IH as (IH1 & IH2 & IH3); [intros s Hs; apply Hagree; now right|].
  cbn [map flat_map]. rewrite IH1, IH2, IH3. unfold slot_price.
  rewrite (Hagree slot) by now left. repeat split.
Qed.

(** The document and the warnings depend on [minute_prices] at the 48 slot
    marks only. *)
Lemma built_agree mp mp' plan_name :
  (forall slot, slot ∈ slots -> mp !! (slot * 30) = mp' !! (slot * 30)) ->
  built_document mp plan_name = built_document mp' plan_name
  /\ slot_warnings mp slots = slot_warnings mp' slots.
Proof.
  intros Hagree. destruct (per_slot_agree mp mp' slots Hagree) as (H1 & H2 & H3).
  unfold built_document, built_tables. now rewrite H1, H2, H3.
Qed.

(** X3.  A rate that parses and covers the mark of no slot can be left out:
    the call behaves the same without it (same document and warnings, or the
    same exception when another rate does not parse). *)
Theorem idle_rate_is_ignored (pre : list RatePeriod) (rate : RatePeriod)
    (post : list RatePeriod) (plan_name : option string) (w : World) :
  parseable rate = true ->
  forallb (fun slot => negb (covers rate (slot * 30))) slots = true ->
  _build_tariff (pre ++ rate :: post) plan_name w = _build_tariff (pre ++ post) plan_name w.
Proof.
  intros Hparse Hidle.
  assert (forall slot, slot ∈ slots -> covers rate (slot * 30) = false) as Hcov.
  { intros slot Hslot. rewrite forallb_forall in Hidle.
    apply negb_true_iff, Hidle. now apply list_elem_of_In. }
  pose proof (stamp_rates_app pre (rate :: post) ∅) as H1.
  pose proof (stamp_rates_app pre post ∅) as H2.
  destruct (stamp_rates pre ∅) as [mp1|e] eqn:Hpre; cbn [mbind outcome_bind obind] in H1, H2.
  2:{ now rewrite (build_raise _ _ _ _ H1), (build_raise _ _ _ _ H2). }
  cbn [stamp_rates] in H1.
  destruct (stamp_rate_returns mp1 rate Hparse) as (mp2 & Hrate & Hmp2).
  rewrite Hrate in H1. cbn [mbind outcome_bind obind] in H1.
  pose proof (stamp_rates_outcome post mp2 mp1) as Hsame.
  destruct (stamp_rates post mp2) as [mpA|eA] eqn:HA, (stamp_rates post mp1) as [mpB|eB] eqn:HB;
    try contradiction.
  - rewrite (build_run _ _ _ _ H1), (build_run _ _ _ _ H2).
    destruct (built_agree mpA mpB plan_name) as [-> ->]; [|reflexivity].
    intros slot Hslot.
    rewrite (stamp_rates_lookup _ _ _ HA), (stamp_rates_lookup _ _ _ HB), Hmp2.
    now rewrite (Hcov slot Hslot).
  - subst eB. now rewrite (build_raise _ _ _ _ H1), (build_raise _ _ _ _ H2).
Qed.

Lemma idle_rate_is_ignored_witness :
  let overnight := Rate "22:00" "06:00" 12 3 in
  parseable overnight = true
  /\ forallb (fun slot => negb (covers overnight (slot * 30))) slots = true
  /\ _build_tariff (example_rates ++ [overnight]) None quiet_world
     = _build_tariff example_rates None quiet_world.
Proof.
  split; [vm_compute; reflexivity|]. split; [vm_compute; reflexivity|].
  rewrite <- (app_nil_r example_rates) at 2.
  apply (idle_rate_is_ignored example_rates (Rate "22:00" "06:00" 12 3) [] None quiet_world);
    vm_compute; reflexivity.
Defined.

(** X4.  A rate whose end is not "00:00" and not after its start, such as
    an overnight period from 22:00 to 06:00, stamps nothing: the loop body
    never runs and [minute_prices] is returned as it was. *)
Theorem overnight_rate_stamps_nothing (mp : gmap Z (float * float)) (rate : RatePeriod)
    (start_min end_min : Z) :
  _parse_time_to_minutes (start rate) = Returned start_min ->
  _parse_time_to_minutes (end_ rate) = Returned end_min ->
  end_min <> 0 ->
  end_min <= start_min ->
  stamp_rate mp rate = Returned mp /\ forall minute, covers rate minute = false.
Proof.
  intros Hs He Hnz Hle. unfold stamp_rate, covers. rewrite Hs, He.
  cbn [mbind outcome_bind obind mret outcome_ret].
  destruct (Z.eqb_spec end_min 0) as [|_]; [contradiction|].
  replace (Z.to_nat (end_min - start_min)) with 0%nat by lia. split; [reflexivity|].
  intros minute. unfold on_grid.
  destruct (Z.leb_spec start_min minute), (Z.ltb_spec minute end_min); cbn [andb];
    try reflexivity. lia.
Qed.

Lemma overnight_rate_stamps_nothing_witness :
  let overnight := Rate "22:00" "06:00" 12 3 in
  _parse_time_to_minutes (start overnight) = Returned 1320
  /\ _parse_time_to_minutes (end_ overnight) = Returned 360
  /\ stamp_rate ∅ overnight = Returned ∅.
Proof.
  split; [reflexivity|]. split; [reflexivity|].
  apply (overnight_rate_stamps_nothing ∅ (Rate "22:00" "06:00" 12 3) 1320 360);
    [reflexivity | reflexivity | discriminate | discriminate].
Defined.

(** X5.  A rate whose start is not a multiple of 30 minutes writes no slot
    mark: after it, [minute_prices] is unchanged at every multiple of 30, so
    the rate sets the price of no slot. *)
Theorem off_grid_start_reaches_no_slot (mp : gmap Z (float * float)) (rate : RatePeriod)
    (start_min : Z) :
  _parse_time_to_minutes (start rate) = Returned start_min ->
  parseable rate = true ->
  start_min mod 30 <> 0 ->
  exists mp', stamp_rate mp rate = Returned mp'
    /\ forall slot, covers rate (slot * 30) = false /\ mp' !! (slot * 30) = mp !! (slot * 30).
Proof.
  intros Hs Hparse Hoff.
  destruct (stamp_rate_returns mp rate Hparse) as (mp' & Hrun & Hlookup).
  exists mp'. split; [exact Hrun|]. intros slot.
  assert (covers rate (slot * 30) = false) as Hcov.
  { unfold covers. rewrite Hs. destruct (_parse_time_to_minutes (end_ rate)); [|reflexivity].
    unfold on_grid. destruct (Z.eqb_spec ((slot * 30 - start_min) mod 30) 0) as [Hmod|_];
      [|now rewrite andb_false_r].
    exfalso. apply Hoff.
    apply Z.mod_divide in Hmod as [q Hq]; [|lia].
    replace start_min with ((slot - q) * 30) by lia. apply Z_mod_mult. }
  split; [exact Hcov|]. now rewrite Hlookup, Hcov.
Qed.

Lemma off_grid_start_reaches_no_slot_witness :
  let rate := Rate "07:15" "09:00" 30 5 in
  _parse_time_to_minutes (start rate) = Returned 435
  /\ parseable rate = true /\ 435 mod 30 <> 0
  /\ covers rate (15 * 30) = false.
Proof.
  split; [reflexivity|]. split; [reflexivity|]. split; [discriminate|].
  destruct (off_grid_start_reaches_no_slot ∅ (Rate "07:15" "09:00" 30 5) 435)
    as (mp' & _ & H); [reflexivity | reflexivity | discriminate |].
  exact (proj1 (H 15)).
Defined.

Lemma stamped_price_cases rates k init :
  (stamped_price rates k init = init
   /\ forallb (fun rate => negb (covers rate k)) rates = true)
  \/ (exists rate, rate ∈ rates /\ covers rate k = true
                   /\ stamped_price rates k init = Some (dollars rate)).
Proof.
  revert init. induction rates as [|rate rates IH]; intros init.
  - left. split; reflexivity.
  - unfold stamped_price. cbn [fold_left forallb].
    fold (stamped_price rates k (if covers rate k then Some (dollars rate) else init)).
    destruct (IH (if covers rate k then Some (dollars rate) else init))
      as [[Hsame Hnone]|(later & Hin & Hcov & Hprice)].
    + destruct (covers rate k) eqn:Hrate.
      * right. exists rate. split; [now left|]. split; [exact Hrate | exact Hsame].
      * left. split; [exact Hsame | exact Hnone].
    + right. exists later. split; [now right|]. split; [exact Hcov | exact Hprice].
Qed.

(** X6.  In a document that [_build_tariff] returns, the buy and the sell
    price of a slot belong together: either no rate covers the slot and both
    are 0.0, or both are the prices, in dollars, of one and the same rate of
    the list, which covers the slot. *)
Theorem slot_prices_come_from_one_rate (rates : list RatePeriod)
    (plan_name : option string) (w w' : World) (doc : pyval) :
  _build_tariff rates plan_name w = (Returned doc, w') ->
  exists buy_table sell_table,
    summer_rates doc = Returned (PDict buy_table)
    /\ sell_rates doc = Returned (PDict sell_table)
    /\ Forall (fun slot =>
         (uncovered rates slot = true
          /\ dict_lookup (period_key (slot * 30)) buy_table = Some (PFloat 0)
          /\ dict_lookup (period_key (slot * 30)) sell_table = Some (PFloat 0))
         \/ (exists rate, rate ∈ rates /\ covers rate (slot * 30) = true
               /\ dict_lookup (period_key (slot * 30)) buy_table
                  = Some (PFloat (round6 (buy rate / 100)))
               /\ dict_lookup (period_key (slot * 30)) sell_table
                  = Some (PFloat (round6 (sell rate / 100)))))
         slots.
Proof.
  intros Hrun.
  destruct (stamp_rates rates ∅) as [mp|e] eqn:Hmp.
  2:{ rewrite (build_raise _ _ _ _ Hmp) in Hrun. discriminate Hrun. }
  rewrite (build_run _ _ _ _ Hmp) in Hrun. injection Hrun as <- <-.
  eexists _, _. split; [apply summer_rates_assemble|]. split; [apply sell_rates_assemble|].
  apply Forall_forall. intros slot Hslot.
  rewrite built_buy_lookup, built_sell_lookup by exact Hslot.
  unfold slot_price. rewrite (stamp_rates_lookup _ _ _ Hmp), lookup_empty.
  destruct (stamped_price_cases rates (slot * 30) None) as [[-> Hnone]|(rate & Hin & Hcov & ->)].
  - left. split; [exact Hnone|]. split; reflexivity.
  - right. exists rate. repeat split; assumption.
Qed.

Lemma slot_prices_come_from_one_rate_witness :
  let run := _build_tariff example_rates None quiet_world in
  exists doc buy_table,
    run = (Returned doc, snd run)
    /\ summer_rates doc = Returned (PDict buy_table).
Proof.
  intros run.
  assert (run = (Returned (built_document
                   (match stamp_rates example_rates ∅ with Returned mp => mp | _ => ∅ end) None),
                 snd run)) as Hrun by (vm_compute; reflexivity).
  destruct (slot_prices_come_from_one_rate example_rates None quiet_world (snd run) _ Hrun)
    as (buy_table & sell_table & Hbuy & _ & _).
  eexists _, buy_table. split; [exact Hrun | exact Hbuy].
Defined.

Lemma slot_warnings_uncovered mp rates (l : list Z) :
  (forall k, mp !! k = stamped_price rates k None) ->
  slot_warnings mp l
  = map (fun slot => Log WARNING (NoRateCovers (period_key (slot * 30))))
        (filter (fun slot => uncovered rates slot = true) l).
Proof.
  intros Hmp. unfold slot_warnings.
  induction l as [|slot l IH]; [reflexivity|]. cbn [flat_map]. rewrite IH, filter_cons.
  cbn beta. rewrite Hmp.
  destruct (stamped_price_cases rates (slot * 30) None) as [[-> Hnone]|(rate & Hin & Hcov & ->)].
  - fold (uncovered rates slot) in Hnone. rewrite Hnone.
    destruct (decide (true = true)); [reflexivity | congruence].
  - assert (uncovered rates slot = false) as ->.
    { apply not_true_is_false. unfold uncovered. intros Hall. rewrite forallb_forall in Hall.
      apply list_elem_of_In in Hin. apply Hall in Hin. rewrite Hcov in Hin. discriminate Hin. }
    destruct (decide (false = true)); [discriminate | reflexivity].
Qed.

(** X7.  A call that returns changes the world by warnings only: one
    warning for each slot that no rate covers, in slot order, and nothing
    for a covered slot.  When every slot is covered the world is unchanged. *)
Theorem warnings_for_uncovered_slots (rates : list RatePeriod)
    (plan_name : option string) (w w' : World) (doc : pyval) :
  _build_tariff rates plan_name w = (Returned doc, w') ->
  w' = add_log w (uncovered_warnings rates)
  /\ (forallb (fun slot => negb (uncovered rates slot)) slots = true -> w' = w).
Proof.
  intros Hrun.
  destruct (stamp_rates rates ∅) as [mp|e] eqn:Hmp.
  2:{ rewrite (build_raise _ _ _ _ Hmp) in Hrun. discriminate Hrun. }
  rewrite (build_run _ _ _ _ Hmp) in Hrun.
  assert (w' = add_log w (slot_warnings mp slots)) as -> by congruence. clear Hrun.
  assert (slot_warnings mp slots = uncovered_warnings rates) as ->.
  { apply slot_warnings_uncovered. intros k.
    now rewrite (stamp_rates_lookup _ _ _ Hmp), lookup_empty. }
  split; [reflexivity|]. intros Hall. unfold uncovered_warnings.
  assert (filter (fun slot => uncovered rates slot = true) slots = []) as ->.
  { rewrite forallb_forall in Hall. induction slots as [|slot l IH]; [reflexivity|].
    rewrite filter_cons. rewrite (proj1 (negb_true_iff _) (Hall slot (or_introl eq_refl))).
    destruct (decide (false = true)); [discriminate|].
    apply IH. intros s Hs. apply Hall. now right. }
  apply add_log_nil.
Qed.

Lemma warnings_for_uncovered_slots_witness :
  let run := _build_tariff [Rate "00:00" "00:00" 30 5] None quiet_world in
  exists doc, run = (Returned doc, snd run) /\ snd run = quiet_world.
Proof.
  intros run.
  assert (run = (Returned (built_document
                   (match stamp_rates [Rate "00:00" "00:00" 30 5] ∅ with
                    | Returned mp => mp | _ => ∅ end) None),
                 snd run)) as Hrun by (vm_compute; reflexivity).
  eexists. split; [exact Hrun|].
  destruct (warnings_for_uncovered_slots [Rate "00:00" "00:00" 30 5] None quiet_world
              (snd run) _ Hrun) as [_ H].
  apply H. vm_compute. reflexivity.
Defined.

Lemma summer_periods_assemble name t tou :
  summer_periods (assemble name t tou) = Returned (PDict tou)
  /\ sell_summer_periods (assemble name t tou) = Returned (PDict tou).
Proof. split; reflexivity. Qed.

(** X8.  The period definitions of a returned document.  The buy side and
    the sell side carry the same table; it has one entry per canonical slot
    key, in order; the entry of slot [i] is named by its key, spans the whole
    week, starts at minute [30 i] of the day and ends 30 minutes later, the
    last one at 0:00.  So each period ends where the next one starts. *)
Theorem period_windows_tile_the_day (rates : list RatePeriod) (plan_name : option string)
    (w w' : World) (doc : pyval) :
  _build_tariff rates plan_name w = (Returned doc, w') ->
  exists periods,
    summer_periods doc = Returned (PDict periods)
    /\ sell_summer_periods doc = Returned (PDict periods)
    /\ map fst periods = canonical_keys
    /\ Forall (fun slot =>
         let period := dict_lookup (period_key (slot * 30)) periods in
         (period ≫= fun p => match p with
                             | PDict d => dict_lookup "name" d
                             | _ => None
                             end) = Some (PStr (period_key (slot * 30)))
         /\ (period ≫= fun p => int_field p "fromDayOfWeek") = Some 0
         /\ (period ≫= fun p => int_field p "toDayOfWeek") = Some 6
         /\ (period ≫= window_start) = Some (slot * 30)
         /\ (period ≫= window_end) = Some ((slot * 30 + 30) mod 1440))
         slots.
Proof.
  intros Hrun. destruct (build_returns _ _ _ _ _ Hrun) as [_ [mp ->]].
  exists (enumerate_tou_periods 0 canonical_keys []).
  unfold built_document.
  destruct (summer_periods_assemble (name_or_default plan_name) (built_tables mp)
              (enumerate_tou_periods 0 canonical_keys [])) as [-> ->].
  split; [reflexivity|]. split; [reflexivity|].
  split; [vm_compute; reflexivity|].
  apply Forall_fold_right. vm_compute. repeat split.
Qed.

Lemma period_windows_tile_the_day_witness :
  let run := _build_tariff example_rates None quiet_world in
  exists doc periods,
    run = (Returned doc, snd run)
    /\ summer_periods doc = Returned (PDict periods)
    /\ map fst periods = canonical_keys.
Proof.
  intros run.
  assert (run = (Returned (built_document
                   (match stamp_rates example_rates ∅ with Returned mp => mp | _ => ∅ end) None),
                 snd run)) as Hrun by (vm_compute; reflexivity).
  destruct (period_windows_tile_the_day example_rates None quiet_world (snd run) _ Hrun)
    as (periods & Hp & _ & Hkeys & _).
  eexists _, periods. split; [exact Hrun|]. split; [exact Hp | exact Hkeys].
Defined.

(* ===================================================================== *)
(** * Further properties of the delivery *)
(* ===================================================================== *)

Lemma summary_run_debug (prices : list (string * float)) (w : World) :
  exists records,
    (if truthy (price_table prices) then
       values ← lift (py_values (price_table prices));
       range ← lift (min_max values);
       emit DEBUG (PayloadSummary (List.length values) (fst range) (snd range))
     else mret tt) w = (Returned tt, add_log w records)
    /\ Forall (fun r => lvl r = DEBUG) records.
Proof.
  destruct prices as [|[k v] prices].
  - exists []. split; [cbn; now rewrite add_log_nil | constructor].
  - unfold price_table, truthy. cbn [map List.length Nat.eqb negb py_values].
    unfold lift, min_max, mbind, M_bind. cbn beta iota.
    cbn [map fst snd all_floats]. rewrite all_floats_prices.
    unfold mbind, outcome_bind, obind, mret, outcome_ret. cbn beta iota.
    eexists. split; [apply emit_run|]. repeat constructor.
Qed.

(** X9.  One call of [_send_to_teslemetry] on an assembled document
    returns; it reports success exactly when a response with status 200
    arrived whose body [json()] could read, and then the status returned is
    200.  It logs a record of level ERROR exactly when it reports failure. *)
Theorem publish_succeeds_only_on_200_json (site_id token name : string) (t : slot_tables)
    (tou : list (string * pyval)) (w : World) :
  exists res w' records,
    _send_to_teslemetry site_id token (assemble name t tou) w = (Returned res, w')
    /\ log w' = (log w ++ records)%list
    /\ (fst res = true
        <-> exists body text, reply_at w 0 = NetResponse 200 (Returned body) text)
    /\ (fst res = true -> snd res = 200)
    /\ (Exists (fun r => lvl r = ERROR) records <-> fst res = false).
Proof.
  unfold reply_at. rewrite Nat.add_0_r. unfold _send_to_teslemetry.
  unfold mbind at 1, M_bind at 1, lift at 1. rewrite summer_rates_assemble.
  unfold mbind at 1, M_bind at 1.
  destruct (summary_run_debug (buy_prices t) w) as (records & -> & Hdebug).
  assert (~ Exists (fun r => lvl r = ERROR) records) as Hnone.
  { intros Hex. apply Exists_exists in Hex as (r & Hin & Hr).
    rewrite Forall_forall in Hdebug. rewrite (Hdebug r Hin) in Hr. discriminate Hr. }
  unfold try_except, mbind, M_bind, http.
  change (network (add_log w records)) with (network w).
  change (requests (add_log w records)) with (requests w).
  assert (forall m, Exists (fun r => lvl r = ERROR) (records ++ [Log ERROR m])) as Herr.
  { intros m. apply Exists_app. right. now left. }
  destruct (network w (List.length (requests w))) as [err|status json_body text_body];
    cbn [raise].
  - destruct (is_client_error err); eexists _, _, (records ++ [_])%list;
      (split; [reflexivity|]; split; [cbn; now rewrite app_assoc|]);
      (split; [split; [discriminate | intros (? & ? & [=])]|]);
      (split; [discriminate|]); split; auto.
  - destruct (Z.eqb_spec status 200) as [->|Hstatus].
    + destruct json_body as [result|err]; cbn [lift].
      * unfold py_len, price_table.
        eexists _, _, (records ++ [_; _])%list.
        split; [reflexivity|]. split; [cbn; now rewrite <- !app_assoc|].
        split; [split; [intros _; now eexists _, _ | reflexivity]|].
        split; [reflexivity|]. split; [|discriminate].
        intros Hex. apply Exists_app in Hex as [Hex|Hex]; [contradiction|].
        apply Exists_cons in Hex as [Hex|Hex]; [discriminate Hex|].
        apply Exists_cons in Hex as [Hex|Hex]; [discriminate Hex|].
        now apply Exists_nil in Hex.
      * destruct (is_client_error err); eexists _, _, (records ++ [_])%list;
          (split; [reflexivity|]; split; [cbn; now rewrite app_assoc|]);
          (split; [split; [discriminate | intros (? & ? & [=])]|]);
          (split; [discriminate|]); split; auto.
    + destruct text_body as [text|err]; cbn [lift].
      * eexists _, _, (records ++ [_])%list.
        split; [reflexivity|]. split; [cbn; now rewrite app_assoc|].
        split; [split; [discriminate | intros (? & ? & [= H]); contradiction]|].
        split; [discriminate|]. split; auto.
      * destruct (is_client_error err); eexists _, _, (records ++ [_])%list;
          (split; [reflexivity|]; split; [cbn; now rewrite app_assoc|]);
          (split; [split; [discriminate | intros (? & ? & [= H]); contradiction]|]);
          (split; [discriminate|]); split; auto.
Qed.

(** X10.  The shape of every call of [_send_with_retry] on an assembled
    document.  It returns; the attempt count it returns is the number of
    POSTs it issued, between 1 and 3; it slept 6 seconds or less in total; it
    fired no event and touched no notification.  It reports success exactly
    when the last attempt it made succeeded, and every attempt before the
    last was a transient failure. *)
Theorem retry_result_shape (site_id token name : string) (t : slot_tables)
    (tou : list (string * pyval)) (w : World) :
  exists res w' sleeps,
    _send_with_retry site_id token (assemble name t tou) w = (Returned res, w')
    /\ requests w'
       = (requests w ++ repeat (post_request site_id token (assemble name t tou)) (snd res))%list
    /\ (1 <= snd res <= MAX_RETRIES)%nat
    /\ slept w' = (slept w ++ sleeps)%list
    /\ fold_right Z.add 0 sleeps <= 6
    /\ bus w' = bus w /\ notifications w' = notifications w /\ network w' = network w
    /\ (fst res = true <-> classify (attempt_result w (snd res - 1)) = Success)
    /\ (forall i, (i < snd res - 1)%nat -> classify (attempt_result w i) = Transient).
Proof.
  destruct (send_with_retry_run site_id token name t tou w) as (w' & Hrun & Hext).
  cbv zeta in Hrun, Hext. destruct Hext as (Hnet & Hreq & Hslept & Hbus & Hnote & _).
  exists (fst (fst (retry_trace (attempt_result w)))), w',
         (snd (retry_trace (attempt_result w))).
  split; [exact Hrun|].
  rewrite Hreq, Hslept, Hbus, Hnote, Hnet. clear Hrun Hreq Hslept Hbus Hnote Hnet.
  unfold retry_trace, MAX_RETRIES.
  destruct (classify (attempt_result w 0)) eqn:H0; cbn [fst snd Nat.sub].
  1,2,4: (split; [reflexivity|]; split; [lia|]; split; [reflexivity|]; split; [cbn; lia|];
          split; [reflexivity|]; split; [reflexivity|]; split; [reflexivity|];
          split; [rewrite H0; split; first [reflexivity | discriminate] | intros i Hi; lia]).
  destruct (classify (attempt_result w 1)) eqn:H1; cbn [fst snd Nat.sub].
  1,2,4: (split; [reflexivity|]; split; [lia|]; split; [reflexivity|]; split; [cbn; lia|];
          split; [reflexivity|]; split; [reflexivity|]; split; [reflexivity|];
          split; [rewrite H1; split; first [reflexivity | discriminate]
                 | intros i Hi; assert (i = 0)%nat as -> by lia; exact H0]).
  destruct (classify (attempt_result w 2)) eqn:H2; cbn [fst snd Nat.sub];
    (split; [reflexivity|]; split; [lia|]; split; [reflexivity|]; split; [cbn; lia|];
     split; [reflexivity|]; split; [reflexivity|]; split; [reflexivity|];
     split; [rewrite H2; split; first [reflexivity | discriminate]
            | intros i Hi; assert (i = 0 \/ i = 1)%nat as [-> | ->] by lia; assumption]).
Qed.

(* ===================================================================== *)
(** * Further properties of the readback verification *)
(* ===================================================================== *)

Lemma py_get_raises x k d e : py_get x k d = Raised e -> cls e = AttributeError.
Proof. destruct x; intros H; inversion H; reflexivity. Qed.

Lemma summer_rates_raises x e : summer_rates x = Raised e -> cls e = AttributeError.
Proof.
  unfold summer_rates.
  destruct (py_get x "energy_charges" (PDict [])) as [a|e1] eqn:E1; cbn [mbind outcome_bind obind].
  2:{ intros [= <-]. eapply py_get_raises, E1. }
  destruct (py_get a "Summer" (PDict [])) as [b|e2] eqn:E2; cbn [mbind outcome_bind obind].
  2:{ intros [= <-]. eapply py_get_raises, E2. }
  apply py_get_raises.
Qed.

Lemma stored_rates_raises x e : stored_rates x = Raised e -> cls e = AttributeError.
Proof.
  unfold stored_rates.
  destruct (py_get x "response" (PDict [])) as [a|e1] eqn:E1; cbn [mbind outcome_bind obind].
  2:{ intros [= <-]. eapply py_get_raises, E1. }
  destruct (py_get a "tariff_content_v2" (PDict [])) as [b|e2] eqn:E2;
    cbn [mbind outcome_bind obind].
  2:{ intros [= <-]. eapply py_get_raises, E2. }
  apply summer_rates_raises.
Qed.

Lemma float_of_int_raises z e : float_of_int z = Raised e -> cls e = OverflowError.
Proof.
  unfold float_of_int. destruct (binary_normalize prec emax z 0 false);
    intros H; inversion H; reflexivity.
Qed.

Lemma py_sub_raises x y e : py_sub x y = Raised e -> comparison_error (cls e).
Proof.
  unfold py_sub, comparison_error.
  destruct x as [| [] | a | f | | |], y as [| [] | b | g | | |];
    cbn [mbind outcome_bind obind]; intros H;
    try (inversion H; subst; cbn; auto; fail);
    match type of H with
    | context [float_of_int ?z] =>
        destruct (float_of_int z) eqn:E; cbn [mbind outcome_bind obind] in H;
        [discriminate H | injection H as <-; right; right; eapply float_of_int_raises, E]
    end.
Qed.

Lemma compare_periods_raises sent stored mismatches e :
  compare_periods sent stored mismatches = Raised e -> comparison_error (cls e).
Proof.
  revert mismatches. induction sent as [|[k v] sent IH]; intros mismatches; cbn [compare_periods].
  - discriminate.
  - destruct (py_get stored k PNone) as [sv|e1] eqn:E1; cbn [mbind outcome_bind obind].
    2:{ intros [= <-]. left. eapply py_get_raises, E1. }
    assert (forall d, py_sub sv v = d ->
              (d' ← d;
               if abs_exceeds_tolerance d'
               then compare_periods sent stored (mismatches ++ [Differs k v sv])
               else compare_periods sent stored mismatches) = Raised e ->
              comparison_error (cls e)) as Hsub.
    { intros d Hd. destruct d as [d'|e2]; cbn [mbind outcome_bind obind].
      - destruct (abs_exceeds_tolerance d'); apply IH.
      - intros [= <-]. eapply py_sub_raises, Hd. }
    destruct sv; first [apply IH | exact (Hsub _ eq_refl)].
Qed.

(** Every run of [_verify_tariff]: one GET, and what can be raised. *)
Lemma verify_outcome (site_id token : string) (sent_tariff : pyval) (w : World) :
  exists o w',
    _verify_tariff site_id token sent_tariff w = (o, w')
    /\ requests w' = (requests w ++ [get_request site_id token])%list
    /\ slept w' = slept w /\ bus w' = bus w /\ notifications w' = notifications w
    /\ network w' = network w
    /\ match o with
       | Returned _ => True
       | Raised e =>
           comparison_error (cls e)
           /\ exists data text, reply_at w 0 = NetResponse 200 (Returned data) text
       end.
Proof.
  unfold reply_at. rewrite Nat.add_0_r.
  unfold _verify_tariff. fold (get_request site_id token).
  unfold try_except, mbind, M_bind, http, lift, raise, emit, mret, M_ret.
  destruct (network w (List.length (requests w))) as [err|status json_body text_body].
  { eexists _, _. split; [reflexivity|]. cbn. repeat split. }
  destruct (Z.eqb_spec status 200) as [->|Hne]; cbn [negb].
  2:{ eexists _, _. split; [reflexivity|]. cbn. repeat split. }
  destruct json_body as [data|err].
  2:{ eexists _, _. split; [reflexivity|]. cbn. repeat split. }
  assert (exists data' text, NetResponse 200 (Returned data) text_body
                             = NetResponse 200 (Returned data') text) as Hreply
    by (now eexists _, _).
  destruct (stored_rates data) as [stored|e1] eqn:E1.
  2:{ eexists _, _. split; [reflexivity|]. cbn. repeat split; auto.
      left. eapply stored_rates_raises, E1. }
  destruct (summer_rates sent_tariff) as [sent|e2] eqn:E2.
  2:{ eexists _, _. split; [reflexivity|]. cbn. repeat split; auto.
      left. eapply summer_rates_raises, E2. }
  destruct (negb (truthy stored)).
  { eexists _, _. split; [reflexivity|]. cbn. repeat split. }
  destruct (py_items sent) as [items|e3] eqn:E3.
  2:{ eexists _, _. split; [reflexivity|]. cbn. repeat split; auto.
      left. destruct sent; inversion E3; reflexivity. }
  destruct (compare_periods items stored []) as [mismatches|e4] eqn:E4.
  2:{ eexists _, _. split; [reflexivity|]. cbn. repeat split; auto.
      eapply compare_periods_raises, E4. }
  destruct (negb (Nat.eqb (List.length mismatches) 0)).
  { eexists _, _. split; [reflexivity|]. cbn. repeat split. }
  destruct (py_len sent) as [n|e5] eqn:E5.
  2:{ destruct sent; inversion E3; subst; inversion E5. }
  eexists _, _. split; [reflexivity|]. cbn. repeat split.
Qed.


(** X12.  A readback that fails inside the [try] is absorbed: with no
    response, a status other than 200, or a 200 whose body [json()] rejects,
    [_verify_tariff] returns false and logs exactly one record, a warning. *)
Theorem verify_absorbs_readback_failure (site_id token : string) (sent_tariff : pyval)
    (w : World) :
  match reply_at w 0 with
  | NetFault _ => True
  | NetResponse status json_body _ => status <> 200 \/ returns json_body = false
  end ->
  exists w' m,
    _verify_tariff site_id token sent_tariff w = (Returned false, w')
    /\ log w' = (log w ++ [Log WARNING m])%list.
Proof.
  unfold reply_at. rewrite Nat.add_0_r.
  unfold _verify_tariff, try_except, mbind, M_bind, http, lift, raise, emit, mret, M_ret.
  destruct (network w (List.length (requests w))) as [err|status json_body text_body].
  { intros _. eexists _, _. split; reflexivity. }
  destruct (Z.eqb_spec status 200) as [->|Hne]; cbn [negb].
  2:{ intros _. eexists _, _. split; reflexivity. }
  intros [H|H]; [contradiction|]. destruct json_body; [discriminate H|].
  eexists _, _. split; reflexivity.
Qed.

Lemma verify_absorbs_readback_failure_witness :
  let w := fresh_world (scripted [http_error 503]) in
  (match reply_at w 0 with
   | NetFault _ => True
   | NetResponse status json_body _ => status <> 200 \/ returns json_body = false
   end)
  /\ fst (_verify_tariff "1234567" "token" (built_document ∅ None) w) = Returned false.
Proof.
  intros w.
  assert (match reply_at w 0 with
          | NetFault _ => True
          | NetResponse status json_body _ => status <> 200 \/ returns json_body = false
          end) as H by (left; discriminate).
  split; [exact H|].
  destruct (verify_absorbs_readback_failure "1234567" "token" (built_document ∅ None) w H)
    as (w' & m & -> & _).
  reflexivity.
Defined.

(** X13.  When the readback answers 200 with a body that [json()] decodes
    and from which the extraction yields a table of stored rates that are
    floats, [_verify_tariff] returns, and it returns true exactly when the
    stored table is not empty and every key of the sent buy-side table is
    stored with a float for which the test [abs(stored - sent) > 0.001] is
    false: a value at a distance of at most 0.001, or NaN.  What else the
    body holds, keys that are stored but were not sent, and the sell side
    play no part. *)
Theorem verification_passes_iff_matched (site_id token name : string) (t : slot_tables)
    (tou : list (string * pyval)) (w : World) (data : pyval) (text : outcome string)
    (stored : list (string * pyval)) :
  reply_at w 0 = NetResponse 200 (Returned data) text ->
  stored_rates data = Returned (PDict stored) ->
  float_valued stored ->
  exists verified w',
    _verify_tariff site_id token (assemble name t tou) w = (Returned verified, w')
    /\ (verified = true <-> stored <> [] /\ Forall (matched stored) (buy_prices t)).
Proof.
  intros Hreply Hdata Hstored.
  destruct (verify_after_readback site_id token name t tou w data text stored Hreply Hdata)
    as [Hempty Hcompare].
  destruct stored as [|kv stored'] eqn:Estored.
  { destruct (Hempty eq_refl) as [w' Hrun]. exists false, w'.
    split; [exact Hrun|]. split; [discriminate | now intros [H _]]. }
  rewrite <- Estored in *.
  assert (stored <> []) as Hne by (subst stored; discriminate).
  destruct (compare_periods_floats (buy_prices t) stored [] Hstored) as (extra & Hrun & Hextra).
  cbn [app] in Hrun.
  destruct (Hcompare extra Hne Hrun) as [w' Hverify].
  exists (Nat.eqb (List.length extra) 0), w'. split; [exact Hverify|].
  rewrite <- Hextra. destruct extra; cbn [List.length Nat.eqb]; split.
  - intros _. split; [exact Hne | reflexivity].
  - reflexivity.
  - discriminate.
  - intros [_ H]. discriminate H.
Qed.

(** The reply echoes the sent document among other fields; one stored rate
    is off by 0.0004. *)
Lemma verification_passes_iff_matched_witness :
  let t := Tables [("PERIOD_00_00", 0.3%float); ("PERIOD_00_30", 0.2%float)]
                  [("PERIOD_00_00", 7%float); ("PERIOD_00_30", 7%float)]
                  ["PERIOD_00_00"; "PERIOD_00_30"] in
  let stored := [("PERIOD_00_00", PFloat 0.3004); ("PERIOD_00_30", PFloat 0.2);
                 ("PERIOD_01_00", PFloat 9)] in
  let data :=
    PDict [("response",
      PDict [("id", PStr "1234567"); ("site_name", PStr "Home");
             ("tariff_content_v2",
               PDict [("name", PStr "plan");
                      ("energy_charges",
                        PDict [("ALL", PDict [("rates", PDict [("ALL", PInt 0)])]);
                               ("Summer", PDict [("rates", PDict stored)])]);
                      ("sell_tariff", PDict [])])])] in
  let w := fresh_world (scripted [NetResponse 200 (Returned data) (Returned "{...}")]) in
  reply_at w 0 = NetResponse 200 (Returned data) (Returned "{...}")
  /\ stored_rates data = Returned (PDict stored)
  /\ float_valued stored
  /\ fst (_verify_tariff "1234567" "token" (assemble "plan" t []) w) = Returned true.
Proof.
  intros t stored data w.
  assert (float_valued stored) as Hfloat.
  { repeat constructor; eexists; reflexivity. }
  split; [reflexivity|]. split; [reflexivity|]. split; [exact Hfloat|].
  destruct (verification_passes_iff_matched "1234567" "token" "plan" t [] w data
              (Returned "{...}") stored eq_refl eq_refl Hfloat)
    as (verified & w' & Hrun & Hiff).
  rewrite Hrun. cbn [fst]. f_equal. apply Hiff. split; [discriminate|].
  constructor; [|constructor; [|constructor]].
  - exists 0.3004%float. split; vm_compute; reflexivity.
  - exists 0.2%float. split; vm_compute; reflexivity.
Defined.

(* ===================================================================== *)
(** * Further properties of the service handler *)
(* ===================================================================== *)

(** The four ways through [async_handle_push_tou]. *)
Lemma handler_cases site_id token rates plan_name w :
  let masked := mask_site site_id in
  let shown := name_or_default plan_name in
  match _build_tariff rates plan_name
          (add_log w [Log INFO (BuildingSchedule (List.length rates) masked)]) with
  | (Raised err, w1) =>
      exists w', async_handle_push_tou site_id token rates plan_name w = (Returned tt, w')
        /\ settled w1 w' [Event false masked shown 0 (Some (ErrorOf err))] (notifications w1)
  | (Returned tariff, w1) =>
      match _send_with_retry site_id token tariff w1 with
      | (Raised e, w2) =>
          async_handle_push_tou site_id token rates plan_name w = (Raised e, w2)
      | (Returned (false, attempts), w2) =>
          exists w', async_handle_push_tou site_id token rates plan_name w = (Returned tt, w')
            /\ settled w2 w'
                 [Event false masked shown attempts (Some (FailedAfterAttempts attempts))]
                 (<[NOTIFICATION_ID := attempts]> (notifications w2))
      | (Returned (true, attempts), w2) =>
          match _verify_tariff site_id token tariff (snd (sleep 2 w2)) with
          | (Raised e, w3) =>
              async_handle_push_tou site_id token rates plan_name w = (Raised e, w3)
          | (Returned verified, w3) =>
              exists w', async_handle_push_tou site_id token rates plan_name w = (Returned tt, w')
                /\ settled w3 w' [Event true masked shown attempts None]
                     (delete NOTIFICATION_ID (notifications w3))
          end
      end
  end.
Proof.
  cbv zeta.
  remember (async_handle_push_tou site_id token rates plan_name w) as run eqn:Hrun.
  unfold async_handle_push_tou in Hrun.
  unfold mbind at 1, M_bind at 1 in Hrun. rewrite emit_run in Hrun.
  unfold mbind at 1, M_bind at 1, try_except in Hrun.
  unfold mbind at 1, M_bind at 1 in Hrun.
  destruct (_build_tariff rates plan_name _) as [[tariff|err] w1].
  - unfold mret at 1, M_ret at 1 in Hrun.
    unfold mbind at 1, M_bind at 1 in Hrun.
    destruct (_send_with_retry site_id token tariff w1) as [[[[|] attempts]|e] w2];
      cbn [fst snd] in Hrun; [| |exact Hrun].
    + unfold mbind at 1, M_bind at 1 in Hrun.
      destruct (sleep 2 w2) as [o5 w5] eqn:E5.
      assert (o5 = Returned tt) as -> by (unfold sleep in E5; congruence).
      cbn [snd]. unfold mbind at 1, M_bind at 1 in Hrun.
      destruct (_verify_tariff site_id token tariff w5) as [[verified|e] w3]; [|exact Hrun].
      subst run.
      destruct verified; cbn; (eexists; split; [reflexivity|]);
        unfold settled; cbn [network requests slept log bus notifications];
        (repeat split; try reflexivity); eexists; rewrite <- ?app_assoc; reflexivity.
    + subst run. cbn. eexists. split; [reflexivity|].
      unfold settled. cbn [network requests slept log bus notifications].
      repeat split; try reflexivity. eexists. rewrite <- ?app_assoc. reflexivity.
  - subst run. cbn. eexists. split; [reflexivity|].
    unfold settled. cbn [network requests slept log bus notifications].
    repeat split; try reflexivity. eexists. rewrite <- ?app_assoc. reflexivity.
Qed.

(** X14.  Validation fails fast.  When the start or the end of some rate
    does not parse, the handler completes without any request and without
    sleeping, leaves the notifications alone, and fires exactly one event:
    failure, attempt count 0, with the [ValueError] as its error. *)
Theorem handler_fails_fast_on_bad_rates (site_id token : string) (rates : list RatePeriod)
    (plan_name : option string) (w : World) :
  forallb parseable rates = false ->
  exists err w',
    async_handle_push_tou site_id token rates plan_name w = (Returned tt, w')
    /\ cls err = ValueError
    /\ requests w' = requests w /\ slept w' = slept w
    /\ notifications w' = notifications w
    /\ bus w' = (bus w ++ [Event false (mask_site site_id) (name_or_default plan_name) 0
                                 (Some (ErrorOf err))])%list.
Proof.
  intros Hbad. destruct (stamp_rates_raises rates ∅ Hbad) as (err & Herr & Hcls).
  pose proof (handler_cases site_id token rates plan_name w) as H. cbv zeta in H.
  rewrite (build_raise _ _ _ _ Herr) in H.
  destruct H as (w' & Hrun & _ & Hreq & Hslept & Hbus & Hnote & _).
  exists err, w'. split; [exact Hrun|]. split; [exact Hcls|].
  now rewrite Hreq, Hslept, Hbus, Hnote.
Qed.

Lemma handler_fails_fast_on_bad_rates_witness :
  forallb parseable [Rate "07:00" "9am" 30 5] = false
  /\ exists w',
       async_handle_push_tou "1234567" "token" [Rate "07:00" "9am" 30 5] None quiet_world
       = (Returned tt, w')
       /\ requests w' = [].
Proof.
  split; [vm_compute; reflexivity|].
  destruct (handler_fails_fast_on_bad_rates "1234567" "token" [Rate "07:00" "9am" 30 5]
              None quiet_world) as (err & w' & Hrun & _ & Hreq & _);
    [vm_compute; reflexivity|].
  exists w'. split; [exact Hrun | exact Hreq].
Defined.

(** X15.  A failed delivery.  When the document is built and
    [_send_with_retry] reports failure after some attempts, the handler
    completes without readback (no further request, no settle delay), sets
    the failure notification with that attempt count, and fires exactly one
    event: failure, with the attempt count. *)
Theorem handler_reports_failed_delivery (site_id token : string) (rates : list RatePeriod)
    (plan_name : option string) (w w1 w2 : World) (tariff : pyval) (attempts : nat) :
  _build_tariff rates plan_name
    (add_log w [Log INFO (BuildingSchedule (List.length rates) (mask_site site_id))])
  = (Returned tariff, w1) ->
  _send_with_retry site_id token tariff w1 = (Returned (false, attempts), w2) ->
  exists w',
    async_handle_push_tou site_id token rates plan_name w = (Returned tt, w')
    /\ requests w' = requests w2 /\ slept w' = slept w2
    /\ notifications w' !! NOTIFICATION_ID = Some attempts
    /\ bus w' = (bus w ++ [Event false (mask_site site_id) (name_or_default plan_name) attempts
                                 (Some (FailedAfterAttempts attempts))])%list.
Proof.
  intros Hbuild Hsend.
  pose proof (handler_cases site_id token rates plan_name w) as H. cbv zeta in H.
  rewrite Hbuild, Hsend in H.
  destruct H as (w' & Hrun & _ & Hreq & Hslept & Hbus & Hnote & _).
  exists w'. split; [exact Hrun|]. split; [exact Hreq|]. split; [exact Hslept|].
  split; [rewrite Hnote; apply lookup_insert_eq|].
  rewrite Hbus. f_equal.
  destruct (build_returns _ _ _ _ _ Hbuild) as [(_ & _ & _ & B1 & _) [mp ->]].
  destruct (send_with_retry_run site_id token (name_or_default plan_name)
              (built_tables mp) (enumerate_tou_periods 0 canonical_keys []) w1)
    as (w2' & Hsend' & (_ & _ & _ & B2 & _)).
  cbv zeta in Hsend'. fold (built_document mp plan_name) in Hsend'.
  rewrite Hsend in Hsend'. assert (w2' = w2) as -> by congruence.
  now rewrite B2, B1.
Qed.

Lemma handler_reports_failed_delivery_witness :
  let w := fresh_world (scripted [http_error 401]) in
  let start_log := [Log INFO (BuildingSchedule 2 (mask_site "1234567"))] in
  let built := _build_tariff example_rates None (add_log w start_log) in
  let tariff := built_document
                  (match stamp_rates example_rates ∅ with Returned mp => mp | Raised _ => ∅ end)
                  None in
  let w2 := snd (_send_with_retry "1234567" "token" tariff (snd built)) in
  built = (Returned tariff, snd built)
  /\ _send_with_retry "1234567" "token" tariff (snd built) = (Returned (false, 1%nat), w2)
  /\ exists w',
       async_handle_push_tou "1234567" "token" example_rates None w = (Returned tt, w')
       /\ notifications w' !! NOTIFICATION_ID = Some 1%nat.
Proof.
  intros w start_log built tariff w2.
  assert (built = (Returned tariff, snd built)) as Hbuild by (vm_compute; reflexivity).
  assert (_send_with_retry "1234567" "token" tariff (snd built) = (Returned (false, 1%nat), w2))
    as Hsend by (vm_compute; reflexivity).
  split; [exact Hbuild|]. split; [exact Hsend|].
  destruct (handler_reports_failed_delivery "1234567" "token" example_rates None w (snd built) w2
              tariff 1 Hbuild Hsend) as (w' & Hrun & _ & _ & Hnote & _).
  exists w'. split; [exact Hrun | exact Hnote].
Defined.

Lemma retry_trace_bounds (result : nat -> bool * Z) :
  let trace := retry_trace result in
  snd (fst (fst trace)) = snd (fst trace) /\ (1 <= snd (fst trace) <= 3)%nat.
Proof.
  unfold retry_trace.
  destruct (classify (result 0%nat)); cbn; try lia.
  destruct (classify (result 1%nat)); cbn; try lia.
  destruct (classify (result 2%nat)); cbn; lia.
Qed.

(** X16.  Every call of the handler.  It issues at most three POSTs of one
    document followed by at most one GET, and nothing else.  When it
    completes it has fired exactly one event, which carries the masked site
    id and the number of POSTs as its attempt count, and which says success
    exactly when the readback was made.  It raises only out of the readback
    (an [AttributeError], [TypeError] or [OverflowError]), and then it has
    fired no event. *)
Theorem handler_fires_at_most_one_event (site_id token : string) (rates : list RatePeriod)
    (plan_name : option string) (w : World) :
  exists o w' tariff posts gets,
    async_handle_push_tou site_id token rates plan_name w = (o, w')
    /\ requests w' = (requests w ++ repeat (post_request site_id token tariff) posts
                                 ++ repeat (get_request site_id token) gets)%list
    /\ (posts <= 3)%nat /\ (gets <= 1)%nat
    /\ network w' = network w
    /\ match o with
       | Returned _ =>
           exists event, bus w' = (bus w ++ [event])%list
             /\ site_id_masked event = mask_site site_id
             /\ attempt_count event = posts
             /\ (success event = true <-> gets = 1%nat)
       | Raised err => bus w' = bus w /\ gets = 1%nat /\ comparison_error (cls err)
       end.
Proof.
  pose proof (handler_cases site_id token rates plan_name w) as H. cbv zeta in H.
  destruct (_build_tariff rates plan_name _) as [[tariff|err] w1] eqn:Hbuild.
  2:{ destruct H as (w' & Hrun & Hnet & Hreq & _ & Hbus & _).
      destruct (stamp_rates rates ∅) as [mp|e] eqn:Hmp;
        [rewrite (build_run _ _ _ _ Hmp) in Hbuild; discriminate Hbuild|].
      rewrite (build_raise _ _ _ _ Hmp) in Hbuild.
      assert (w1 = add_log w [Log INFO (BuildingSchedule (List.length rates) (mask_site site_id))])
        as -> by congruence.
      exists (Returned tt), w', PNone, 0%nat, 0%nat. split; [exact Hrun|].
      cbn [repeat]. rewrite Hreq, Hnet, Hbus, !app_nil_r. cbn [add_log requests network bus].
      repeat split; try lia. eexists. split; [reflexivity|]. cbn. repeat split; discriminate. }
  destruct (build_returns _ _ _ _ _ Hbuild) as [(N1 & R1 & _ & B1 & _) [mp ->]].
  cbn [add_log network requests bus] in N1, R1, B1. rewrite app_nil_r in R1.
  destruct (send_with_retry_run site_id token (name_or_default plan_name)
              (built_tables mp) (enumerate_tou_periods 0 canonical_keys []) w1)
    as (w2 & Hsend & (N2 & R2 & _ & B2 & _)).
  cbv zeta in Hsend, R2. fold (built_document mp plan_name) in Hsend, R2.
  destruct (retry_trace_bounds (attempt_result w1)) as [Hcount Hmade]. cbv zeta in Hcount, Hmade.
  rewrite Hsend in H.
  destruct (retry_trace (attempt_result w1)) as [[[ok attempts] made] sleeps].
  cbn [fst snd] in *. subst attempts.
  destruct ok.
  - destruct (verify_outcome site_id token (built_document mp plan_name) (snd (sleep 2 w2)))
      as (o & w3 & Hverify & R3 & _ & B3 & _ & N3 & Ho).
    rewrite Hverify in H. cbn [fst]. cbn [sleep snd network requests bus] in R3, B3, N3.
    destruct o as [verified|e].
    + destruct H as (w' & Hrun & Hnet & Hreq & _ & Hbus & _).
      exists (Returned tt), w', (built_document mp plan_name), made, 1%nat.
      split; [exact Hrun|].
      rewrite Hreq, R3, R2, R1, Hnet, N3, N2, N1, Hbus, B3, B2, B1. cbn [repeat].
      rewrite <- !app_assoc. repeat split; try lia.
      eexists. split; [reflexivity|]. cbn. repeat split; reflexivity.
    + exists (Raised e), w3, (built_document mp plan_name), made, 1%nat.
      split; [exact H|].
      rewrite R3, R2, R1, N3, N2, N1, B3, B2, B1. cbn [repeat].
      rewrite <- !app_assoc. repeat split; try lia. exact (proj1 Ho).
  - destruct H as (w' & Hrun & Hnet & Hreq & _ & Hbus & _).
    exists (Returned tt), w', (built_document mp plan_name), made, 0%nat.
    split; [exact Hrun|].
    rewrite Hreq, R2, R1, Hnet, N2, N1, Hbus, B2, B1. cbn [repeat]. rewrite !app_nil_r.
    repeat split; try lia. eexists. split; [reflexivity|]. cbn. repeat split; discriminate.
Qed.

(* ===================================================================== *)
(** * Properties of the setup functions *)
(* ===================================================================== *)

Lemma setup_entry_run entry_data hass token site_id :
  subscript entry_data "teslemetry_token" = Returned token ->
  subscript entry_data "site_id" = Returned site_id ->
  async_setup_entry entry_data hass
  = (Returned true,
     mkHass (if negb (has_service hass DOMAIN "push_tou")
             then <[(DOMAIN, "push_tou") := Handler site_id token]> (services hass)
             else services hass)
            (setup_log hass ++ [ServiceLoaded])).
Proof. intros Ht Hs. unfold async_setup_entry. now rewrite Ht, Hs. Qed.

Lemma has_service_lookup hass domain service :
  has_service hass domain service = true <-> is_Some (services hass !! (domain, service)).
Proof. unfold has_service. apply bool_decide_eq_true. Qed.

(** X18.  The guard against registering twice.  When no [push_tou] service
    is registered and two entries are set up one after the other, both calls
    return true, but the registered handler is the one that captured the
    first entry's site id and token: a call of the service keeps using the
    first entry's credentials. *)
Theorem second_setup_keeps_first_handler (hass : Hass)
    (entry1 entry2 : list (string * string)) (token1 site1 token2 site2 : string) :
  subscript entry1 "teslemetry_token" = Returned token1 ->
  subscript entry1 "site_id" = Returned site1 ->
  subscript entry2 "teslemetry_token" = Returned token2 ->
  subscript entry2 "site_id" = Returned site2 ->
  has_service hass DOMAIN "push_tou" = false ->
  let first := async_setup_entry entry1 hass in
  let second := async_setup_entry entry2 (snd first) in
  fst first = Returned true /\ fst second = Returned true
  /\ services (snd second) !! (DOMAIN, "push_tou") = Some (Handler site1 token1)
  /\ (forall rates plan_name,
        run_handler (Handler site1 token1) rates plan_name
        = async_handle_push_tou site1 token1 rates plan_name)
  /\ setup_log (snd second) = (setup_log hass ++ [ServiceLoaded; ServiceLoaded])%list.
Proof.
  intros Ht1 Hs1 Ht2 Hs2 Hfree. cbv zeta.
  rewrite (setup_entry_run _ _ _ _ Ht1 Hs1). cbn [fst snd].
  rewrite (setup_entry_run _ _ _ _ Ht2 Hs2). cbn [fst snd services setup_log].
  rewrite Hfree. cbn [negb].
  assert (has_service (mkHass (<[(DOMAIN, "push_tou") := Handler site1 token1]> (services hass))
                              (setup_log hass ++ [ServiceLoaded])) DOMAIN "push_tou" = true)
    as ->.
  { apply has_service_lookup. cbn [services]. rewrite lookup_insert_eq. now eexists. }
  cbn [negb]. split; [reflexivity|]. split; [reflexivity|].
  split; [apply lookup_insert_eq|]. split; [reflexivity|].
  now rewrite <- app_assoc.
Qed.

Lemma second_setup_keeps_first_handler_witness :
  let entry1 := [("teslemetry_token", "token-A"); ("site_id", "1111111")] in
  let entry2 := [("teslemetry_token", "token-B"); ("site_id", "2222222")] in
  let hass := mkHass ∅ [] in
  subscript entry1 "teslemetry_token" = Returned "token-A"
  /\ subscript entry1 "site_id" = Returned "1111111"
  /\ subscript entry2 "teslemetry_token" = Returned "token-B"
  /\ subscript entry2 "site_id" = Returned "2222222"
  /\ has_service hass DOMAIN "push_tou" = false
  /\ services (snd (async_setup_entry entry2 (snd (async_setup_entry entry1 hass))))
       !! (DOMAIN, "push_tou") = Some (Handler "1111111" "token-A").
Proof.
  intros entry1 entry2 hass. repeat (split; [reflexivity|]).
  exact (proj1 (proj2 (proj2
    (second_setup_keeps_first_handler hass entry1 entry2 "token-A" "1111111" "token-B" "2222222"
       eq_refl eq_refl eq_refl eq_refl eq_refl)))).
Defined.

(** X19.  Unloading removes the [push_tou] service whichever entry
    registered it and leaves every other service alone; a set-up that
    follows registers the handler of its own entry. *)
Theorem unload_then_setup_registers_anew (hass : Hass)
    (unloaded entry : list (string * string)) (token site_id : string) :
  subscript entry "teslemetry_token" = Returned token ->
  subscript entry "site_id" = Returned site_id ->
  let after_unload := async_unload_entry unloaded hass in
  let after_setup := async_setup_entry entry (snd after_unload) in
  fst after_unload = Returned true
  /\ has_service (snd after_unload) DOMAIN "push_tou" = false
  /\ (forall key, key <> (DOMAIN, "push_tou") ->
        services (snd after_unload) !! key = services hass !! key)
  /\ fst after_setup = Returned true
  /\ services (snd after_setup) !! (DOMAIN, "push_tou") = Some (Handler site_id token).
Proof.
  intros Ht Hs. cbv zeta. unfold async_unload_entry. cbn [fst snd].
  assert (has_service (mkHass (delete (DOMAIN, "push_tou") (services hass))
                              (setup_log hass ++ [ServiceUnloaded])) DOMAIN "push_tou" = false)
    as Hfree.
  { apply not_true_is_false. intros H%has_service_lookup. cbn [services] in H.
    rewrite lookup_delete_eq in H. now destruct H. }
  split; [reflexivity|]. split; [exact Hfree|].
  split; [intros key Hkey; cbn [services]; now apply lookup_delete_ne|].
  rewrite (setup_entry_run _ _ _ _ Ht Hs), Hfree. cbn [fst snd negb services].
  split; [reflexivity | apply lookup_insert_eq].
Qed.

Lemma unload_then_setup_registers_anew_witness :
  let entry := [("teslemetry_token", "token-B"); ("site_id", "2222222")] in
  let hass := mkHass {[ (DOMAIN, "push_tou") := Handler "1111111" "token-A" ]} [] in
  subscript entry "teslemetry_token" = Returned "token-B"
  /\ subscript entry "site_id" = Returned "2222222"
  /\ services (snd (async_setup_entry entry (snd (async_unload_entry [] hass))))
       !! (DOMAIN, "push_tou") = Some (Handler "2222222" "token-B").
Proof.
  intros entry hass. repeat (split; [reflexivity|]).
  exact (proj2 (proj2 (proj2 (proj2
    (unload_then_setup_registers_anew hass [] entry "token-B" "2222222" eq_refl eq_refl))))).
Defined.

(* ===================================================================== *)
(** * Properties of the config flow *)
(* ===================================================================== *)

Lemma lstrip_starts_clean s : starts_clean (lstrip s).
Proof.
  induction s as [|c s IH]; cbn [lstrip]; [exact I|].
  destruct (isspace c) eqn:Hc; [exact IH | exact Hc].
Qed.

Lemma rstrip_starts_clean s : starts_clean s -> starts_clean (rstrip s).
Proof.
  destruct s as [|c s]; cbn [rstrip starts_clean]; [exact (fun H => H)|].
  intros Hc. destruct (rstrip s); [now rewrite Hc | exact Hc].
Qed.

Lemma rstrip_ends_clean s : ends_clean (rstrip s).
Proof.
  induction s as [|c s IH]; cbn [rstrip]; [exact I|].
  destruct (rstrip s) as [|c' r].
  - destruct (isspace c) eqn:Hc; [exact I | exact Hc].
  - exact IH.
Qed.

Lemma strip_clean s : starts_clean (strip s) /\ ends_clean (strip s).
Proof.
  unfold strip. split; [apply rstrip_starts_clean, lstrip_starts_clean | apply rstrip_ends_clean].
Qed.


(** X20.  An entry is created only from cleaned input.  When the step
    creates an entry, its data are exactly the token and the site id of the
    input with surrounding white space removed; both are non-empty and
    neither starts or ends with white space; the unique id made of the site
    id was not configured before; the title shows at most the first four
    characters of the site id. *)
Theorem flow_creates_clean_entries (configured : gset string)
    (user_input : list (string * string)) (title : string) (data : list (string * string)) :
  async_step_user configured (Some user_input) = CreateEntry title data ->
  let token := strip (get_or_empty user_input "teslemetry_token") in
  let site_id := strip (get_or_empty user_input "site_id") in
  data = [("teslemetry_token", token); ("site_id", site_id)]
  /\ token <> "" /\ site_id <> ""
  /\ starts_clean token /\ ends_clean token
  /\ starts_clean site_id /\ ends_clean site_id
  /\ (unique_id_of site_id ∉ configured)
  /\ title = "TOU Writer (site " +:+ String.substring 0 4 site_id +:+ "…)".
Proof.
  cbv zeta. unfold async_step_user.
  destruct (String.eqb_spec (strip (get_or_empty user_input "teslemetry_token")) "")
    as [Ht|Ht];
    destruct (String.eqb_spec (strip (get_or_empty user_input "site_id")) "") as [Hs|Hs];
    cbn [dict_set]; try discriminate.
  destruct (bool_decide (unique_id_of _ ∈ configured)) eqn:Hdup; [discriminate|].
  intros [= <- <-].
  destruct (strip_clean (get_or_empty user_input "teslemetry_token")) as [T1 T2].
  destruct (strip_clean (get_or_empty user_input "site_id")) as [S1 S2].
  repeat split; try assumption.
  now apply bool_decide_eq_false in Hdup.
Qed.

Lemma flow_creates_clean_entries_witness :
  let input := [("teslemetry_token", " tok "); ("site_id", "1234567 ")] in
  async_step_user ∅ (Some input)
  = CreateEntry "TOU Writer (site 1234…)" [("teslemetry_token", "tok"); ("site_id", "1234567")]
  /\ strip (get_or_empty input "site_id") <> "".
Proof.
  intros input.
  assert (async_step_user ∅ (Some input)
          = CreateEntry "TOU Writer (site 1234…)"
              [("teslemetry_token", "tok"); ("site_id", "1234567")]) as Hrun
    by (vm_compute; reflexivity).
  split; [exact Hrun|].
  exact (proj1 (proj2 (proj2 (flow_creates_clean_entries ∅ input _ _ Hrun)))).
Defined.

Lemma lstrip_empty s : lstrip s = "" -> all_chars isspace s = true.
Proof.
  induction s as [|c s IH]; cbn [lstrip all_chars]; [reflexivity|].
  destruct (isspace c); [exact IH | discriminate].
Qed.

Lemma rstrip_empty s : rstrip s = "" -> all_chars isspace s = true.
Proof.
  induction s as [|c s IH]; cbn [rstrip all_chars]; [reflexivity|].
  destruct (rstrip s) as [|c' r]; [|discriminate].
  destruct (isspace c); [intros _; now apply IH | discriminate].
Qed.

(** [strip] gives the empty string exactly for a string of white space. *)
Lemma strip_blank s : String.eqb (strip s) "" = all_chars isspace s.
Proof.
  destruct (all_chars isspace s) eqn:Hs.
  - unfold strip. now rewrite (lstrip_spaces _ Hs).
  - apply not_true_is_false. intros H%String.eqb_eq. unfold strip in H.
    pose proof (lstrip_starts_clean s) as Hclean.
    apply rstrip_empty in H. destruct (lstrip s) as [|c r] eqn:Hl.
    + apply lstrip_empty in Hl. congruence.
    + cbn [starts_clean all_chars] in *. rewrite Hclean in H. discriminate H.
Qed.

(** X21.  Blank fields are rejected before anything else.  When the token
    or the site id of the input is missing, empty or made of white space
    only, the step shows the form again, whether or not the site is already
    configured; the errors name exactly the blank fields, the token first. *)
Theorem flow_rejects_blank_fields (configured : gset string)
    (user_input : list (string * string)) :
  let token := get_or_empty user_input "teslemetry_token" in
  let site_id := get_or_empty user_input "site_id" in
  all_chars isspace token = true \/ all_chars isspace site_id = true ->
  async_step_user configured (Some user_input)
  = ShowForm "user"
      ((if all_chars isspace token then [("teslemetry_token", "token_required")] else [])
       ++ (if all_chars isspace site_id then [("site_id", "site_id_required")] else []))%list.
Proof.
  cbv zeta. unfold async_step_user. rewrite !strip_blank.
  destruct (all_chars isspace (get_or_empty user_input "teslemetry_token"));
    destruct (all_chars isspace (get_or_empty user_input "site_id"));
    cbn [dict_set app]; try reflexivity.
  intros [H|H]; discriminate H.
Qed.

Lemma flow_rejects_blank_fields_witness :
  let input := [("teslemetry_token", "   ")] in
  (all_chars isspace (get_or_empty input "teslemetry_token") = true
   \/ all_chars isspace (get_or_empty input "site_id") = true)
  /\ async_step_user {[ unique_id_of "" ]} (Some input)
     = ShowForm "user" [("teslemetry_token", "token_required"); ("site_id", "site_id_required")].
Proof.
  intros input. split; [left; reflexivity|].
  exact (flow_rejects_blank_fields {[ unique_id_of "" ]} input (or_introl eq_refl)).
Defined.

(** X22.  A site is configured once, whatever white space surrounds its id.
    With a token and a site id that are not blank, and the unique id of the
    stripped site id already configured, the step aborts with
    "already_configured" for every padding of the site id with white
    space. *)
Theorem flow_aborts_on_configured_site (configured : gset string)
    (token site_id before after : string) :
  strip token <> "" ->
  strip site_id <> "" ->
  all_chars isspace before = true ->
  all_chars isspace after = true ->
  unique_id_of (strip site_id) ∈ configured ->
  async_step_user configured
    (Some [("teslemetry_token", token); ("site_id", before +:+ site_id +:+ after)])
  = AbortFlow "already_configured".
Proof.
  intros Ht Hs Hb Ha Hdup. unfold async_step_user, get_or_empty.
  cbn [dict_lookup String.eqb Ascii.eqb Bool.eqb].
  change (dict_lookup "teslemetry_token" [("teslemetry_token", token);
            ("site_id", before +:+ site_id +:+ after)]) with (Some token).
  change (dict_lookup "site_id" [("teslemetry_token", token);
            ("site_id", before +:+ site_id +:+ after)])
    with (Some (before +:+ site_id +:+ after)).
  rewrite (strip_padding before site_id after Hb Ha).
  destruct (String.eqb_spec (strip token) "") as [|_]; [contradiction|].
  destruct (String.eqb_spec (strip site_id) "") as [|_]; [contradiction|].
  now rewrite (bool_decide_eq_true_2 _ Hdup).
Qed.

Lemma flow_aborts_on_configured_site_witness :
  strip "tok" <> "" /\ strip "1234567" <> ""
  /\ all_chars isspace " " = true /\ all_chars isspace "  " = true
  /\ unique_id_of (strip "1234567") ∈ ({[ "tou_writer_1234567" ]} : gset string)
  /\ async_step_user {[ "tou_writer_1234567" ]}
       (Some [("teslemetry_token", "tok"); ("site_id", " " +:+ "1234567" +:+ "  ")])
     = AbortFlow "already_configured".
Proof.
  assert (unique_id_of (strip "1234567") ∈ ({[ "tou_writer_1234567" ]} : gset string)) as Hin
    by (apply elem_of_singleton; reflexivity).
  split; [discriminate|]. split; [discriminate|]. split; [reflexivity|]. split; [reflexivity|].
  split; [exact Hin|].
  apply flow_aborts_on_configured_site;
    [discriminate | discriminate | reflexivity | reflexivity | exact Hin].
Defined.

(* ===================================================================== *)
(** * Order of the rates, and a blind spot of the comparison *)
(* ===================================================================== *)

(** X23.  Two neighbouring rates that parse and cover no slot mark in
    common can be exchanged: the call behaves the same.  The order of the
    rates matters only where they overlap. *)
Theorem disjoint_rates_commute (pre : list RatePeriod) (r1 r2 : RatePeriod)
    (post : list RatePeriod) (plan_name : option string) (w : World) :
  parseable r1 = true ->
  parseable r2 = true ->
  forallb (fun slot => negb (covers r1 (slot * 30) && covers r2 (slot * 30))) slots = true ->
  _build_tariff (pre ++ r1 :: r2 :: post) plan_name w
  = _build_tariff (pre ++ r2 :: r1 :: post) plan_name w.
Proof.
  intros Hp1 Hp2 Hdisjoint.
  assert (forall slot, slot ∈ slots ->
            covers r1 (slot * 30) && covers r2 (slot * 30) = false) as Hcov.
  { intros slot Hslot. rewrite forallb_forall in Hdisjoint.
    apply negb_true_iff, Hdisjoint. now apply list_elem_of_In. }
  pose proof (stamp_rates_app pre (r1 :: r2 :: post) ∅) as H1.
  pose proof (stamp_rates_app pre (r2 :: r1 :: post) ∅) as H2.
  destruct (stamp_rates pre ∅) as [mp0|e] eqn:Hpre; cbn [mbind outcome_bind obind] in H1, H2.
  2:{ now rewrite (build_raise _ _ _ _ H1), (build_raise _ _ _ _ H2). }
  cbn [stamp_rates] in H1, H2.
  destruct (stamp_rate_returns mp0 r1 Hp1) as (m1 & E1 & L1).
  destruct (stamp_rate_returns m1 r2 Hp2) as (m12 & E12 & L12).
  destruct (stamp_rate_returns mp0 r2 Hp2) as (m2 & E2 & L2).
  destruct (stamp_rate_returns m2 r1 Hp1) as (m21 & E21 & L21).
  rewrite E1 in H1. cbn [mbind outcome_bind obind] in H1.
  rewrite E12 in H1. cbn [mbind outcome_bind obind] in H1.
  rewrite E2 in H2. cbn [mbind outcome_bind obind] in H2.
  rewrite E21 in H2. cbn [mbind outcome_bind obind] in H2.
  pose proof (stamp_rates_outcome post m12 m21) as Hsame.
  destruct (stamp_rates post m12) as [mpA|eA] eqn:HA, (stamp_rates post m21) as [mpB|eB] eqn:HB;
    try contradiction.
  - rewrite (build_run _ _ _ _ H1), (build_run _ _ _ _ H2).
    destruct (built_agree mpA mpB plan_name) as [-> ->]; [|reflexivity].
    intros slot Hslot.
    rewrite (stamp_rates_lookup _ _ _ HA), (stamp_rates_lookup _ _ _ HB).
    rewrite L12, L1, L21, L2. specialize (Hcov slot Hslot).
    destruct (covers r1 (slot * 30)), (covers r2 (slot * 30)); try reflexivity.
    discriminate Hcov.
  - subst eB. now rewrite (build_raise _ _ _ _ H1), (build_raise _ _ _ _ H2).
Qed.

Lemma disjoint_rates_commute_witness :
  let r1 := Rate "07:00" "09:00" 30 5 in
  let r2 := Rate "09:00" "17:00" 20 5 in
  parseable r1 = true /\ parseable r2 = true
  /\ forallb (fun slot => negb (covers r1 (slot * 30) && covers r2 (slot * 30))) slots = true
  /\ _build_tariff [r1; r2] None quiet_world = _build_tariff [r2; r1] None quiet_world.
Proof.
  split; [vm_compute; reflexivity|]. split; [vm_compute; reflexivity|].
  split; [vm_compute; reflexivity|].
  apply (disjoint_rates_commute [] (Rate "07:00" "09:00" 30 5) (Rate "09:00" "17:00" 20 5)
           [] None quiet_world); vm_compute; reflexivity.
Defined.

Lemma nan_is_within_tolerance (v : float) :
  (0.001 <? PrimFloat.abs (nan - v))%float = false.
Proof.
  rewrite FloatAxioms.ltb_spec, FloatAxioms.abs_spec, FloatAxioms.sub_spec.
  change (Prim2SF nan) with S754_nan. reflexivity.
Qed.

(** The comparison loop adds no mismatch when every sent key is stored
    as NaN, whatever else is stored. *)
Lemma compare_periods_nan (sent : list (string * float)) stored mismatches :
  Forall (fun kv => dict_lookup (fst kv) stored = Some (PFloat nan)) sent ->
  compare_periods (map (fun kv => (fst kv, PFloat (snd kv))) sent) (PDict stored) mismatches
  = Returned mismatches.
Proof.
  induction 1 as [|[k v] sent Hk _ IH]; cbn [map fst snd compare_periods]; [reflexivity|].
  unfold py_get. cbn [mbind outcome_bind obind]. cbn [fst] in Hk. rewrite Hk.
  cbn [py_sub mbind outcome_bind obind abs_exceeds_tolerance].
  now rewrite nan_is_within_tolerance.
Qed.

(** X24.  The comparison has a blind spot.  [abs(stored - sent) > 0.001] is
    false when the stored value is NaN, so a readback whose stored table
    holds NaN for every key that was sent passes the verification, whatever
    prices were sent and whatever else the reply holds. *)
Theorem verification_accepts_nan (site_id token name : string) (t : slot_tables)
    (tou : list (string * pyval)) (w : World) (data : pyval) (text : outcome string)
    (stored : list (string * pyval)) :
  reply_at w 0 = NetResponse 200 (Returned data) text ->
  stored_rates data = Returned (PDict stored) ->
  buy_prices t <> [] ->
  Forall (fun sent => dict_lookup (fst sent) stored = Some (PFloat nan)) (buy_prices t) ->
  exists w', _verify_tariff site_id token (assemble name t tou) w = (Returned true, w').
Proof.
  intros Hreply Hdata Hsent Hnan.
  destruct (verify_after_readback site_id token name t tou w data text stored Hreply Hdata)
    as [_ Hcompare].
  apply (Hcompare []).
  - intros ->. destruct (buy_prices t) as [|kv sent]; [contradiction|].
    apply Forall_cons in Hnan as [Hkv _]. discriminate Hkv.
  - now apply compare_periods_nan.
Qed.

(** The prices of the example rates were sent; the reply stores NaN for all
    48 slots, and a string under a further key. *)
Lemma verification_accepts_nan_witness :
  let t := built_tables
             (match stamp_rates example_rates ∅ with Returned mp => mp | Raised _ => ∅ end) in
  let stored := (map (fun key => (key, PFloat nan)) canonical_keys
                 ++ [("updated", PStr "today")])%list in
  let data :=
    PDict [("response",
      PDict [("id", PStr "1234567");
             ("tariff_content_v2",
               PDict [("energy_charges", PDict [("Summer", PDict [("rates", PDict stored)])])])])]
  in
  let w := fresh_world (scripted [NetResponse 200 (Returned data) (Returned "{...}")]) in
  reply_at w 0 = NetResponse 200 (Returned data) (Returned "{...}")
  /\ stored_rates data = Returned (PDict stored)
  /\ buy_prices t <> []
  /\ Forall (fun sent => dict_lookup (fst sent) stored = Some (PFloat nan)) (buy_prices t)
  /\ fst (_verify_tariff "1234567" "token" (assemble "plan" t []) w) = Returned true.
Proof.
  intros t stored data w.
  assert (buy_prices t <> []) as Hsent by (vm_compute; discriminate).
  assert (Forall (fun sent => dict_lookup (fst sent) stored = Some (PFloat nan)) (buy_prices t))
    as Hnan.
  { vm_compute. repeat (constructor; [reflexivity|]). constructor. }
  split; [reflexivity|]. split; [reflexivity|]. split; [exact Hsent|]. split; [exact Hnan|].
  destruct (verification_accepts_nan "1234567" "token" "plan" t [] w data (Returned "{...}")
              stored eq_refl eq_refl Hsent Hnan) as (w' & ->).
  reflexivity.
Defined.
